(** * Doctor-appointment booking backend: handlers of [backend/api/v1]

    A shallow embedding of the Go handlers (gin + gorm) of the booking
    service, and the properties of its specification proved or refuted on
    that embedding.

    Conventions of the embedding.
    - A [time.Time] is the number of whole seconds since the Unix epoch, in
      UTC (the service is single-region and never converts zones).
    - A gorm table is a finite map from the primary key to the row; the
      auto-increment sequence of each table is part of the database state.
    - A handler is a function from the database (and the request) to the
      new database and the HTTP response; the response body is a JSON tree.
    - Path parameters that name a primary key ([:id]) are given as the
      number they denote.
    - Library code whose result the handlers only pass along (bcrypt, the
      JWT signer, the e-mail syntax check, the marshalling of a row, the
      timestamp input syntax of the database) is a member of the class
      [Externals]. *)

From Stdlib Require Import ZArith NArith Ascii String PrimFloat.
From stdpp Require Import base option list gmap strings fin_maps sorting pretty.

Local Open Scope Z_scope.

(* ================================================================== *)
(** * Package [time]: the layouts the handlers use *)

Module GoTime.

(** Seconds since 1970-01-01T00:00:00Z. *)
Definition Time : Type := Z.

Definition Minute : Z := 60.
Definition Hour : Z := 3600.
Definition secondsPerDay : Z := 86400.

(** [t.Add(d)] with [d] in seconds. *)
Definition Add (t : Time) (d : Z) : Time := t + d.

(** [t.Before(u)]. *)
Definition Before (t u : Time) : bool := bool_decide (t < u).

Definition is_leap (y : Z) : bool :=
  bool_decide (y mod 4 = 0) && (negb (bool_decide (y mod 100 = 0)) || bool_decide (y mod 400 = 0)).

Definition daysIn (m y : Z) : Z :=
  if bool_decide (m = 2) then (if is_leap y then 29 else 28)
  else if bool_decide (m = 4) || bool_decide (m = 6) || bool_decide (m = 9) || bool_decide (m = 11)
       then 30 else 31.

(** Day number (days since the epoch) of the civil date [y]-[m]-[d]. *)
Definition days_from_civil (y m d : Z) : Z :=
  let y' := if bool_decide (m <= 2) then y - 1 else y in
  let era := y' / 400 in
  let yoe := y' - era * 400 in
  let doy := (153 * (if bool_decide (2 < m) then m - 3 else m + 9) + 2) / 5 + d - 1 in
  let doe := yoe * 365 + yoe / 4 - yoe / 100 + doy in
  era * 146097 + doe - 719468.

(** Civil date of a day number. *)
Definition civil_from_days (z0 : Z) : Z * Z * Z :=
  let z := z0 + 719468 in
  let era := z / 146097 in
  let doe := z - era * 146097 in
  let yoe := (doe - doe / 1460 + doe / 36524 - doe / 146096) / 365 in
  let doy := doe - (365 * yoe + yoe / 4 - yoe / 100) in
  let mp := (5 * doy + 2) / 153 in
  let d := doy - (153 * mp + 2) / 5 + 1 in
  let m := if bool_decide (mp < 10) then mp + 3 else mp - 9 in
  let y := yoe + era * 400 + (if bool_decide (m <= 2) then 1 else 0) in
  (y, m, d).

(** [time.Date(y, m, d, hour, min, sec, 0, time.UTC)] for a date given by
    its day number. *)
Definition Date (day hour min sec : Z) : Time :=
  day * secondsPerDay + hour * Hour + min * Minute + sec.

(** The day number of an instant: [DATE(ts)] of the database, and the
    year, month and day of a [time.Time]. *)
Definition day_of (t : Time) : Z := t / secondsPerDay.

Definition hour_of (t : Time) : Z := (t mod secondsPerDay) / Hour.
Definition minute_of (t : Time) : Z := (t mod Hour) / Minute.
Definition second_of (t : Time) : Z := t mod Minute.

Definition digit (n : Z) : ascii := ascii_of_N (Z.to_N (48 + n)).
Definition is_digit (c : ascii) : bool :=
  bool_decide (48 <= Z.of_N (N_of_ascii c) <= 57).
Definition digit_val (c : ascii) : Z := Z.of_N (N_of_ascii c) - 48.

(** Two decimal digits, followed by [rest]. *)
Definition two_digits_then (n : Z) (rest : string) : string :=
  String (digit (n / 10)) (String (digit (n mod 10)) rest).
Definition two_digits (n : Z) : string := two_digits_then n EmptyString.

Definition colon : ascii := ":"%char.
Definition dash : ascii := "-"%char.

(** [t.Format("15:04")]. *)
Definition Format_15_04 (t : Time) : string :=
  two_digits_then (hour_of t) (String colon (two_digits (minute_of t))).

(** [t.Format("15:04:05")]. *)
Definition Format_15_04_05 (t : Time) : string :=
  two_digits_then (hour_of t)
    (String colon (two_digits_then (minute_of t) (String colon (two_digits (second_of t))))).

(** [t.Format("2006-01-02")]. *)
Definition Format_2006_01_02 (t : Time) : string :=
  let '(y, m, d) := civil_from_days (day_of t) in
  two_digits_then (y / 100)
    (two_digits_then (y mod 100)
       (String dash (two_digits_then m (String dash (two_digits d))))).

Definition num2 (a b : ascii) : option Z :=
  if is_digit a && is_digit b then Some (10 * digit_val a + digit_val b) else None.

(** [time.Parse("2006-01-02", s)]: the day number of the date, [None] for
    the parse error. *)
Definition Parse_2006_01_02 (s : string) : option Z :=
  match String.list_ascii_of_string s with
  | [y1; y2; y3; y4; s1; m1; m2; s2; d1; d2] =>
      if bool_decide (s1 = dash) && bool_decide (s2 = dash) then
        yh ← num2 y1 y2; yl ← num2 y3 y4; m ← num2 m1 m2; d ← num2 d1 d2;
        let y := 100 * yh + yl in
        if bool_decide (1 <= m <= 12) && bool_decide (1 <= d <= daysIn m y)
        then Some (days_from_civil y m d) else None
      else None
  | _ => None
  end.

(** A time of day without a date is placed by [time.Parse] on January 1
    of year 0. *)
Definition yearZero : Z := days_from_civil 0 1 1.

(** [time.Parse("15:04:05", s)]. The hour may have one or two digits. *)
Definition Parse_15_04_05 (s : string) : option Time :=
  let finish (h : Z) (m1 m2 c s1 s2 : ascii) : option Time :=
    if bool_decide (c = colon) then
      m ← num2 m1 m2; sec ← num2 s1 s2;
      if bool_decide (h < 24) && bool_decide (m < 60) && bool_decide (sec < 60)
      then Some (Date yearZero h m sec) else None
    else None in
  match String.list_ascii_of_string s with
  | [h1; h2; c1; m1; m2; c2; s1; s2] =>
      if bool_decide (c1 = colon) then h ← num2 h1 h2; finish h m1 m2 c2 s1 s2 else None
  | [h1; c1; m1; m2; c2; s1; s2] =>
      if bool_decide (c1 = colon) && is_digit h1 then finish (digit_val h1) m1 m2 c2 s1 s2
      else None
  | _ => None
  end.

(** [time.Parse("15:04", s)]. The hour may have one or two digits. *)
Definition Parse_15_04 (s : string) : option Time :=
  let finish (h : Z) (m1 m2 : ascii) : option Time :=
    m ← num2 m1 m2;
    if bool_decide (h < 24) && bool_decide (m < 60) then Some (Date yearZero h m 0)
    else None in
  match String.list_ascii_of_string s with
  | [h1; h2; c1; m1; m2] =>
      if bool_decide (c1 = colon) then h ← num2 h1 h2; finish h m1 m2 else None
  | [h1; c1; m1; m2] =>
      if bool_decide (c1 = colon) && is_digit h1 then finish (digit_val h1) m1 m2 else None
  | _ => None
  end.

(** [t.After(u)]. *)
Definition After (t u : Time) : bool := bool_decide (u < t).

(** The [*Location] of a [time.Time] that [encoding/json] decoded: the
    [nil] pointer (written [None]) for a text that ends in [Z], and a zone
    with the offset of the text, in seconds, for any other. The instant
    does not depend on it; the zero value of the struct has the instant
    [zero] below and the [nil] location. *)
Definition Location : Type := option Z.

(** The zero [time.Time] (January 1, year 1), the value [IsZero] tests
    for and the one a missing JSON field leaves behind. *)
Definition zero : Time := Date (days_from_civil 1 1 1) 0 0 0.

End GoTime.

(* ================================================================== *)
(** * JSON values and HTTP responses *)

(** A [gin.H] is a Go map and is written [JMap]; a Go struct is marshalled
    field by field, in the order of its declaration, and is written
    [JStruct]. *)
#[warnings="-register-all"]
Inductive JSON : Type :=
| JNull
| JBool (b : bool)
| JNum (n : Z)
| JFloat (f : float)
| JStr (s : string)
| JArr (l : list JSON)
| JMap (m : gmap string JSON)
| JStruct (fields : list (string * JSON)).

Definition H (fields : list (string * JSON)) : JSON := JMap (list_to_map fields).

Record Response := { status : Z; body : JSON }.

Module http.
Definition StatusOK : Z := 200.
Definition StatusCreated : Z := 201.
Definition StatusBadRequest : Z := 400.
Definition StatusUnauthorized : Z := 401.
Definition StatusForbidden : Z := 403.
Definition StatusNotFound : Z := 404.
Definition StatusConflict : Z := 409.
Definition StatusInternalServerError : Z := 500.
End http.

(** [c.JSON(code, obj)]. *)
Definition c_JSON (code : Z) (obj : JSON) : Response := {| status := code; body := obj |}.

(** [gin.H{"error": msg}] and [gin.H{"message": msg}]. *)
Definition error_body (msg : string) : JSON := H [("error"%string, JStr msg)].
Definition message_body (msg : string) : JSON := H [("message"%string, JStr msg)].

(* ================================================================== *)
(** * Package [models] *)

Module models.

(** Role constants ([UserRole]). *)
Definition PatientRole : string := "patient".
Definition DoctorRole : string := "doctor".
Definition AdminRole : string := "admin".

(** Status constants for appointments. *)
Definition StatusPending : string := "pending".
Definition StatusConfirmed : string := "confirmed".
Definition StatusCancelled : string := "cancelled".
Definition StatusCompleted : string := "completed".

End models.

(** The columns of [gorm.Model] other than the primary key are fields of
    each row; the primary key is the key of the table. Columns that no
    handler of this development reads or writes (phone, address, ratings,
    payment, ...) are left out of the rows. [AutoMigrate] gives the tables
    the foreign keys of the associations: [appointments.patient_id] names a
    row of [users], [appointments.doctor_id] and [doctors.user_id] a row of
    [doctors] and of [users]. *)

Module User.
Record t : Type := mk {
  Name : string;
  Email : string;
  Password : string;
  Role : string;
  Active : bool;
  CreatedAt : GoTime.Time;
  UpdatedAt : GoTime.Time;
  DeletedAt : option GoTime.Time }.

(** The zero value of the struct, which an association that was not
    loaded keeps. *)
Definition zero_value : t :=
  mk "" "" "" "" false GoTime.zero GoTime.zero None.
End User.

Module Doctor.
Record t : Type := mk {
  UserID : N;
  Specialization : string;
  Qualification : string;
  Experience : Z;
  Bio : string;
  ConsultationFee : float;
  Available : bool;
  CreatedAt : GoTime.Time;
  UpdatedAt : GoTime.Time;
  DeletedAt : option GoTime.Time }.
End Doctor.

Module Appointment.
Record t : Type := mk {
  PatientID : N;
  DoctorID : N;
  AppointmentDate : GoTime.Time;
  StartTime : GoTime.Time;
  EndTime : GoTime.Time;
  Status : string;
  Notes : string;
  CreatedAt : GoTime.Time;
  UpdatedAt : GoTime.Time;
  DeletedAt : option GoTime.Time }.

(** Column names of the table that [AutoMigrate] derives from the struct
    (with the columns left out of [t]). *)
Definition columns : list string :=
  ["id"; "created_at"; "updated_at"; "deleted_at"; "patient_id"; "doctor_id";
   "appointment_date"; "start_time"; "end_time"; "status"; "reason"; "notes";
   "is_follow_up"; "follow_up_notes"; "is_paid"; "payment_amount";
   "payment_reference"; "cancellation_reason"]%string.

Definition set_Status (s : string) (now : GoTime.Time) (a : t) : t :=
  mk (PatientID a) (DoctorID a) (AppointmentDate a) (StartTime a) (EndTime a)
     s (Notes a) (CreatedAt a) now (DeletedAt a).
End Appointment.

Module Schedule.
Record t : Type := mk {
  DoctorID : N;
  Date : GoTime.Time;
  StartTime : string;
  EndTime : string;
  IsAvailable : bool;
  CreatedAt : GoTime.Time;
  UpdatedAt : GoTime.Time;
  DeletedAt : option GoTime.Time }.
End Schedule.

(* ================================================================== *)
(** * The database as gorm sees it *)

(** Soft deletion: every statement of gorm on a model with a [DeletedAt]
    column adds [deleted_at IS NULL]. *)
Class GormModel (A : Type) := { deleted_at : A → option GoTime.Time }.

#[global] Instance User_model : GormModel User.t := {| deleted_at := User.DeletedAt |}.
#[global] Instance Doctor_model : GormModel Doctor.t := {| deleted_at := Doctor.DeletedAt |}.
#[global] Instance Appointment_model : GormModel Appointment.t :=
  {| deleted_at := Appointment.DeletedAt |}.

#[global] Instance Schedule_model : GormModel Schedule.t :=
  {| deleted_at := Schedule.DeletedAt |}.

(** A table: its rows by primary key, and the last value its
    auto-increment sequence gave out. *)
Record Table (A : Type) := mkTable { rows : gmap N A; seq : N }.
Arguments mkTable {A} _ _.
Arguments rows {A} _.
Arguments seq {A} _.

(** [online = false] stands for a database that cannot be reached: every
    statement then returns an error. *)
Record DB := mkDB {
  users : Table User.t;
  doctors : Table Doctor.t;
  appointments : Table Appointment.t;
  online : bool }.

Definition with_users (db : DB) (t : Table User.t) : DB :=
  mkDB t (doctors db) (appointments db) (online db).
Definition with_doctors (db : DB) (t : Table Doctor.t) : DB :=
  mkDB (users db) t (appointments db) (online db).
Definition with_appointments (db : DB) (t : Table Appointment.t) : DB :=
  mkDB (users db) (doctors db) t (online db).

Module gorm.

Inductive error := ErrRecordNotFound | ErrStatement.

Inductive result (A : Type) := Ok (a : A) | Err (e : error).
Arguments Ok {A} _.
Arguments Err {A} _.

Definition pk_le {A : Type} (r1 r2 : N * A) : Prop := (r1.1 ≤ r2.1)%N.

#[global] Instance pk_le_dec {A : Type} : RelDecision (@pk_le A).
Proof. intros r1 r2. unfold pk_le. apply _. Defined.

(** The live rows of a table that satisfy a condition, by primary key
    (the order of [First]; a [Find] without [Order] is given the same). *)
Definition Where {A : Type} `{GormModel A} (t : Table A) (cond : N → A → bool)
  : list (N * A) :=
  filter (λ r, deleted_at r.2 = None ∧ cond r.1 r.2 = true)
         (merge_sort pk_le (map_to_list (rows t))).

(** [db.Where(cond).First(&dest)]. *)
Definition First {A : Type} `{GormModel A} (up : bool) (t : Table A)
    (cond : N → A → bool) : result (N * A) :=
  if up then
    match Where t cond with
    | r :: _ => Ok r
    | [] => Err ErrRecordNotFound
    end
  else Err ErrStatement.

(** [db.Where(cond).Find(&dest)]. *)
Definition Find {A : Type} `{GormModel A} (up : bool) (t : Table A)
    (cond : N → A → bool) : result (list (N * A)) :=
  if up then Ok (Where t cond) else Err ErrStatement.

(** [db.Create(&row)] on a table with the unique index [same]; [refs]
    tells whether the rows that the foreign keys of [row] name are there.
    The primary key comes from the sequence, which a refused insert has
    used up all the same. *)
Definition Create {A : Type} (up : bool) (same : A → A → bool) (refs : bool)
    (t : Table A) (row : A) : Table A * result N :=
  if up then
    let id := (seq t + 1)%N in
    if bool_decide (is_Some (rows t !! id))
       || bool_decide (Exists (λ r, same r.2 row = true) (map_to_list (rows t)))
       || negb refs
    then (mkTable (rows t) id, Err ErrStatement)
    else (mkTable (<[id := row]> (rows t)) id, Ok id)
  else (t, Err ErrStatement).

(** [db.Model(..).Where(cond).Update(column, value)], with the number of
    rows affected. *)
Definition Update {A : Type} `{GormModel A} (up : bool) (t : Table A)
    (cond : N → A → bool) (set : A → A) : Table A * result Z :=
  if up then
    (mkTable (map_imap (λ k a,
                Some (if bool_decide (deleted_at a = None) && cond k a then set a else a))
              (rows t)) (seq t),
     Ok (Z.of_nat (length (Where t cond))))
  else (t, Err ErrStatement).

End gorm.

(* ================================================================== *)
(** * Library code taken as given *)

Class Externals := {
  (** [bcrypt.GenerateFromPassword]: the hash, or [None] for its error. *)
  bcrypt_GenerateFromPassword : string → option string;
  (** [bcrypt.CompareHashAndPassword hash password]: [true] for [nil]. *)
  bcrypt_CompareHashAndPassword : string → string → bool;
  (** [middleware.GenerateToken id email role] (the middleware package is
      not part of the sources read here). *)
  GenerateToken : N → string → string → option string;
  (** The [email] tag of the validator. *)
  validator_email : string → bool;
  (** The text of the validator's error for the failed (field, tag) pairs. *)
  validator_error : list (string * string) → string;
  (** The database reading a timestamp literal; [None] when it refuses. *)
  pg_timestamp : string → option GoTime.Time;
  (** The database reading an integer literal. *)
  pg_integer : string → option N;
  (** [value ILIKE pattern]. *)
  pg_ilike : string → string → bool;
  (** [Offset(offset).Limit(limit)] applied to the rows of a statement. *)
  gorm_page : ∀ A : Type, Z → Z → list A → list A;
  (** [encoding/json] on a [models.Appointment] read from the tables given,
      with the associations named loaded. *)
  marshal_Appointment :
    gmap N User.t → gmap N Doctor.t → list string → N → Appointment.t → JSON;
  (** [encoding/json] on a [models.User]. *)
  marshal_User : N → User.t → JSON }.

(* ================================================================== *)
(** * Request binding ([c.ShouldBindJSON]) *)

Module binding.

(** One field: the first tag that fails is reported. *)
Definition field (name : string) (tags : list (string * bool)) : list (string * string) :=
  match filter (λ r, r.2 = false) tags with
  | (tag, _) :: _ => [(name, tag)]
  | [] => []
  end.

Definition required_string (s : string) : bool := negb (bool_decide (s = ""%string)).

(** [utf8.RuneCountInString] on a string decoded from JSON (which is valid
    UTF-8): the bytes that are not continuation bytes. *)
Definition RuneCountInString (s : string) : Z :=
  Z.of_nat (length (filter (λ c, ¬ (128 <= Z.of_N (N_of_ascii c) < 192))
                           (String.list_ascii_of_string s))).

Definition oneof (allowed : list string) (s : string) : bool := bool_decide (s ∈ allowed).

(** The body is [inl msg] when [encoding/json] refuses it with the error
    [msg], and the decoded struct otherwise (a missing field keeps its zero
    value). *)
Definition ShouldBindJSON `{Externals} {R : Type} (validate : R → list (string * string))
    (body : string + R) : string + R :=
  match body with
  | inl msg => inl msg
  | inr r =>
      match validate r with
      | [] => inr r
      | errs => inl (validator_error errs)
      end
  end.

End binding.

(** [strconv.Atoi] on a 64-bit platform, as used by the handlers: the
    error is dropped, so a syntax error gives 0 and a number out of range
    the nearest bound. *)
Definition Atoi (s : string) : Z :=
  let number (neg : bool) (ds : list ascii) : Z :=
    if bool_decide (ds = []) || negb (forallb GoTime.is_digit ds) then 0
    else
      let v := foldl (λ acc c, 10 * acc + GoTime.digit_val c) 0 ds in
      if neg then Z.max (- 2 ^ 63) (- v) else Z.min (2 ^ 63 - 1) v in
  match String.list_ascii_of_string s with
  | "+"%char :: ds => number false ds
  | "-"%char :: ds => number true ds
  | ds => number false ds
  end.

(** [strconv.Atoi] with its error: [None] for a text that is no decimal
    numeral with an optional sign, and for a number out of the range of
    [int]. *)
Definition strconv_Atoi (s : string) : option Z :=
  let number (neg : bool) (ds : list ascii) : option Z :=
    if bool_decide (ds = []) || negb (forallb GoTime.is_digit ds) then None
    else
      let v := foldl (λ acc c, 10 * acc + GoTime.digit_val c) 0 ds in
      if neg then (if bool_decide (v <= 2 ^ 63) then Some (- v) else None)
      else (if bool_decide (v <= 2 ^ 63 - 1) then Some v else None) in
  match String.list_ascii_of_string s with
  | "+"%char :: ds => number false ds
  | "-"%char :: ds => number true ds
  | ds => number false ds
  end.

(** Arithmetic of Go's [int]. *)
Definition wrap64 (z : Z) : Z := (z + 2 ^ 63) mod 2 ^ 64 - 2 ^ 63.

(** [c.DefaultQuery(key, def)]. *)
Definition DefaultQuery (value : option string) (def : string) : string := default def value.

(* ================================================================== *)
(** * Package [v1]: the appointment controller *)

Module v1.
Section handlers.
Context `{Externals}.

Import gorm.

Definition respond_error (code : Z) (msg : string) : Response := c_JSON code (error_body msg).

(** ** UpdateAppointmentStatus *)

Record StatusRequest := { req_Status : string }.

(** [binding:"required,oneof=confirmed cancelled completed"] *)
Definition validate_StatusRequest (r : StatusRequest) : list (string * string) :=
  binding.field "Status"
    [("required"%string, binding.required_string (req_Status r));
     ("oneof"%string,
      binding.oneof ["confirmed"; "cancelled"; "completed"]%string (req_Status r))].

Definition UpdateAppointmentStatus (db : DB) (now : GoTime.Time) (userID appointmentID : N)
    (body : string + StatusRequest) : DB * Response :=
  (* Find doctor by user ID *)
  match First (online db) (doctors db) (λ _ d, bool_decide (Doctor.UserID d = userID)) with
  | Err _ => (db, respond_error http.StatusNotFound "Doctor not found")
  | Ok (doctor_ID, _) =>
      (* Parse request body *)
      match binding.ShouldBindJSON validate_StatusRequest body with
      | inl err => (db, respond_error http.StatusBadRequest err)
      | inr request =>
          (* Update appointment status *)
          let '(tbl, result) :=
            Update (online db) (appointments db)
              (λ id a, bool_decide (id = appointmentID)
                       && bool_decide (Appointment.DoctorID a = doctor_ID))
              (Appointment.set_Status (req_Status request) now) in
          match result with
          | Err _ =>
              (db, respond_error http.StatusInternalServerError
                     "Failed to update appointment status")
          | Ok RowsAffected =>
              if bool_decide (RowsAffected = 0)
              then (db, respond_error http.StatusNotFound "Appointment not found")
              else (with_appointments db tbl,
                    c_JSON http.StatusOK
                      (message_body "Appointment status updated successfully"))
          end
      end
  end.

(** ** GetDoctorAvailability *)

(** The loop that generates the time slots. It stops when the fuel runs
    out; [GetDoctorAvailability] gives it more fuel than it has
    iterations. The instants and the step are exact integers: that is the
    loop of the source as long as the step
    [time.Duration(duration) * time.Minute], an [int64] of nanoseconds,
    does not wrap, which it does from 153722868 minutes on; the handler
    calls it with 30. *)
Fixpoint generate_slots (fuel : nat) (currentTime endTime : GoTime.Time) (duration : Z)
    (timeSlots : list string) : option (list string) :=
  if GoTime.Before currentTime endTime then
    match fuel with
    | O => None
    | S fuel' =>
        generate_slots fuel' (GoTime.Add currentTime (duration * GoTime.Minute)) endTime
          duration (timeSlots ++ [GoTime.Format_15_04 currentTime])
    end
  else Some timeSlots.

(** The map [bookedSlots] after the loop over the appointments of the day. *)
Definition mark_booked (bookedAppointments : list (N * Appointment.t)) : gmap string bool :=
  foldl (λ (bookedSlots : gmap string bool) appt,
           match GoTime.Parse_15_04_05
                   (GoTime.Format_15_04_05 (Appointment.StartTime appt.2)) with
           | Some t => <[GoTime.Format_15_04 t := true]> bookedSlots
           | None => bookedSlots
           end)
        ∅ bookedAppointments.

(** [bookedSlots[slot]]: a missing key reads as [false]. *)
Definition booked (bookedSlots : gmap string bool) (slot : string) : bool :=
  default false (bookedSlots !! slot).

Definition filter_available (bookedSlots : gmap string bool) (timeSlots : list string)
  : list string :=
  foldl (λ availableSlots slot,
           if negb (booked bookedSlots slot) then availableSlots ++ [slot]
           else availableSlots)
        [] timeSlots.

(** The result is [None] only if the slot loop is cut short. [date] is the
    query parameter, when the request has one. The path parameter is taken
    as the decimal numeral of the key [doctorID];
    [GetDoctorAvailability_by_param] below is the handler on any string. *)
Definition GetDoctorAvailability (db : DB) (now : GoTime.Time) (doctorID : N)
    (date : option string) : option Response :=
  let dateStr := DefaultQuery date (GoTime.Format_2006_01_02 now) in
  (* Parse date *)
  match GoTime.Parse_2006_01_02 dateStr with
  | None =>
      Some (respond_error http.StatusBadRequest "Invalid date format. Use YYYY-MM-DD")
  | Some day =>
      (* Find doctor *)
      match First (online db) (doctors db) (λ id _, bool_decide (id = doctorID)) with
      | Err _ => Some (respond_error http.StatusNotFound "Doctor not found")
      | Ok _ =>
          let startHour := 9 in
          let endHour := 17 in
          let duration := 30 in
          (* Generate time slots *)
          let currentTime := GoTime.Date day startHour 0 0 in
          let endTime := GoTime.Date day endHour 0 0 in
          timeSlots ← generate_slots (Z.to_nat (endTime - currentTime)) currentTime endTime
                         duration [];
          (* Get booked appointments for the day *)
          match Find (online db) (appointments db)
                  (λ _ a, bool_decide (Appointment.DoctorID a = doctorID)
                          && bool_decide (GoTime.day_of (Appointment.AppointmentDate a) = day))
          with
          | Err _ =>
              Some (respond_error http.StatusInternalServerError "Failed to fetch appointments")
          | Ok bookedAppointments =>
              (* Filter out booked time slots *)
              let bookedSlots := mark_booked bookedAppointments in
              let availableSlots := filter_available bookedSlots timeSlots in
              Some (c_JSON http.StatusOK
                      (H [("doctor_id"%string, JStr (pretty doctorID));
                          ("date"%string, JStr dateStr);
                          ("available_slots"%string, JArr (JStr <$> availableSlots))]))
          end
      end
  end.

(** ** BookAppointment *)

(** The field [ScheduledAt] is a [time.Time]: its instant, in whole
    seconds, and its location. *)
Record BookRequest := {
  req_DoctorID : N;
  req_ScheduledAt : GoTime.Time;
  req_ScheduledAt_loc : GoTime.Location;
  req_Notes : string }.

(** [doctor_id] and [scheduled_at] are [binding:"required"]: the zero value
    of the field fails. For the [time.Time] that is the zero value of the
    struct, the zero instant with the [nil] location: the zero instant
    written with an offset is a value like any other. *)
Definition validate_BookRequest (r : BookRequest) : list (string * string) :=
  binding.field "DoctorID" [("required"%string, negb (bool_decide (req_DoctorID r = 0%N)))]
  ++ binding.field "ScheduledAt"
       [("required"%string,
         negb (bool_decide (req_ScheduledAt r = GoTime.zero
                            ∧ req_ScheduledAt_loc r = None)))].

Definition BookAppointment (db : DB) (now : GoTime.Time) (userID : N)
    (body : string + BookRequest) : DB * Response :=
  (* Parse request body *)
  match binding.ShouldBindJSON validate_BookRequest body with
  | inl err => (db, respond_error http.StatusBadRequest err)
  | inr request =>
      (* Check if doctor exists *)
      match First (online db) (doctors db)
              (λ id _, bool_decide (id = req_DoctorID request)) with
      | Err _ => (db, respond_error http.StatusNotFound "Doctor not found")
      | Ok _ =>
          (* Check if doctor is available at the requested time *)
          match First (online db) (appointments db)
                  (λ _ a, bool_decide (Appointment.DoctorID a = req_DoctorID request)
                          && bool_decide (Appointment.AppointmentDate a = req_ScheduledAt request)
                          && bool_decide (Appointment.StartTime a = req_ScheduledAt request))
          with
          | Ok _ =>
              (db, respond_error http.StatusConflict
                     "Doctor is not available at the requested time")
          | Err _ =>
              (* Create appointment *)
              let appointment :=
                Appointment.mk userID (req_DoctorID request) (req_ScheduledAt request)
                  (req_ScheduledAt request)
                  (GoTime.Add (req_ScheduledAt request) (30 * GoTime.Minute))
                  "pending" (req_Notes request) now now None in
              let '(tbl, created) :=
                Create (online db) (λ _ _, false)
                  (bool_decide (is_Some (rows (users db) !! userID))
                   && bool_decide (is_Some (rows (doctors db) !! req_DoctorID request)))
                  (appointments db) appointment in
              match created with
              | Err _ =>
                  (with_appointments db tbl,
                   respond_error http.StatusInternalServerError "Failed to book appointment")
              | Ok id =>
                  (with_appointments db tbl,
                   c_JSON http.StatusCreated
                     (marshal_Appointment ∅ ∅ [] id appointment))
              end
          end
      end
  end.

(** ** CancelAppointment *)

Definition CancelAppointment (db : DB) (now : GoTime.Time) (userID appointmentID : N)
  : DB * Response :=
  (* Find appointment *)
  match First (online db) (appointments db)
          (λ id a, bool_decide (id = appointmentID)
                   && bool_decide (Appointment.PatientID a = userID)) with
  | Err _ => (db, respond_error http.StatusNotFound "Appointment not found")
  | Ok (appointment_ID, appointment) =>
      (* Check if appointment can be cancelled *)
      if bool_decide (Appointment.Status appointment = models.StatusCancelled)
      then (db, respond_error http.StatusBadRequest "Appointment is already cancelled")
      else
        (* Update status to cancelled *)
        let '(tbl, result) :=
          Update (online db) (appointments db) (λ id _, bool_decide (id = appointment_ID))
            (Appointment.set_Status models.StatusCancelled now) in
        match result with
        | Err _ =>
            (db, respond_error http.StatusInternalServerError "Failed to cancel appointment")
        | Ok _ =>
            (with_appointments db tbl,
             c_JSON http.StatusOK (message_body "Appointment cancelled successfully"))
        end
  end.

(** ** GetDoctorAppointments, GetPatientAppointments *)

(** The timestamp columns of the appointments table that a clause can
    name. A name that is no column makes the statement fail. *)
Definition time_column (column : string) : option (Appointment.t → GoTime.Time) :=
  if bool_decide (column = "appointment_date"%string) then Some Appointment.AppointmentDate
  else if bool_decide (column = "start_time"%string) then Some Appointment.StartTime
  else if bool_decide (column = "end_time"%string) then Some Appointment.EndTime
  else if bool_decide (column = "created_at"%string) then Some Appointment.CreatedAt
  else if bool_decide (column = "updated_at"%string) then Some Appointment.UpdatedAt
  else None.

(** The optional filters [status = ?], [column >= ?] and [column <= ?]. A
    bound that the database cannot read as a timestamp makes the statement
    fail ([None]). *)
Definition appointment_filters (column status startDate endDate : string)
  : option (Appointment.t → bool) :=
  lo ← (if bool_decide (startDate = ""%string) then Some (λ _, true)
        else get ← time_column column; t ← pg_timestamp startDate;
             Some (λ a, bool_decide (t <= get a)));
  hi ← (if bool_decide (endDate = ""%string) then Some (λ _, true)
        else get ← time_column column; t ← pg_timestamp endDate;
             Some (λ a, bool_decide (get a <= t)));
  Some (λ a, (bool_decide (status = ""%string)
              || bool_decide (Appointment.Status a = status))
             && lo a && hi a).

Definition sort_by {A : Type} (before : A → A → bool) (l : list A) : list A :=
  @merge_sort A (λ x y, before x y = true) (λ x y, decide (before x y = true)) l.

(** [Order("appointment_date DESC, start_time DESC")]; rows that agree on
    both columns stay in primary-key order. *)
Definition later_first (r1 r2 : N * Appointment.t) : bool :=
  bool_decide (Appointment.AppointmentDate r2.2 < Appointment.AppointmentDate r1.2)
  || (bool_decide (Appointment.AppointmentDate r2.2 = Appointment.AppointmentDate r1.2)
      && bool_decide (Appointment.StartTime r2.2 <= Appointment.StartTime r1.2)).

Definition find_appointments (db : DB) (owner : Appointment.t → bool)
    (status startDate endDate : string) : result (list (N * Appointment.t)) :=
  match appointment_filters "appointment_date" status startDate endDate with
  | None => Err ErrStatement
  | Some keep =>
      match Find (online db) (appointments db) (λ _ a, owner a && keep a) with
      | Ok found => Ok (sort_by later_first found)
      | Err e => Err e
      end
  end.

Definition marshal_appointments (db : DB) (preload : list string)
    (l : list (N * Appointment.t)) : JSON :=
  JArr ((λ r, marshal_Appointment (rows (users db)) (rows (doctors db)) preload r.1 r.2) <$> l).

Definition GetDoctorAppointments (db : DB) (userID : N) (status startDate endDate : string)
  : Response :=
  (* Find doctor by user ID *)
  match First (online db) (doctors db) (λ _ d, bool_decide (Doctor.UserID d = userID)) with
  | Err _ => respond_error http.StatusNotFound "Doctor not found"
  | Ok (doctor_ID, _) =>
      match find_appointments db (λ a, bool_decide (Appointment.DoctorID a = doctor_ID))
              status startDate endDate with
      | Err _ => respond_error http.StatusInternalServerError "Failed to fetch appointments"
      | Ok appointments =>
          c_JSON http.StatusOK (marshal_appointments db ["Patient"]%string appointments)
      end
  end.

Definition GetPatientAppointments (db : DB) (userID : N) (status startDate endDate : string)
  : Response :=
  match find_appointments db (λ a, bool_decide (Appointment.PatientID a = userID))
          status startDate endDate with
  | Err _ => respond_error http.StatusInternalServerError "Failed to fetch appointments"
  | Ok appointments =>
      c_JSON http.StatusOK
        (marshal_appointments db ["Doctor"; "Doctor.User"; "Patient"]%string appointments)
  end.

(** ** ListAllAppointments *)

(** gin's recovery middleware answers a panic of the handler with status
    500 and no body (written [JNull]). *)
Definition recovered_panic : Response := {| status := 500; body := JNull |}.

Definition id_filter (literal : string) (get : Appointment.t → N)
  : option (Appointment.t → bool) :=
  if bool_decide (literal = ""%string) then Some (λ _, true)
  else n ← pg_integer literal; Some (λ a, bool_decide (get a = n)).

(** The statement orders and filters by a column [scheduled_at]. *)
Definition ListAllAppointments (db : DB) (status startDate endDate doctorID patientID : string)
    (page limit : option string) : Response :=
  (* Build query, apply filters *)
  let query : result (list (N * Appointment.t)) :=
    match
      get ← time_column "scheduled_at";
      keep ← appointment_filters "scheduled_at" status startDate endDate;
      by_doctor ← id_filter doctorID Appointment.DoctorID;
      by_patient ← id_filter patientID Appointment.PatientID;
      Some (get, λ a : Appointment.t, keep a && by_doctor a && by_patient a)
    with
    | None => Err ErrStatement
    | Some (get, cond) =>
        match Find (online db) (appointments db) (λ _ a, cond a) with
        | Ok found => Ok (sort_by (λ r1 r2, bool_decide (get r2.2 <= get r1.2)) found)
        | Err e => Err e
        end
    end in
  (* Pagination *)
  let page := Atoi (DefaultQuery page "1") in
  let limit := Atoi (DefaultQuery limit "10") in
  let offset := wrap64 ((page - 1) * limit) in
  let total := match query with Ok found => Z.of_nat (length found) | Err _ => 0 end in
  match query with
  | Err _ => respond_error http.StatusInternalServerError "Failed to fetch appointments"
  | Ok found =>
      let appointments := gorm_page _ offset limit found in
      if bool_decide (limit = 0) then recovered_panic
      else
        c_JSON http.StatusOK
          (H [("data"%string, marshal_appointments db ["Doctor"; "Patient"]%string appointments);
              ("meta"%string,
               H [("total"%string, JNum total);
                  ("page"%string, JNum page);
                  ("limit"%string, JNum limit);
                  ("totalPage"%string,
                   JNum (Z.quot (wrap64 (wrap64 (total + limit) - 1)) limit))])])
  end.

(** * The user controller: ListAllUsers *)

Definition clear_Password (u : User.t) : User.t :=
  User.mk (User.Name u) (User.Email u) "" (User.Role u) (User.Active u)
    (User.CreatedAt u) (User.UpdatedAt u) (User.DeletedAt u).

Definition ListAllUsers (db : DB) (role active : string) (page limit : option string)
  : Response :=
  (* Apply filters *)
  let cond (u : User.t) : bool :=
    (bool_decide (role = ""%string) || bool_decide (User.Role u = role))
    && (bool_decide (active = ""%string)
        || bool_decide (User.Active u = bool_decide (active = "true"%string))) in
  let query := Find (online db) (users db) (λ _ u, cond u) in
  (* Pagination *)
  let page := Atoi (DefaultQuery page "1") in
  let limit := Atoi (DefaultQuery limit "10") in
  let offset := wrap64 ((page - 1) * limit) in
  let total := match query with Ok found => Z.of_nat (length found) | Err _ => 0 end in
  match query with
  | Err _ => respond_error http.StatusInternalServerError "Failed to fetch users"
  | Ok found =>
      (* Don't return password hashes *)
      let users := (λ r : N * User.t, (r.1, clear_Password r.2)) <$> gorm_page _ offset limit found in
      c_JSON http.StatusOK
        (H [("data"%string, JArr ((λ r, marshal_User r.1 r.2) <$> users));
            ("total"%string, JNum total);
            ("page"%string, JNum page);
            ("limit"%string, JNum limit)])
  end.

(** * The doctor controller: ListDoctors *)

(** [Preload("User")]: the live user the doctor row names, or the zero
    value of the struct. *)
Definition preload_User (db : DB) (d : Doctor.t) : User.t :=
  match rows (users db) !! Doctor.UserID d with
  | Some u => if bool_decide (User.DeletedAt u = None) then u else User.zero_value
  | None => User.zero_value
  end.

Definition DoctorResponse (db : DB) (r : N * Doctor.t) : JSON :=
  JStruct [("id"%string, JNum (Z.of_N r.1));
           ("name"%string, JStr (User.Name (preload_User db r.2)));
           ("specialization"%string, JStr (Doctor.Specialization r.2));
           ("qualification"%string, JStr (Doctor.Qualification r.2));
           ("experience"%string, JNum (Doctor.Experience r.2));
           ("bio"%string, JStr (Doctor.Bio r.2));
           ("consultation_fee"%string, JFloat (Doctor.ConsultationFee r.2))].

Definition ListDoctors (db : DB) (specialization name : string) (page limit : option string)
  : Response :=
  (* Apply filters *)
  let cond (d : Doctor.t) : bool :=
    Doctor.Available d
    && (bool_decide (specialization = ""%string)
        || bool_decide (Doctor.Specialization d = specialization))
    && (bool_decide (name = ""%string)
        || match rows (users db) !! Doctor.UserID d with
           | Some u => pg_ilike ("%" +:+ name +:+ "%") (User.Name u)
           | None => false
           end) in
  let query := Find (online db) (doctors db) (λ _ d, cond d) in
  (* Pagination *)
  let page := Atoi (DefaultQuery page "1") in
  let limit := Atoi (DefaultQuery limit "10") in
  let offset := wrap64 ((page - 1) * limit) in
  let total := match query with Ok found => Z.of_nat (length found) | Err _ => 0 end in
  match query with
  | Err _ => respond_error http.StatusInternalServerError "Failed to fetch doctors"
  | Ok found =>
      let doctors := gorm_page _ offset limit found in
      (* Prepare response: a slice that nothing was appended to is nil *)
      let response :=
        match doctors with
        | [] => JNull
        | _ => JArr (DoctorResponse db <$> doctors)
        end in
      c_JSON http.StatusOK
        (H [("data"%string, response);
            ("total"%string, JNum total);
            ("page"%string, JNum page);
            ("limit"%string, JNum limit)])
  end.

(** * The auth controller *)

Record RegisterRequest := {
  reg_Name : string;
  reg_Email : string;
  reg_Password : string;
  reg_Role : string;
  reg_Specialization : string;
  reg_Qualification : string;
  reg_Experience : Z;
  reg_Bio : string;
  reg_ConsultationFee : float }.

Definition validate_RegisterRequest (r : RegisterRequest) : list (string * string) :=
  binding.field "Name" [("required"%string, binding.required_string (reg_Name r))]
  ++ binding.field "Email"
       [("required"%string, binding.required_string (reg_Email r));
        ("email"%string, validator_email (reg_Email r))]
  ++ binding.field "Password"
       [("required"%string, binding.required_string (reg_Password r));
        ("min"%string, bool_decide (8 <= binding.RuneCountInString (reg_Password r)))]
  ++ binding.field "Role"
       [("required"%string, binding.required_string (reg_Role r));
        ("oneof"%string, binding.oneof ["patient"; "doctor"]%string (reg_Role r))].

Record LoginRequest := { login_Email : string; login_Password : string }.

Definition validate_LoginRequest (r : LoginRequest) : list (string * string) :=
  binding.field "Email"
    [("required"%string, binding.required_string (login_Email r));
     ("email"%string, validator_email (login_Email r))]
  ++ binding.field "Password"
       [("required"%string, binding.required_string (login_Password r))].

Definition AuthResponse (token : string) (id : N) (user : User.t) : JSON :=
  JStruct [("token"%string, JStr token);
           ("user"%string,
            JStruct [("id"%string, JNum (Z.of_N id));
                     ("name"%string, JStr (User.Name user));
                     ("email"%string, JStr (User.Email user));
                     ("role"%string, JStr (User.Role user))])].

(** [tx.Create(&user)]: the [BeforeCreate] hook replaces the password by
    its hash; when the hook fails nothing is inserted. The e-mail column
    has a unique index. *)
Definition Create_User (up : bool) (t : Table User.t) (user : User.t)
  : Table User.t * result (N * User.t) :=
  match bcrypt_GenerateFromPassword (User.Password user) with
  | None => (t, Err ErrStatement)
  | Some hashedPassword =>
      let hashed :=
        User.mk (User.Name user) (User.Email user) hashedPassword (User.Role user)
          (User.Active user) (User.CreatedAt user) (User.UpdatedAt user)
          (User.DeletedAt user) in
      let '(t', created) :=
        Create up (λ old new, bool_decide (User.Email old = User.Email new)) true t hashed in
      (t', match created with Ok id => Ok (id, hashed) | Err e => Err e end)
  end.

(** [tx.Rollback()]: the rows are those before the transaction; the
    sequences keep the values they gave out. *)
Definition Rollback (db tx : DB) : DB :=
  mkDB (mkTable (rows (users db)) (seq (users tx)))
       (mkTable (rows (doctors db)) (seq (doctors tx)))
       (mkTable (rows (appointments db)) (seq (appointments tx)))
       (online db).

(** ** RegisterUser *)

Definition RegisterUser (db : DB) (now : GoTime.Time) (body : string + RegisterRequest)
  : DB * Response :=
  match binding.ShouldBindJSON validate_RegisterRequest body with
  | inl err => (db, respond_error http.StatusBadRequest err)
  | inr req =>
      (* Check if user already exists *)
      match First (online db) (users db)
              (λ _ u, bool_decide (User.Email u = reg_Email req)) with
      | Ok _ => (db, respond_error http.StatusBadRequest "Email already registered")
      | Err _ =>
          (* Create new user *)
          let user :=
            User.mk (reg_Name req) (reg_Email req) (reg_Password req) (reg_Role req) true
              now now None in
          (* Start a transaction; create user *)
          let '(users', created) := Create_User (online db) (users db) user in
          let tx := with_users db users' in
          match created with
          | Err _ =>
              (Rollback db tx,
               respond_error http.StatusInternalServerError "Failed to create user")
          | Ok (user_ID, user) =>
              (* If user is a doctor, create doctor profile *)
              let '(tx, profile) :=
                if bool_decide (User.Role user = models.DoctorRole) then
                  let doc :=
                    Doctor.mk user_ID (reg_Specialization req) (reg_Qualification req)
                      (reg_Experience req) (reg_Bio req) (reg_ConsultationFee req) true
                      now now None in
                  let '(doctors', r) :=
                    Create (online db)
                      (λ old new, bool_decide (Doctor.UserID old = Doctor.UserID new))
                      (bool_decide (is_Some (rows (users tx) !! user_ID)))
                      (doctors tx) doc in
                  (with_doctors tx doctors', r)
                else (tx, Ok user_ID) in
              match profile with
              | Err _ =>
                  (Rollback db tx,
                   respond_error http.StatusInternalServerError
                     "Failed to create doctor profile")
              | Ok _ =>
                  (* Commit the transaction *)
                  if negb (online db) then
                    (Rollback db tx,
                     respond_error http.StatusInternalServerError
                       "Failed to complete registration")
                  else
                    (* Generate JWT token *)
                    match GenerateToken user_ID (User.Email user) (User.Role user) with
                    | None =>
                        (tx, respond_error http.StatusInternalServerError
                               "Failed to generate token")
                    | Some token =>
                        (tx, c_JSON http.StatusCreated (AuthResponse token user_ID user))
                    end
              end
          end
      end
  end.

(** ** LoginUser *)

Definition LoginUser (db : DB) (body : string + LoginRequest) : Response :=
  match binding.ShouldBindJSON validate_LoginRequest body with
  | inl err => respond_error http.StatusBadRequest err
  | inr req =>
      (* Find user by email *)
      match First (online db) (users db)
              (λ _ u, bool_decide (User.Email u = login_Email req)) with
      | Err _ => respond_error http.StatusUnauthorized "Invalid email or password"
      | Ok (user_ID, user) =>
          (* Check password *)
          if negb (bcrypt_CompareHashAndPassword (User.Password user) (login_Password req))
          then respond_error http.StatusUnauthorized "Invalid email or password"
          else
            (* Check if user is active *)
            if negb (User.Active user)
            then respond_error http.StatusForbidden "Account is deactivated"
            else
              (* Generate JWT token *)
              match GenerateToken user_ID (User.Email user) (User.Role user) with
              | None =>
                  respond_error http.StatusInternalServerError "Failed to generate token"
              | Some token => c_JSON http.StatusOK (AuthResponse token user_ID user)
              end
      end
  end.

(** * The user controller: UpdateUserStatus, UpdateUserProfile *)

(** [User.BeforeUpdate]: when the statement changes the password column,
    the password is replaced by its hash; [None] is the hook's error. The
    two statements below do not change the column for gorm: [Update] of
    the single column [active], and [Save] of the struct that is also the
    model of the statement. *)
Definition BeforeUpdate (changed_Password : bool) (password : string) : option string :=
  if changed_Password then bcrypt_GenerateFromPassword password else Some password.

Definition set_Active (active : bool) (now : GoTime.Time) (u : User.t) : User.t :=
  User.mk (User.Name u) (User.Email u) (User.Password u) (User.Role u) active
    (User.CreatedAt u) now (User.DeletedAt u).

Record UpdateUserStatusRequest := { req_Active : bool }.

(** No row count is looked at: an id that selects no user is answered like
    one that does. *)
Definition UpdateUserStatus (db : DB) (now : GoTime.Time) (userID : N)
    (body : string + UpdateUserStatusRequest) : DB * Response :=
  match binding.ShouldBindJSON (λ _, []) body with
  | inl err => (db, respond_error http.StatusBadRequest err)
  | inr req =>
      (* Update user status *)
      let '(tbl, result) :=
        Update (online db) (users db) (λ id _, bool_decide (id = userID))
          (λ u, match BeforeUpdate false (User.Password u) with
                | Some _ => set_Active (req_Active req) now u
                | None => u
                end) in
      match result with
      | Err _ =>
          (db, respond_error http.StatusInternalServerError "Failed to update user status")
      | Ok _ =>
          (with_users db tbl,
           c_JSON http.StatusOK (message_body "User status updated successfully"))
      end
  end.

Record UpdateProfileRequest := {
  upd_Name : string;
  upd_Email : string;
  upd_Password : string }.

(** [hashPassword]. *)
Definition hashPassword (password : string) : option string :=
  bcrypt_GenerateFromPassword password.

(** [tx.Save(&user)] for a user with primary key [id]: every column is
    written, [updated_at] is set, and the unique index on the e-mail
    column refuses an address that another row has. *)
Definition Save_User (up : bool) (t : Table User.t) (id : N) (user : User.t)
    (now : GoTime.Time) : Table User.t * result User.t :=
  if up then
    match BeforeUpdate false (User.Password user) with
    | None => (t, Err ErrStatement)
    | Some password =>
        if bool_decide (Exists (λ r : N * User.t, r.1 ≠ id ∧ User.Email r.2 = User.Email user)
                               (map_to_list (rows t)))
        then (t, Err ErrStatement)
        else
          let saved :=
            User.mk (User.Name user) (User.Email user) password (User.Role user)
              (User.Active user) (User.CreatedAt user) now (User.DeletedAt user) in
          (mkTable (<[id := saved]> (rows t)) (seq t), Ok saved)
    end
  else (t, Err ErrStatement).

Definition with_Name (name : string) (u : User.t) : User.t :=
  User.mk name (User.Email u) (User.Password u) (User.Role u) (User.Active u)
    (User.CreatedAt u) (User.UpdatedAt u) (User.DeletedAt u).
Definition with_Email (email : string) (u : User.t) : User.t :=
  User.mk (User.Name u) email (User.Password u) (User.Role u) (User.Active u)
    (User.CreatedAt u) (User.UpdatedAt u) (User.DeletedAt u).
Definition with_Password (password : string) (u : User.t) : User.t :=
  User.mk (User.Name u) (User.Email u) password (User.Role u) (User.Active u)
    (User.CreatedAt u) (User.UpdatedAt u) (User.DeletedAt u).

Definition UpdateUserProfile (db : DB) (now : GoTime.Time) (userID : N)
    (body : string + UpdateProfileRequest) : DB * Response :=
  match binding.ShouldBindJSON (λ _, []) body with
  | inl err => (db, respond_error http.StatusBadRequest err)
  | inr req =>
      (* Start transaction; get user *)
      match First (online db) (users db) (λ id _, bool_decide (id = userID)) with
      | Err _ => (db, respond_error http.StatusNotFound "User not found")
      | Ok (user_ID, user) =>
          (* Update user fields *)
          let user :=
            if negb (bool_decide (upd_Name req = ""%string)) then with_Name (upd_Name req) user
            else user in
          let email_step : string + User.t :=
            if negb (bool_decide (upd_Email req = ""%string))
               && negb (bool_decide (upd_Email req = User.Email user))
            then
              (* Check if email is already taken *)
              match First (online db) (users db)
                      (λ _ u, bool_decide (User.Email u = upd_Email req)) with
              | Ok _ => inl "Email already in use"%string
              | Err _ => inr (with_Email (upd_Email req) user)
              end
            else inr user in
          match email_step with
          | inl msg => (db, respond_error http.StatusBadRequest msg)
          | inr user =>
              let password_step : option User.t :=
                if negb (bool_decide (upd_Password req = ""%string)) then
                  hashedPassword ← hashPassword (upd_Password req);
                  Some (with_Password hashedPassword user)
                else Some user in
              match password_step with
              | None =>
                  (db, respond_error http.StatusInternalServerError "Failed to hash password")
              | Some user =>
                  let '(tbl, saved) := Save_User (online db) (users db) user_ID user now in
                  match saved with
                  | Err _ =>
                      (db, respond_error http.StatusInternalServerError
                             "Failed to update profile")
                  | Ok user =>
                      (* Don't return password hash *)
                      (with_users db tbl,
                       c_JSON http.StatusOK
                         (H [("message"%string, JStr "Profile updated successfully");
                             ("user"%string, marshal_User user_ID (clear_Password user))]))
                  end
              end
          end
      end
  end.

(** * The doctor controller: GetDoctorDashboard, CreateSchedule *)

(** [Order("appointment_date ASC").Limit(10)] over the appointments of the
    doctor that lie after [now]. *)
Definition upcoming (db : DB) (doctor_ID : N) (now : GoTime.Time)
  : result (list (N * Appointment.t)) :=
  match Find (online db) (appointments db)
          (λ _ a, bool_decide (Appointment.DoctorID a = doctor_ID)
                  && bool_decide (now < Appointment.AppointmentDate a)) with
  | Ok found =>
      Ok (take 10
            (sort_by (λ r1 r2, bool_decide (Appointment.AppointmentDate r1.2
                                            <= Appointment.AppointmentDate r2.2))
                     found))
  | Err e => Err e
  end.

(** The doctor is read without its user, so the name in the answer is
    that of the zero value of the association. *)
Definition GetDoctorDashboard (db : DB) (now : GoTime.Time) (userID : N) : Response :=
  match First (online db) (doctors db) (λ _ d, bool_decide (Doctor.UserID d = userID)) with
  | Err _ => respond_error http.StatusNotFound "Doctor profile not found"
  | Ok (doctor_ID, doctor) =>
      (* Get today's appointments *)
      let today := GoTime.Format_2006_01_02 now in
      match
        match GoTime.Parse_2006_01_02 today with
        | Some day =>
            Find (online db) (appointments db)
              (λ _ a, bool_decide (Appointment.DoctorID a = doctor_ID)
                      && bool_decide (GoTime.day_of (Appointment.AppointmentDate a) = day))
        | None => Err ErrStatement
        end
      with
      | Err _ => respond_error http.StatusInternalServerError "Failed to fetch appointments"
      | Ok todayAppointments =>
          (* Get upcoming appointments *)
          match upcoming db doctor_ID now with
          | Err _ =>
              respond_error http.StatusInternalServerError
                "Failed to fetch upcoming appointments"
          | Ok upcomingAppointments =>
              c_JSON http.StatusOK
                (H [("doctor_id"%string, JNum (Z.of_N doctor_ID));
                    ("name"%string, JStr (User.Name User.zero_value));
                    ("today_appointments"%string,
                     marshal_appointments db ["Patient"]%string todayAppointments);
                    ("upcoming_appointments"%string,
                     marshal_appointments db ["Patient"]%string upcomingAppointments)])
          end
      end
  end.

Record ScheduleRequest := {
  sch_Date : string;
  sch_StartTime : string;
  sch_EndTime : string;
  sch_Slots : list string }.

Definition validate_ScheduleRequest (r : ScheduleRequest) : list (string * string) :=
  binding.field "Date" [("required"%string, binding.required_string (sch_Date r))]
  ++ binding.field "StartTime" [("required"%string, binding.required_string (sch_StartTime r))]
  ++ binding.field "EndTime" [("required"%string, binding.required_string (sch_EndTime r))].

(** [encoding/json] on a [models.Schedule]. *)
Variable marshal_Schedule : N → Schedule.t → JSON.

(** The schedules are a table of their own, beside the three of [DB]. *)
Definition CreateSchedule (db : DB) (schedules : Table Schedule.t) (now : GoTime.Time)
    (userID : N) (body : string + ScheduleRequest) : Table Schedule.t * Response :=
  (* Verify user is a doctor *)
  match First (online db) (doctors db) (λ _ d, bool_decide (Doctor.UserID d = userID)) with
  | Err _ =>
      (schedules, respond_error http.StatusForbidden "Only doctors can create schedules")
  | Ok (doctor_ID, _) =>
      match binding.ShouldBindJSON validate_ScheduleRequest body with
      | inl err => (schedules, respond_error http.StatusBadRequest err)
      | inr req =>
          (* Parse date and times *)
          match GoTime.Parse_2006_01_02 (sch_Date req) with
          | None =>
              (schedules,
               respond_error http.StatusBadRequest "Invalid date format. Use YYYY-MM-DD")
          | Some day =>
              match GoTime.Parse_15_04 (sch_StartTime req) with
              | None =>
                  (schedules,
                   respond_error http.StatusBadRequest "Invalid start time format. Use HH:MM")
              | Some startTime =>
                  match GoTime.Parse_15_04 (sch_EndTime req) with
                  | None =>
                      (schedules,
                       respond_error http.StatusBadRequest
                         "Invalid end time format. Use HH:MM")
                  | Some endTime =>
                      (* Validate time range *)
                      if negb (GoTime.After endTime startTime) then
                        (schedules,
                         respond_error http.StatusBadRequest
                           "End time must be after start time")
                      else
                        (* Create schedule *)
                        let schedule :=
                          Schedule.mk doctor_ID (GoTime.Date day 0 0 0) (sch_StartTime req)
                            (sch_EndTime req) true now now None in
                        let '(tbl, created) :=
                          Create (online db) (λ _ _, false)
                            (bool_decide (is_Some (rows (doctors db) !! doctor_ID)))
                            schedules schedule in
                        match created with
                        | Err _ =>
                            (tbl, respond_error http.StatusInternalServerError
                                    "Failed to create schedule")
                        | Ok id =>
                            (tbl,
                             c_JSON http.StatusCreated
                               (H [("message"%string, JStr "Schedule created successfully");
                                   ("schedule"%string, marshal_Schedule id schedule)]))
                        end
                  end
              end
          end
      end
  end.

End handlers.

(** ** The handlers that read a doctor by the path parameter *)

Section path_parameter.
Context `{Externals}.

Import gorm.

(** The database's reading of an SQL condition on the doctors table:
    [None] when it refuses the text. *)
Variable sql_condition : string → option (N → Doctor.t → bool).

(** The database's test [doctor_id = ?] with a string bound to the
    placeholder: [None] when it cannot compare the string with the
    column. *)
Variable sql_doctor_id_is : string → option (N → bool).

(** [encoding/json] on a [models.Doctor]. *)
Variable marshal_Doctor : N → Doctor.t → JSON.

(** [db.First(&doctor, id)] for the path parameter [id], a string. gorm
    takes a string that [strconv.Atoi] reads for the primary key, the
    empty string for no condition, and any other string for an SQL
    condition. *)
Definition First_doctor_by_param (db : DB) (id : string) : result (N * Doctor.t) :=
  match strconv_Atoi id with
  | Some key => First (online db) (doctors db) (λ k _, bool_decide (Z.of_N k = key))
  | None =>
      if bool_decide (id = ""%string) then First (online db) (doctors db) (λ _ _, true)
      else
        match sql_condition id with
        | Some cond => First (online db) (doctors db) cond
        | None => Err ErrStatement
        end
  end.

(** [GetDoctorAvailability] on the path parameter as it comes: the string
    goes to [db.First], is bound to [doctor_id = ?] and is echoed. For the
    decimal numeral of a key this is [GetDoctorAvailability] above. *)
Definition GetDoctorAvailability_by_param (db : DB) (now : GoTime.Time) (doctorID : string)
    (date : option string) : option Response :=
  let dateStr := DefaultQuery date (GoTime.Format_2006_01_02 now) in
  (* Parse date *)
  match GoTime.Parse_2006_01_02 dateStr with
  | None =>
      Some (respond_error http.StatusBadRequest "Invalid date format. Use YYYY-MM-DD")
  | Some day =>
      (* Find doctor *)
      match First_doctor_by_param db doctorID with
      | Err _ => Some (respond_error http.StatusNotFound "Doctor not found")
      | Ok _ =>
          let startHour := 9 in
          let endHour := 17 in
          let duration := 30 in
          (* Generate time slots *)
          let currentTime := GoTime.Date day startHour 0 0 in
          let endTime := GoTime.Date day endHour 0 0 in
          timeSlots ← generate_slots (Z.to_nat (endTime - currentTime)) currentTime endTime
                         duration [];
          (* Get booked appointments for the day *)
          match
            match sql_doctor_id_is doctorID with
            | Some is_doctor =>
                Find (online db) (appointments db)
                  (λ _ a, is_doctor (Appointment.DoctorID a)
                          && bool_decide
                               (GoTime.day_of (Appointment.AppointmentDate a) = day))
            | None => Err ErrStatement
            end
          with
          | Err _ =>
              Some (respond_error http.StatusInternalServerError "Failed to fetch appointments")
          | Ok bookedAppointments =>
              (* Filter out booked time slots *)
              let bookedSlots := mark_booked bookedAppointments in
              let availableSlots := filter_available bookedSlots timeSlots in
              Some (c_JSON http.StatusOK
                      (H [("doctor_id"%string, JStr doctorID);
                          ("date"%string, JStr dateStr);
                          ("available_slots"%string, JArr (JStr <$> availableSlots))]))
          end
      end
  end.

(** * The doctor controller: GetDoctorProfile *)

Definition GetDoctorProfile (db : DB) (id : string) : Response :=
  match First_doctor_by_param db id with
  | Err _ => respond_error http.StatusNotFound "Doctor not found"
  | Ok (doctor_ID, doctor) =>
      c_JSON http.StatusOK
        (H [("id"%string, JNum (Z.of_N doctor_ID));
            ("name"%string, JStr (User.Name (preload_User db doctor)));
            ("email"%string, JStr (User.Email (preload_User db doctor)));
            ("specialization"%string, JStr (Doctor.Specialization doctor));
            ("qualification"%string, JStr (Doctor.Qualification doctor));
            ("experience"%string, JNum (Doctor.Experience doctor));
            ("bio"%string, JStr (Doctor.Bio doctor));
            ("consultation_fee"%string, JFloat (Doctor.ConsultationFee doctor))])
  end.

(** * The user controller: GetUserProfile *)

Definition GetUserProfile (db : DB) (userID : N) : Response :=
  match First (online db) (users db) (λ id _, bool_decide (id = userID)) with
  | Err _ => respond_error http.StatusNotFound "User not found"
  | Ok (user_ID, user) =>
      (* Don't return password hash *)
      let user := clear_Password user in
      (* If user is a doctor, include doctor profile *)
      let doctor :=
        if bool_decide (User.Role user = models.DoctorRole) then
          match First (online db) (doctors db)
                  (λ _ d, bool_decide (Doctor.UserID d = userID)) with
          | Ok found => Some found
          | Err _ => None
          end
        else None in
      match doctor with
      | Some (doctor_ID, doctor) =>
          c_JSON http.StatusOK
            (H [("user"%string, marshal_User user_ID user);
                ("doctor"%string, marshal_Doctor doctor_ID doctor)])
      | None => c_JSON http.StatusOK (H [("user"%string, marshal_User user_ID user)])
      end
  end.

End path_parameter.
End v1.

(* ================================================================== *)
(** * Vocabulary of the specification *)

Module spec.

(** The sixteen half-hour slots of the fixed window 09:00-17:00, in
    ascending order. *)
Definition fixed_slots : list string :=
  ["09:00"; "09:30"; "10:00"; "10:30"; "11:00"; "11:30"; "12:00"; "12:30";
   "13:00"; "13:30"; "14:00"; "14:30"; "15:00"; "15:30"; "16:00"; "16:30"]%string.

(** The start time of an appointment as a time of day, in the format of
    the slots. *)
Definition start_slot (a : Appointment.t) : string :=
  GoTime.Format_15_04 (Appointment.StartTime a).

(** The existing appointments of a doctor on a day. *)
Definition day_appointments (db : DB) (doctorID : N) (day : Z) : gmap N Appointment.t :=
  filter (λ r, Appointment.DeletedAt r.2 = None
               ∧ Appointment.DoctorID r.2 = doctorID
               ∧ GoTime.day_of (Appointment.AppointmentDate r.2) = day)
         (rows (appointments db)).

(** Those of them that start on a slot of the fixed window. *)
Definition in_window (db : DB) (doctorID : N) (day : Z) : gmap N Appointment.t :=
  filter (λ r, start_slot r.2 ∈ fixed_slots) (day_appointments db doctorID day).

Definition distinct_slots (m : gmap N Appointment.t) : Prop :=
  ∀ id1 id2 a1 a2,
    m !! id1 = Some a1 → m !! id2 = Some a2 → start_slot a1 = start_slot a2 → id1 = id2.

(** The body of a successful availability response. *)
Definition availability_body (doctorID : N) (dateStr : string) (slots : list string) : JSON :=
  H [("doctor_id"%string, JStr (pretty doctorID));
     ("date"%string, JStr dateStr);
     ("available_slots"%string, JArr (JStr <$> slots))].

(** A live row of a table. *)
Definition live {A : Type} `{GormModel A} (t : Table A) (id : N) (a : A) : Prop :=
  rows t !! id = Some a ∧ deleted_at a = None.

(** Every appointment was written the way [BookAppointment] writes it: its
    date column holds its start time. *)
Definition dates_agree (db : DB) : Prop :=
  ∀ id a, rows (appointments db) !! id = Some a →
          Appointment.AppointmentDate a = Appointment.StartTime a.

(** The sequence of a table is ahead of its keys. *)
Definition seq_ahead {A : Type} (t : Table A) : Prop :=
  ∀ id, is_Some (rows t !! id) → (id ≤ seq t)%N.

(** Both together, for the appointments table. *)
Definition appointments_wf (db : DB) : Prop :=
  dates_agree db ∧ seq_ahead (appointments db).

(** No two user rows have the same e-mail address. *)
Definition emails_unique (t : Table User.t) : Prop :=
  ∀ id1 id2 u1 u2,
    rows t !! id1 = Some u1 → rows t !! id2 = Some u2 →
    User.Email u1 = User.Email u2 → id1 = id2.

(** The shape [{"data": [...], "total": N, "page": P, "limit": L}]. *)
Definition is_page (j : JSON) : Prop :=
  ∃ (data : list JSON) (total page limit : Z),
    j = H [("data"%string, JArr data); ("total"%string, JNum total);
           ("page"%string, JNum page); ("limit"%string, JNum limit)].

(** The same with [null] allowed for the data. *)
Definition is_page_or_null (j : JSON) : Prop :=
  is_page j
  ∨ ∃ (total page limit : Z),
      j = H [("data"%string, JNull); ("total"%string, JNum total);
             ("page"%string, JNum page); ("limit"%string, JNum limit)].

(** A bare JSON array. *)
Definition is_array (j : JSON) : Prop := ∃ l, j = JArr l.

(** The shape [{"error": "..."}], with an error status. *)
Definition is_error (r : Response) : Prop :=
  400 <= status r < 600 ∧ ∃ msg, body r = error_body msg.

(** A response is the success of a given status and shape, or an error. *)
Definition ok_or_error (code : Z) (shape : JSON → Prop) (r : Response) : Prop :=
  (status r = code ∧ shape (body r)) ∨ is_error r.

(** The instants of the years 0000 to 9999. *)
Definition four_digit_year (t : GoTime.Time) : Prop :=
  GoTime.Date (GoTime.days_from_civil 0 1 1) 0 0 0 <= t
  < GoTime.Date (GoTime.days_from_civil 10000 1 1) 0 0 0.

(** All columns of an appointment but the status and the update time. *)
Definition same_but_status (a a' : Appointment.t) : Prop :=
  Appointment.PatientID a' = Appointment.PatientID a
  ∧ Appointment.DoctorID a' = Appointment.DoctorID a
  ∧ Appointment.AppointmentDate a' = Appointment.AppointmentDate a
  ∧ Appointment.StartTime a' = Appointment.StartTime a
  ∧ Appointment.EndTime a' = Appointment.EndTime a
  ∧ Appointment.Notes a' = Appointment.Notes a
  ∧ Appointment.CreatedAt a' = Appointment.CreatedAt a
  ∧ Appointment.DeletedAt a' = Appointment.DeletedAt a.

(** The rows after a status update of the row [id]: the same keys, every
    other row as it was, and the row [id] changed in its status and update
    time at most. *)
Definition status_frame (id : N) (before after : gmap N Appointment.t) : Prop :=
  ∀ k, match before !! k with
       | None => after !! k = None
       | Some a => ∃ a', after !! k = Some a' ∧ same_but_status a a' ∧ (k ≠ id → a' = a)
       end.

(** The order of the appointment lists: later dates first, and on one
    date later start times first. *)
Definition not_earlier (r1 r2 : N * Appointment.t) : Prop :=
  Appointment.AppointmentDate r2.2 < Appointment.AppointmentDate r1.2
  ∨ (Appointment.AppointmentDate r2.2 = Appointment.AppointmentDate r1.2
     ∧ Appointment.StartTime r2.2 <= Appointment.StartTime r1.2).

(** A date filter of a list request: absent, or a literal that the
    database reads as the instant [bound]. *)
Definition reads_as `{Externals} (literal : string) (bound : option GoTime.Time) : Prop :=
  (literal = ""%string ∧ bound = None)
  ∨ (literal ≠ ""%string ∧ is_Some bound ∧ pg_timestamp literal = bound).

(** An instant within optional bounds, both inclusive. *)
Definition within (lo hi : option GoTime.Time) (t : GoTime.Time) : Prop :=
  (∀ l, lo = Some l → l <= t) ∧ (∀ h, hi = Some h → t <= h).

(** The appointments that a list request of an owner selects. *)
Definition listed (db : DB) (owner : Appointment.t → Prop) (status : string)
    (lo hi : option GoTime.Time) (r : N * Appointment.t) : Prop :=
  live (appointments db) r.1 r.2 ∧ owner r.2
  ∧ (status = ""%string ∨ Appointment.Status r.2 = status)
  ∧ within lo hi (Appointment.AppointmentDate r.2).

(** The users that the admin list selects. *)
Definition user_listed (role active : string) (r : N * User.t) : Prop :=
  User.DeletedAt r.2 = None
  ∧ (role = ""%string ∨ User.Role r.2 = role)
  ∧ (active = ""%string ∨ User.Active r.2 = bool_decide (active = "true"%string)).

(** The doctors that the public listing selects: available, of the
    specialization asked for, and with a user whose name matches. *)
Definition doctor_listed `{Externals} (db : DB) (specialization name : string)
    (r : N * Doctor.t) : Prop :=
  Doctor.DeletedAt r.2 = None ∧ Doctor.Available r.2 = true
  ∧ (specialization = ""%string ∨ Doctor.Specialization r.2 = specialization)
  ∧ (name = ""%string
     ∨ ∃ u, rows (users db) !! Doctor.UserID r.2 = Some u
            ∧ pg_ilike ("%" +:+ name +:+ "%") (User.Name u) = true).

(** The limits of the columns that a registration writes: [varchar(100)]
    for the name and the e-mail address of a user and the specialization
    of a doctor, [varchar(255)] for the password hash and the
    qualification. A [varchar(n)] holds [n] characters. *)
Definition fits_columns (req : v1.RegisterRequest) (hash : string) : Prop :=
  binding.RuneCountInString (v1.reg_Name req) <= 100
  ∧ binding.RuneCountInString (v1.reg_Email req) <= 100
  ∧ binding.RuneCountInString hash <= 255
  ∧ (v1.reg_Role req = models.DoctorRole →
     binding.RuneCountInString (v1.reg_Specialization req) <= 100
     ∧ binding.RuneCountInString (v1.reg_Qualification req) <= 255).

(** The user row that a registration writes for a request, with the hash
    of the password in place of the password. *)
Definition registered_user (req : v1.RegisterRequest) (hash : string) (now : GoTime.Time)
  : User.t :=
  User.mk (v1.reg_Name req) (v1.reg_Email req) hash (v1.reg_Role req) true now now None.

(** The doctor profile that a registration writes for a doctor. *)
Definition registered_doctor (req : v1.RegisterRequest) (user_ID : N) (now : GoTime.Time)
  : Doctor.t :=
  Doctor.mk user_ID (v1.reg_Specialization req) (v1.reg_Qualification req)
    (v1.reg_Experience req) (v1.reg_Bio req) (v1.reg_ConsultationFee req) true now now None.

(** A table that got exactly one more row, under a key not in use. *)
Definition one_more {A : Type} (before after : Table A) (id : N) (row : A) : Prop :=
  rows after = <[id := row]> (rows before) ∧ rows before !! id = None.

(** bcrypt accepts a password against the hash it made of it. *)
Definition bcrypt_sound `{Externals} : Prop :=
  ∀ password hash,
    bcrypt_GenerateFromPassword password = Some hash →
    bcrypt_CompareHashAndPassword hash password = true.

(** The row that a profile update saves for the user [u]: an empty field
    of the request keeps the column, and [password] is what the password
    column gets. *)
Definition updated_user (req : v1.UpdateProfileRequest) (u : User.t) (password : string)
    (now : GoTime.Time) : User.t :=
  User.mk (if bool_decide (v1.upd_Name req = ""%string) then User.Name u else v1.upd_Name req)
    (if bool_decide (v1.upd_Email req = ""%string) then User.Email u else v1.upd_Email req)
    password (User.Role u) (User.Active u) (User.CreatedAt u) now (User.DeletedAt u).

(** The doctors on the page that a listing request asks for: those the
    request selects, by primary key, cut to the page. *)
Definition doctor_page `{Externals} (db : DB) (specialization name : string)
    (page limit : option string) : list (N * Doctor.t) :=
  gorm_page _
    (wrap64 ((Atoi (DefaultQuery page "1") - 1) * Atoi (DefaultQuery limit "10")))
    (Atoi (DefaultQuery limit "10"))
    (gorm.Where (doctors db)
       (λ _ d, Doctor.Available d
               && (bool_decide (specialization = ""%string)
                   || bool_decide (Doctor.Specialization d = specialization))
               && (bool_decide (name = ""%string)
                   || match rows (users db) !! Doctor.UserID d with
                      | Some u => pg_ilike ("%" +:+ name +:+ "%") (User.Name u)
                      | None => false
                      end))).

(** The order of the upcoming appointments of the dashboard. *)
Definition not_later (r1 r2 : N * Appointment.t) : Prop :=
  Appointment.AppointmentDate r1.2 <= Appointment.AppointmentDate r2.2.

(** The live appointments of a doctor. *)
Definition doctor_appointment (db : DB) (doctorID : N) (r : N * Appointment.t) : Prop :=
  live (appointments db) r.1 r.2 ∧ Appointment.DoctorID r.2 = doctorID.

End spec.

(* ================================================================== *)
(** * A small database to run the handlers on *)

Module sample.

(** Stand-ins for the library code, enough to run the handlers. *)
#[local] Instance externals : Externals := {|
  bcrypt_GenerateFromPassword := λ password, Some (String "$"%char password);
  bcrypt_CompareHashAndPassword := λ hash password,
    bool_decide (hash = String "$"%char password);
  GenerateToken := λ id email role, Some (String "t"%char email);
  validator_email := λ s, bool_decide ("@"%char ∈ String.list_ascii_of_string s);
  validator_error := λ errs, "validation failed"%string;
  pg_timestamp := λ s, (λ day, day * GoTime.secondsPerDay) <$> GoTime.Parse_2006_01_02 s;
  pg_integer := λ s, Some (Z.to_N (Atoi s));
  pg_ilike := λ pattern value, true;
  gorm_page := λ A offset limit l, take (Z.to_nat limit) (drop (Z.to_nat offset) l);
  marshal_Appointment := λ users doctors preload id a,
    JStruct [("id"%string, JNum (Z.of_N id));
             ("patient_id"%string, JNum (Z.of_N (Appointment.PatientID a)));
             ("doctor_id"%string, JNum (Z.of_N (Appointment.DoctorID a)));
             ("status"%string, JStr (Appointment.Status a));
             ("notes"%string, JStr (Appointment.Notes a))];
  marshal_User := λ id u,
    JStruct [("id"%string, JNum (Z.of_N id)); ("email"%string, JStr (User.Email u))]
|}.

(** 2025-01-10T09:00:00Z and 2025-01-01T00:00:00Z. *)
Definition jan10_0900 : GoTime.Time := 1736499600.
Definition jan01 : GoTime.Time := 1735689600.

Definition alice : User.t :=
  User.mk "Alice" "alice@example.com" "$alicepassword" "patient" true jan01 jan01 None.
Definition bob : User.t :=
  User.mk "Dr. Bob" "bob@example.com" "$bobpassword" "doctor" true jan01 jan01 None.
Definition carol : User.t :=
  User.mk "Carol" "carol@example.com" "$carolpassword" "patient" false jan01 jan01 None.

Definition dr_bob : Doctor.t :=
  Doctor.mk 2 "cardiology" "MD" 5 "" 0%float true jan01 jan01 None.

(** Alice's appointment with Dr. Bob on January 10 at 09:00, in a given
    status. *)
Definition appointment (st : string) : Appointment.t :=
  Appointment.mk 1 1 jan10_0900 jan10_0900 (jan10_0900 + 1800) st "checkup" jan01 jan01 None.

(** The database with that one appointment. *)
Definition db (st : string) : DB :=
  mkDB (mkTable (<[1%N := alice]> (<[2%N := bob]> (<[3%N := carol]> ∅))) 3)
       (mkTable (<[1%N := dr_bob]> ∅) 1)
       (mkTable (<[1%N := appointment st]> ∅) 1)
       true.

(** The database before any booking. *)
Definition db0 : DB :=
  mkDB (users (db "")) (doctors (db "")) (mkTable ∅ 0) true.

(** A registration form; only the e-mail address and the role vary. *)
Definition form (email role : string) : v1.RegisterRequest :=
  v1.Build_RegisterRequest "Dana" email "danapassword" role "" "" 0 "" 0%float.

(** Stand-ins for the database's reading of a path parameter: one SQL
    condition, which holds of every row; and for the doctor id a numeral
    compares as its number and any other string as equal to no id. *)
Definition sql_condition (s : string) : option (N → Doctor.t → bool) :=
  if bool_decide (s = "id=7 OR 1=1"%string) then Some (λ _ _, true) else None.
Definition sql_doctor_id_is (s : string) : option (N → bool) :=
  Some (λ k : N, match strconv_Atoi s with
                 | Some key => bool_decide (Z.of_N k = key)
                 | None => false
                 end).

(** The booking request of the specification's example. *)
Definition checkup : v1.BookRequest := v1.Build_BookRequest 1 jan10_0900 None "checkup".

End sample.

(* ================================================================== *)
(** * Properties *)

(** ** Clock arithmetic *)

Section clock.
Import GoTime.

Lemma hour_of_range t : 0 <= hour_of t < 24.
Proof. unfold hour_of, secondsPerDay, Hour. Z.to_euclidean_division_equations; lia. Qed.

Lemma minute_of_range t : 0 <= minute_of t < 60.
Proof. unfold minute_of, Hour, Minute. Z.to_euclidean_division_equations; lia. Qed.

Lemma second_of_range t : 0 <= second_of t < 60.
Proof. unfold second_of, Minute. Z.to_euclidean_division_equations; lia. Qed.

Lemma clock_of_Date day h m s :
  0 <= h < 24 → 0 <= m < 60 → 0 <= s < 60 →
  hour_of (Date day h m s) = h ∧ minute_of (Date day h m s) = m
  ∧ second_of (Date day h m s) = s ∧ day_of (Date day h m s) = day.
Proof.
  intros Hh Hm Hs. unfold hour_of, minute_of, second_of, day_of, Date, secondsPerDay, Hour, Minute.
  repeat split; Z.to_euclidean_division_equations; lia.
Qed.

Lemma Format_15_04_Date day h m s :
  0 <= h < 24 → 0 <= m < 60 → 0 <= s < 60 →
  Format_15_04 (Date day h m s) = two_digits_then h (String colon (two_digits m)).
Proof.
  intros Hh Hm Hs. destruct (clock_of_Date day h m s Hh Hm Hs) as (E1 & E2 & _).
  unfold Format_15_04. by rewrite E1, E2.
Qed.

Lemma num2_two_digits n :
  0 <= n < 100 → num2 (digit (n / 10)) (digit (n mod 10)) = Some n.
Proof.
  intros Hn.
  assert (Hall : Forall (λ k, num2 (digit (k / 10)) (digit (k mod 10)) = Some k) (seqZ 0 100)).
  { apply (bool_decide_unpack _). vm_compute. exact I. }
  rewrite Forall_forall in Hall. apply Hall, elem_of_seqZ. lia.
Qed.

(** Reading back the clock that [Format("15:04:05")] wrote never fails and
    gives the same hour, minute and second. *)
Lemma Parse_Format_15_04_05 t :
  Parse_15_04_05 (Format_15_04_05 t)
  = Some (Date yearZero (hour_of t) (minute_of t) (second_of t)).
Proof.
  pose proof (hour_of_range t) as Hh. pose proof (minute_of_range t) as Hm.
  pose proof (second_of_range t) as Hs.
  unfold Format_15_04_05, Parse_15_04_05, two_digits, two_digits_then.
  cbv zeta. cbn [String.list_ascii_of_string].
  rewrite bool_decide_eq_true_2 by done.
  repeat (rewrite num2_two_digits by lia; cbn [mbind option_bind]).
  by rewrite !bool_decide_eq_true_2 by lia.
Qed.

Lemma booked_key t :
  ∃ t', Parse_15_04_05 (Format_15_04_05 t) = Some t' ∧ Format_15_04 t' = Format_15_04 t.
Proof.
  eexists. split; [apply Parse_Format_15_04_05|].
  apply Format_15_04_Date; [apply hour_of_range|apply minute_of_range|apply second_of_range].
Qed.

End clock.

(** ** What the statements of gorm select *)

Section gorm_facts.
Import gorm.
Context {A : Type} `{GormModel A}.
Implicit Types (t : Table A) (cond : N → A → bool) (r : N * A).

Lemma elem_of_Where t cond r :
  r ∈ Where t cond
  ↔ rows t !! r.1 = Some r.2 ∧ deleted_at r.2 = None ∧ cond r.1 r.2 = true.
Proof.
  unfold Where. rewrite list_elem_of_filter, merge_sort_Permutation.
  destruct r as [k a]. rewrite elem_of_map_to_list. simpl. tauto.
Qed.

Lemma NoDup_Where_keys t cond : NoDup (Where t cond).*1.
Proof.
  unfold Where. eapply sublist_NoDup; [|apply fmap_sublist, sublist_filter].
  rewrite merge_sort_Permutation. apply NoDup_fst_map_to_list.
Qed.

Lemma NoDup_Where t cond : NoDup (Where t cond).
Proof. eapply NoDup_fmap_1, NoDup_Where_keys. Qed.

(** A condition that fixes the primary key selects at most the row with
    that key. *)
Lemma Where_pk t cond (k : N) :
  (∀ id a, cond id a = true → id = k) →
  Where t cond
  = match rows t !! k with
    | Some a => if bool_decide (deleted_at a = None) && cond k a then [(k, a)] else []
    | None => []
    end.
Proof.
  intros Hpk.
  pose proof (NoDup_Where_keys t cond) as Hnd.
  pose proof (elem_of_Where t cond) as Hin.
  destruct (Where t cond) as [|[k1 a1] l].
  - destruct (rows t !! k) as [a|] eqn:Hk; [|done].
    destruct (bool_decide (deleted_at a = None) && cond k a) eqn:Hc; [|done].
    apply andb_true_iff in Hc as [Hlive Hc]. apply bool_decide_eq_true in Hlive.
    exfalso. by eapply not_elem_of_nil, (Hin (k, a)).
  - assert (Hhd : (k1, a1) ∈ (k1, a1) :: l) by left.
    apply Hin in Hhd as (Hk1 & Hlive & Hc). simpl in *.
    pose proof (Hpk _ _ Hc) as ->.
    rewrite Hk1, bool_decide_eq_true_2, Hc by done. simpl. f_equal.
    destruct l as [|[k2 a2] l]; [done|]. exfalso.
    assert (Hin2 : (k2, a2) ∈ (k, a1) :: (k2, a2) :: l) by (right; left).
    apply Hin in Hin2 as (_ & _ & Hc2). simpl in Hc2.
    pose proof (Hpk _ _ Hc2) as ->.
    apply NoDup_cons in Hnd as [Hnd _]. apply Hnd. simpl. left.
Qed.

Lemma First_pk t cond (k : N) :
  (∀ id a, cond id a = true → id = k) →
  First true t cond
  = match rows t !! k with
    | Some a =>
        if bool_decide (deleted_at a = None) && cond k a then Ok (k, a)
        else Err ErrRecordNotFound
    | None => Err ErrRecordNotFound
    end.
Proof.
  intros Hpk. unfold First. rewrite (Where_pk t cond k Hpk).
  destruct (rows t !! k) as [a|]; [|done].
  by destruct (bool_decide (deleted_at a = None) && cond k a).
Qed.

Lemma First_Ok t cond r : First true t cond = Ok r → r ∈ Where t cond.
Proof.
  unfold First. destruct (Where t cond) as [|r' l]; [done|].
  intros [= ->]. left.
Qed.

Lemma First_Err t cond e : First true t cond = Err e → Where t cond = [].
Proof. unfold First. by destruct (Where t cond). Qed.

Lemma First_found t cond r : r ∈ Where t cond → ∃ r', First true t cond = Ok r'.
Proof.
  unfold First. destruct (Where t cond) as [|r' l]; [by intros ?%not_elem_of_nil|eauto].
Qed.

Lemma First_down t cond : First false t cond = Err ErrStatement.
Proof. done. Qed.

Lemma Update_lookup t cond (set : A → A) (k : N) :
  rows (Update true t cond set).1 !! k
  = (λ a, if bool_decide (deleted_at a = None) && cond k a then set a else a) <$> rows t !! k.
Proof. simpl. rewrite map_lookup_imap. by destruct (rows t !! k). Qed.

End gorm_facts.

(** ** The availability calculator *)

Section availability.
Context `{Externals}.
Import GoTime gorm spec.

(** The slot loop, unrolled: [n] iterations end before [endTime]. *)
Lemma generate_slots_steps (n : nat) :
  ∀ (fuel : nat) (currentTime endTime duration : Z) (timeSlots : list string),
    (n ≤ fuel)%nat → 0 < duration →
    currentTime + (Z.of_nat n - 1) * (duration * Minute) < endTime →
    endTime <= currentTime + Z.of_nat n * (duration * Minute) →
    v1.generate_slots fuel currentTime endTime duration timeSlots
    = Some (timeSlots
            ++ ((λ k : nat, Format_15_04 (currentTime + Z.of_nat k * (duration * Minute)))
                  <$> List.seq 0 n)).
Proof.
  unfold Minute.
  induction n as [|n IH]; intros fuel cur endT d acc Hfuel Hd Hlo Hhi.
  - destruct fuel; simpl; unfold Before; rewrite bool_decide_eq_false_2 by lia;
      by rewrite app_nil_r.
  - destruct fuel as [|fuel]; [lia|]. simpl. unfold Before, Add, Minute.
    rewrite bool_decide_eq_true_2 by lia.
    rewrite IH by lia. rewrite <- app_assoc. do 2 f_equal. simpl.
    f_equal; [f_equal; lia|].
    rewrite <- fmap_S_seq, <- list_fmap_compose.
    apply list_fmap_ext. intros _ k _. simpl. f_equal. lia.
Qed.

Lemma Format_15_04_any_day day h m s x :
  Format_15_04 (Date day h m s + x) = Format_15_04 (Date 0 h m s + x).
Proof.
  unfold Format_15_04, hour_of, minute_of, Date, secondsPerDay, Hour, Minute.
  f_equal; [|do 2 f_equal]; f_equal; Z.to_euclidean_division_equations; lia.
Qed.

(** On every day the loop ends and produces the sixteen fixed slots. *)
Lemma window_slots day :
  v1.generate_slots (Z.to_nat (Date day 17 0 0 - Date day 9 0 0))
    (Date day 9 0 0) (Date day 17 0 0) 30 []
  = Some fixed_slots.
Proof.
  rewrite (generate_slots_steps 16)
    by (unfold Date, secondsPerDay, Hour, Minute; lia).
  f_equal. cbn [fmap list_fmap List.seq app].
  rewrite !(Format_15_04_any_day day). reflexivity.
Qed.

Lemma booked_mark_booked (l : list (N * Appointment.t)) (slot : string) :
  v1.booked (v1.mark_booked l) slot = bool_decide (slot ∈ (λ r, start_slot r.2) <$> l).
Proof.
  unfold v1.mark_booked, v1.booked.
  enough (∀ m0 : gmap string bool,
    default false
      (foldl (λ (bookedSlots : gmap string bool) (appt : N * Appointment.t),
                match Parse_15_04_05 (Format_15_04_05 (Appointment.StartTime appt.2)) with
                | Some t => <[Format_15_04 t := true]> bookedSlots
                | None => bookedSlots
                end) m0 l !! slot)
    = default false (m0 !! slot) || bool_decide (slot ∈ (λ r, start_slot r.2) <$> l)) as Hgen.
  { rewrite Hgen. by rewrite lookup_empty. }
  induction l as [|r l IH]; intros m0.
  - cbn [foldl fmap list_fmap]. rewrite bool_decide_eq_false_2 by apply not_elem_of_nil.
    by rewrite orb_false_r.
  - cbn [foldl fmap list_fmap]. rewrite IH.
    destruct (booked_key (Appointment.StartTime r.2)) as (t' & -> & Hkey).
    rewrite Hkey. fold (start_slot r.2).
    destruct (decide (slot = start_slot r.2)) as [->|Hne].
    + rewrite lookup_insert_eq. cbn [default orb].
      symmetry. apply orb_true_iff. right. apply bool_decide_eq_true_2. left.
    + rewrite lookup_insert_ne by done. f_equal.
      apply bool_decide_ext. rewrite elem_of_cons. tauto.
Qed.

Lemma filter_available_filter (m : gmap string bool) (timeSlots : list string) :
  v1.filter_available m timeSlots
  = filter (λ slot, v1.booked m slot = false) timeSlots.
Proof.
  unfold v1.filter_available.
  enough (∀ acc : list string,
    foldl (λ availableSlots slot,
             if negb (v1.booked m slot) then availableSlots ++ [slot] else availableSlots)
          acc timeSlots
    = acc ++ filter (λ slot, v1.booked m slot = false) timeSlots) as Hgen by apply Hgen.
  induction timeSlots as [|slot l IH]; intros acc; simpl.
  - by rewrite app_nil_r.
  - rewrite IH. destruct (v1.booked m slot) eqn:Hslot; simpl.
    + by rewrite filter_cons_False by congruence.
    + rewrite filter_cons_True by done. by rewrite <- app_assoc.
Qed.

End availability.

(** ** Counting slots *)

Section counting.
Context {A : Type} `{EqDecision A}.

Lemma filter_ext_elem (P Q : A → Prop) `{∀ x, Decision (P x)} `{∀ x, Decision (Q x)}
    (l : list A) :
  (∀ x, x ∈ l → (P x ↔ Q x)) → filter P l = filter Q l.
Proof.
  induction l as [|x l IH]; intros Hext; [done|].
  assert (filter P l = filter Q l) as IH' by (apply IH; intros y Hy; apply Hext; by right).
  destruct (decide (P x)) as [HP|HP].
  - rewrite !filter_cons_True, IH'; [done| |done]. apply Hext; [left|done].
  - rewrite !filter_cons_False, IH'; [done| |done]. intros HQ. apply HP, Hext; [left|done].
Qed.

(** Removing the members of a duplicate-free sublist. *)
Lemma length_filter_not_elem (K F : list A) :
  NoDup K → NoDup F → (∀ x, x ∈ K → x ∈ F) →
  (length (filter (λ x, x ∉ K) F) + length K = length F)%nat.
Proof.
  intros HK HF Hsub.
  assert (filter (λ x, x ∈ K) F ≡ₚ K) as Hin.
  { apply NoDup_Permutation; [by apply NoDup_filter|done|].
    intros x. rewrite list_elem_of_filter. split; [by intros [? _]|auto]. }
  rewrite <- (length_app (filter (λ x, x ∉ K) F) K), <- Hin.
  rewrite (Permutation_app_comm _ _).
  by rewrite (filter_app_complement (λ x, x ∈ K) F).
Qed.

End counting.

Section day_rows.
Import gorm spec.

(** The rows that the availability statement reads are the existing
    appointments of the doctor on the day. *)
Lemma elem_of_day_rows (db : DB) (doctorID : N) (day : Z) (r : N * Appointment.t) :
  r ∈ Where (appointments db)
        (λ _ a, bool_decide (Appointment.DoctorID a = doctorID)
                && bool_decide (GoTime.day_of (Appointment.AppointmentDate a) = day))
  ↔ day_appointments db doctorID day !! r.1 = Some r.2.
Proof.
  rewrite elem_of_Where. unfold day_appointments.
  rewrite map_lookup_filter_Some. simpl.
  rewrite andb_true_iff, !bool_decide_eq_true. tauto.
Qed.

Lemma in_window_lookup db doctorID day id a :
  in_window db doctorID day !! id = Some a
  ↔ day_appointments db doctorID day !! id = Some a ∧ start_slot a ∈ fixed_slots.
Proof. unfold in_window. by rewrite map_lookup_filter_Some. Qed.

Lemma NoDup_fixed_slots : NoDup fixed_slots.
Proof. apply (bool_decide_unpack _). vm_compute. exact I. Qed.

End day_rows.

Section availability_spec.
Context `{Externals}.
Import GoTime gorm spec.

(** With the database reachable, the doctor there and the date readable,
    the handler answers 200 with the fixed slots that no appointment of the
    day marks as booked, in the order of the fixed slots. *)
Lemma GetDoctorAvailability_ok db now doctorID date day doc :
  online db = true →
  Parse_2006_01_02 (DefaultQuery date (Format_2006_01_02 now)) = Some day →
  live (doctors db) doctorID doc →
  v1.GetDoctorAvailability db now doctorID date
  = Some (c_JSON http.StatusOK
            (availability_body doctorID (DefaultQuery date (Format_2006_01_02 now))
               (filter (λ slot, ¬ ∃ id a, day_appointments db doctorID day !! id = Some a
                                          ∧ start_slot a = slot)
                       fixed_slots))).
Proof.
  intros Hup Hdate [Hdoc Hlive]. unfold v1.GetDoctorAvailability.
  rewrite Hdate, Hup.
  rewrite (First_pk _ _ doctorID) by (by intros id a ?%bool_decide_eq_true).
  rewrite Hdoc. simpl in Hlive. rewrite !bool_decide_eq_true_2 by done.
  cbn [andb]. rewrite window_slots. cbn [mbind option_bind Find].
  do 2 f_equal. unfold availability_body. do 7 f_equal.
  rewrite filter_available_filter.
  apply filter_ext_elem. intros slot _.
  rewrite booked_mark_booked, bool_decide_eq_false, list_elem_of_fmap.
  split; intros Hno.
  - intros (id & a & Hrow & Hslot). apply Hno. exists (id, a). split; [done|].
    by apply elem_of_day_rows.
  - intros ([id a] & Hslot & Hrow). apply Hno. exists id, a. split; [|done].
    by apply elem_of_day_rows in Hrow.
Qed.

End availability_spec.

Section availability_claim.
Context `{Externals}.
Import GoTime gorm spec.

(** C2. For a doctor that exists and a well-formed date, the availability
    query answers 200 with the half-hour slots 09:00 ... 16:30 (sixteen of
    them) minus exactly the slots at which an existing appointment of that
    doctor on that date starts, in ascending order; when the appointments
    that start on a slot of the window do so at distinct slots and there
    are N of them, 16 - N slots are returned. *)
Theorem availability_fixed_slots_minus_booked db now doctorID date day doc :
  online db = true →
  Parse_2006_01_02 (DefaultQuery date (Format_2006_01_02 now)) = Some day →
  live (doctors db) doctorID doc →
  ∃ slots : list string,
    v1.GetDoctorAvailability db now doctorID date
    = Some (c_JSON http.StatusOK
              (availability_body doctorID (DefaultQuery date (Format_2006_01_02 now)) slots))
    ∧ length fixed_slots = 16%nat
    ∧ slots `sublist_of` fixed_slots
    ∧ (∀ slot, slot ∈ slots
               ↔ slot ∈ fixed_slots
                 ∧ ¬ ∃ id a, day_appointments db doctorID day !! id = Some a
                             ∧ start_slot a = slot)
    ∧ (distinct_slots (in_window db doctorID day) →
       (length slots = 16 - size (in_window db doctorID day))%nat
       ∧ (size (in_window db doctorID day) ≤ 16)%nat).
Proof.
  intros Hup Hdate Hdoc. eexists. split; [by eapply GetDoctorAvailability_ok|].
  split; [done|]. split; [apply sublist_filter|]. split.
  { intros slot. rewrite list_elem_of_filter. tauto. }
  intros Hdistinct.
  set (K := (λ r : N * Appointment.t, start_slot r.2)
              <$> map_to_list (in_window db doctorID day)).
  assert (HK : ∀ slot, slot ∈ K
             ↔ ∃ id a, in_window db doctorID day !! id = Some a ∧ start_slot a = slot).
  { intros slot. unfold K. rewrite list_elem_of_fmap. split.
    - intros ([id a] & -> & Hr%elem_of_map_to_list). eauto.
    - intros (id & a & Hr & <-). exists (id, a). by rewrite elem_of_map_to_list. }
  assert (NoDup K) as HKnd.
  { apply NoDup_fmap_2_strong; [|apply NoDup_map_to_list].
    intros [id1 a1] [id2 a2] H1%elem_of_map_to_list H2%elem_of_map_to_list Heq.
    simpl in Heq. pose proof (Hdistinct _ _ _ _ H1 H2 Heq) as ->. congruence. }
  assert (∀ slot, slot ∈ K → slot ∈ fixed_slots) as HKsub.
  { intros slot (id & a & [_ Hin]%in_window_lookup & <-)%HK. done. }
  rewrite (filter_ext_elem _ (λ slot, slot ∉ K)).
  2:{ intros slot Hslot. rewrite HK. split; intros Hno.
      - intros (id & a & [Hrow _]%in_window_lookup & Heq). apply Hno. eauto.
      - intros (id & a & Hrow & Heq). apply Hno. exists id, a. split; [|done].
        apply in_window_lookup. split; [done|]. by rewrite Heq. }
  pose proof (length_filter_not_elem K fixed_slots HKnd NoDup_fixed_slots HKsub) as Hlen.
  assert (length K = size (in_window db doctorID day)) as HlenK
    by (unfold K; by rewrite length_fmap, length_map_to_list).
  change (length fixed_slots) with 16%nat in Hlen. lia.
Qed.

End availability_claim.

Section availability_witness.
Import spec.
#[local] Existing Instance sample.externals.

Lemma availability_fixed_slots_minus_booked_witness :
  ∃ slots : list string,
    v1.GetDoctorAvailability (sample.db "cancelled") sample.jan01 1 (Some "2025-01-10"%string)
    = Some (c_JSON http.StatusOK (availability_body 1 "2025-01-10" slots))
    ∧ length fixed_slots = 16%nat
    ∧ slots `sublist_of` fixed_slots
    ∧ (∀ slot, slot ∈ slots
               ↔ slot ∈ fixed_slots
                 ∧ ¬ ∃ id a, day_appointments (sample.db "cancelled") 1 20098 !! id = Some a
                             ∧ start_slot a = slot)
    ∧ (distinct_slots (in_window (sample.db "cancelled") 1 20098) →
       (length slots = 16 - size (in_window (sample.db "cancelled") 1 20098))%nat
       ∧ (size (in_window (sample.db "cancelled") 1 20098) ≤ 16)%nat).
Proof.
  apply (availability_fixed_slots_minus_booked (sample.db "cancelled") sample.jan01 1
           (Some "2025-01-10"%string) 20098 sample.dr_bob).
  - reflexivity.
  - vm_compute. reflexivity.
  - split; vm_compute; reflexivity.
Defined.

End availability_witness.

(** ** The booking handler *)

Section booking.
Context `{Externals}.
Import GoTime gorm spec.

Lemma ShouldBindJSON_valid {R : Type} (validate : R → list (string * string)) (r : R) :
  validate r = [] → binding.ShouldBindJSON validate (inr r) = inr r.
Proof. unfold binding.ShouldBindJSON. by intros ->. Qed.

Lemma ShouldBindJSON_invalid {R : Type} (validate : R → list (string * string)) (r : R) :
  validate r ≠ [] →
  binding.ShouldBindJSON validate (inr r) = inl (validator_error (validate r)).
Proof. unfold binding.ShouldBindJSON. by destruct (validate r). Qed.

Lemma validate_BookRequest_ok (req : v1.BookRequest) :
  v1.validate_BookRequest req = []
  ↔ v1.req_DoctorID req ≠ 0%N
    ∧ ¬ (v1.req_ScheduledAt req = zero ∧ v1.req_ScheduledAt_loc req = None).
Proof.
  unfold v1.validate_BookRequest, binding.field.
  destruct (decide (v1.req_DoctorID req = 0%N)) as [Hd|Hd];
    destruct (decide (v1.req_ScheduledAt req = zero ∧ v1.req_ScheduledAt_loc req = None))
      as [Ht|Ht];
    rewrite ?(bool_decide_eq_true_2 _ Hd), ?(bool_decide_eq_false_2 _ Hd),
      ?(bool_decide_eq_true_2 _ Ht), ?(bool_decide_eq_false_2 _ Ht);
    simpl; rewrite ?filter_cons_True, ?filter_cons_False, ?filter_nil by (simpl; congruence);
    simpl; split; try done; intros [? ?]; done.
Qed.

Lemma BookAppointment_bind_error db now userID body err :
  binding.ShouldBindJSON v1.validate_BookRequest body = inl err →
  v1.BookAppointment db now userID body
  = (db, v1.respond_error http.StatusBadRequest err).
Proof. unfold v1.BookAppointment. by intros ->. Qed.

(** The doctor lookup of the handlers, by primary key. *)
Lemma First_doctor db (k : N) :
  First (online db) (doctors db) (λ id _, bool_decide (id = k))
  = if online db then
      match rows (doctors db) !! k with
      | Some doc =>
          if bool_decide (Doctor.DeletedAt doc = None) then Ok (k, doc)
          else Err ErrRecordNotFound
      | None => Err ErrRecordNotFound
      end
    else Err ErrStatement.
Proof.
  destruct (online db); [|done].
  rewrite (First_pk _ _ k) by (by intros id a ?%bool_decide_eq_true).
  destruct (rows (doctors db) !! k) as [doc|]; [|done].
  rewrite (bool_decide_eq_true_2 (k = k)) by done. by rewrite andb_true_r.
Qed.

Lemma First_doctor_live db (k : N) doc :
  online db = true → live (doctors db) k doc →
  First (online db) (doctors db) (λ id _, bool_decide (id = k)) = Ok (k, doc).
Proof.
  intros Hup [Hrow Hlive]. rewrite First_doctor, Hup, Hrow.
  simpl in Hlive. by rewrite bool_decide_eq_true_2.
Qed.

Lemma First_doctor_missing db (k : N) :
  (∀ doc, ¬ live (doctors db) k doc) →
  ∃ e, First (online db) (doctors db) (λ id _, bool_decide (id = k)) = Err e.
Proof.
  intros Hno. rewrite First_doctor. destruct (online db); [|eauto].
  destruct (rows (doctors db) !! k) as [doc|] eqn:Hrow; [|eauto].
  destruct (bool_decide (Doctor.DeletedAt doc = None)) eqn:Hlive; [|eauto].
  apply bool_decide_eq_true in Hlive. by destruct (Hno doc).
Qed.

Lemma BookAppointment_doctor_missing db now userID req :
  v1.validate_BookRequest req = [] →
  (∀ doc, ¬ live (doctors db) (v1.req_DoctorID req) doc) →
  v1.BookAppointment db now userID (inr req)
  = (db, v1.respond_error http.StatusNotFound "Doctor not found").
Proof.
  intros Hvalid Hno. unfold v1.BookAppointment.
  rewrite (ShouldBindJSON_valid _ _ Hvalid).
  by destruct (First_doctor_missing db _ Hno) as [e ->].
Qed.

(** An appointment of the doctor whose date and start-time columns both
    hold the requested instant makes the handler refuse, whatever its
    status; nothing is written. *)
Lemma BookAppointment_conflict db now userID req doc id a :
  online db = true →
  v1.validate_BookRequest req = [] →
  live (doctors db) (v1.req_DoctorID req) doc →
  live (appointments db) id a →
  Appointment.DoctorID a = v1.req_DoctorID req →
  Appointment.AppointmentDate a = v1.req_ScheduledAt req →
  Appointment.StartTime a = v1.req_ScheduledAt req →
  v1.BookAppointment db now userID (inr req)
  = (db, v1.respond_error http.StatusConflict
           "Doctor is not available at the requested time").
Proof.
  intros Hup Hvalid Hdoc [Hrow Hlive] Hd Hdate Hstart. unfold v1.BookAppointment.
  rewrite (ShouldBindJSON_valid _ _ Hvalid), (First_doctor_live _ _ _ Hup Hdoc).
  rewrite Hup.
  edestruct (First_found (appointments db)) as [r' ->]; [|done].
  apply (elem_of_Where _ _ (id, a)). simpl.
  by rewrite !bool_decide_eq_true_2.
Qed.

End booking.

Section booking_created.
Context `{Externals}.
Import GoTime gorm spec.

Lemma First_none {A : Type} `{GormModel A} (t : Table A) (cond : N → A → bool) :
  (∀ id a, live t id a → cond id a = false) →
  First true t cond = Err ErrRecordNotFound.
Proof.
  intros Hno. unfold First. destruct (Where t cond) as [|[id a] l] eqn:Hw; [done|].
  assert ((id, a) ∈ Where t cond) as (Hrow & Hlive & Hc)%elem_of_Where
    by (rewrite Hw; left).
  simpl in *. rewrite (Hno id a) in Hc; done.
Qed.

Lemma Create_fresh {A : Type} (same : A → A → bool) (t : Table A) (row : A) :
  seq_ahead t →
  (∀ id old, rows t !! id = Some old → same old row = false) →
  gorm.Create true same true t row
  = (mkTable (<[(seq t + 1)%N := row]> (rows t)) (seq t + 1), Ok (seq t + 1)%N)
  ∧ rows t !! (seq t + 1)%N = None.
Proof.
  intros Hseq Hsame.
  assert (rows t !! (seq t + 1)%N = None) as Hfresh.
  { apply eq_None_not_Some. intros Hsome%Hseq. lia. }
  split; [|done]. unfold Create.
  rewrite bool_decide_eq_false_2 by (rewrite Hfresh; by intros [? ?]).
  rewrite bool_decide_eq_false_2; [done|].
  rewrite Exists_exists. intros ([id old] & Hin%elem_of_map_to_list & Heq).
  simpl in Heq. by rewrite (Hsame id old) in Heq.
Qed.

Lemma BookAppointment_created db now userID req doc :
  online db = true →
  v1.validate_BookRequest req = [] →
  live (doctors db) (v1.req_DoctorID req) doc →
  is_Some (rows (users db) !! userID) →
  seq_ahead (appointments db) →
  (∀ id a, live (appointments db) id a →
           Appointment.DoctorID a = v1.req_DoctorID req →
           Appointment.StartTime a ≠ v1.req_ScheduledAt req) →
  let id := (seq (appointments db) + 1)%N in
  let appointment :=
    Appointment.mk userID (v1.req_DoctorID req) (v1.req_ScheduledAt req)
      (v1.req_ScheduledAt req) (v1.req_ScheduledAt req + 30 * 60)
      models.StatusPending (v1.req_Notes req) now now None in
  v1.BookAppointment db now userID (inr req)
  = (with_appointments db (mkTable (<[id := appointment]> (rows (appointments db))) id),
     c_JSON http.StatusCreated (marshal_Appointment ∅ ∅ [] id appointment))
  ∧ rows (appointments db) !! id = None.
Proof.
  intros Hup Hvalid Hdoc Hpatient Hseq Hfree id appointment. unfold v1.BookAppointment.
  rewrite (ShouldBindJSON_valid _ _ Hvalid), (First_doctor_live _ _ _ Hup Hdoc).
  rewrite Hup. rewrite First_none.
  2:{ intros k a Hk. destruct (decide (Appointment.DoctorID a = v1.req_DoctorID req)) as [Hd|Hd].
      - rewrite (bool_decide_eq_false_2 (Appointment.StartTime a = _)) by eauto.
        by rewrite andb_false_r.
      - by rewrite (bool_decide_eq_false_2 _ Hd). }
  rewrite (bool_decide_eq_true_2 _ Hpatient).
  rewrite (bool_decide_eq_true_2 (is_Some (rows (doctors db) !! v1.req_DoctorID req)))
    by (destruct Hdoc as [-> _]; eauto).
  cbn [andb].
  destruct (Create_fresh (λ _ _ : Appointment.t, false) (appointments db) appointment Hseq)
    as [Hcreate Hfresh]; [done|].
  unfold Add, Minute. change "pending"%string with models.StatusPending.
  fold appointment. by rewrite Hcreate.
Qed.

End booking_created.

Section booking_claims.
Context `{Externals}.
Import GoTime gorm spec.

(** C3. A booking request is answered, in this order: with 400 when its
    body cannot be bound (it is not JSON of the expected type, or the
    required [doctor_id] or [scheduled_at] is missing, which leaves the
    zero value of the field); with 404 when the
    doctor does not exist; with 409 when an appointment of that doctor
    already exists at the requested start timestamp (an appointment as
    the booking handler writes them, with its start time in the date
    column too). In each case the database is left as it was: no
    appointment row is inserted. *)
Theorem booking_failure_modes db now userID req :
  (∀ msg, v1.BookAppointment db now userID (inl msg)
          = (db, v1.respond_error http.StatusBadRequest msg))
  ∧ (v1.req_DoctorID req = 0%N
     ∨ (v1.req_ScheduledAt req = zero ∧ v1.req_ScheduledAt_loc req = None) →
     ∃ err, v1.BookAppointment db now userID (inr req)
            = (db, v1.respond_error http.StatusBadRequest err))
  ∧ (v1.validate_BookRequest req = [] →
     (∀ doc, ¬ live (doctors db) (v1.req_DoctorID req) doc) →
     v1.BookAppointment db now userID (inr req)
     = (db, v1.respond_error http.StatusNotFound "Doctor not found"))
  ∧ (v1.validate_BookRequest req = [] →
     online db = true →
     ∀ doc id a,
       live (doctors db) (v1.req_DoctorID req) doc →
       live (appointments db) id a →
       Appointment.DoctorID a = v1.req_DoctorID req →
       Appointment.StartTime a = v1.req_ScheduledAt req →
       Appointment.AppointmentDate a = Appointment.StartTime a →
       v1.BookAppointment db now userID (inr req)
       = (db, v1.respond_error http.StatusConflict
                "Doctor is not available at the requested time")).
Proof.
  split; [done|]. split; [|split].
  - intros Hmissing. eexists. apply BookAppointment_bind_error.
    apply ShouldBindJSON_invalid. rewrite validate_BookRequest_ok. tauto.
  - apply BookAppointment_doctor_missing.
  - intros Hvalid Hup doc id a Hdoc Ha Hd Hstart Hdate.
    eapply BookAppointment_conflict; eauto. congruence.
Qed.

(** C4. A booking request that can be bound, for a doctor that exists and
    an instant at which that doctor has no appointment, made by an
    authenticated patient, inserts exactly one appointment: for that
    patient and doctor, from the requested instant to thirty minutes
    later, with status pending; the answer is 201 with that appointment. *)
Theorem booking_creates_pending_appointment db now userID req doc :
  online db = true →
  v1.validate_BookRequest req = [] →
  live (doctors db) (v1.req_DoctorID req) doc →
  is_Some (rows (users db) !! userID) →
  seq_ahead (appointments db) →
  (∀ id a, live (appointments db) id a →
           Appointment.DoctorID a = v1.req_DoctorID req →
           Appointment.StartTime a ≠ v1.req_ScheduledAt req) →
  ∃ (id : N) (appointment : Appointment.t) (db' : DB),
    v1.BookAppointment db now userID (inr req)
    = (db', c_JSON http.StatusCreated (marshal_Appointment ∅ ∅ [] id appointment))
    ∧ rows (appointments db) !! id = None
    ∧ rows (appointments db') = <[id := appointment]> (rows (appointments db))
    ∧ users db' = users db ∧ doctors db' = doctors db
    ∧ Appointment.PatientID appointment = userID
    ∧ Appointment.DoctorID appointment = v1.req_DoctorID req
    ∧ Appointment.StartTime appointment = v1.req_ScheduledAt req
    ∧ Appointment.EndTime appointment = v1.req_ScheduledAt req + 30 * 60
    ∧ Appointment.Status appointment = models.StatusPending
    ∧ Appointment.DeletedAt appointment = None.
Proof.
  intros Hup Hvalid Hdoc Hpatient Hseq Hfree.
  destruct (BookAppointment_created db now userID req doc) as [Hbook Hfresh]; try done.
  do 3 eexists. split; [apply Hbook|]. by repeat split.
Qed.

(** C9. A cancelled appointment still occupies its slot: the availability
    query leaves its start slot out, and a booking of its doctor at its
    start timestamp is refused with 409; neither looks at the status. *)
Theorem cancelled_appointment_occupies_slot db now doc id a :
  online db = true →
  live (doctors db) (Appointment.DoctorID a) doc →
  live (appointments db) id a →
  Appointment.Status a = models.StatusCancelled →
  (∀ date,
     Parse_2006_01_02 (DefaultQuery date (Format_2006_01_02 now))
     = Some (day_of (Appointment.AppointmentDate a)) →
     ∃ slots,
       v1.GetDoctorAvailability db now (Appointment.DoctorID a) date
       = Some (c_JSON http.StatusOK
                 (availability_body (Appointment.DoctorID a)
                    (DefaultQuery date (Format_2006_01_02 now)) slots))
       ∧ start_slot a ∉ slots)
  ∧ (∀ userID req,
       v1.validate_BookRequest req = [] →
       v1.req_DoctorID req = Appointment.DoctorID a →
       v1.req_ScheduledAt req = Appointment.StartTime a →
       Appointment.AppointmentDate a = Appointment.StartTime a →
       v1.BookAppointment db now userID (inr req)
       = (db, v1.respond_error http.StatusConflict
                "Doctor is not available at the requested time")).
Proof.
  intros Hup Hdoc Ha Hcancelled. split.
  - intros date Hdate. eexists. split; [by eapply GetDoctorAvailability_ok|].
    rewrite list_elem_of_filter. intros [Hfree _]. apply Hfree.
    exists id, a. split; [|done]. unfold day_appointments.
    apply map_lookup_filter_Some. destruct Ha as [Hrow Hlive]. by repeat split.
  - intros userID req Hvalid Hd Hstart Hdates.
    eapply BookAppointment_conflict; eauto; try congruence.
    by rewrite Hd.
Qed.

End booking_claims.

Section booking_witnesses.
Import spec.
#[local] Existing Instance sample.externals.

Lemma sample_doctor st : live (doctors (sample.db st)) 1 sample.dr_bob.
Proof. by split. Qed.

Lemma sample_appointment st : live (appointments (sample.db st)) 1 (sample.appointment st).
Proof. by split. Qed.

Lemma booking_failure_modes_witness :
  (∃ err,
     v1.BookAppointment (sample.db "pending") sample.jan01 1
       (inr (v1.Build_BookRequest 1 GoTime.zero None "checkup"))
     = (sample.db "pending", v1.respond_error http.StatusBadRequest err))
  ∧ v1.BookAppointment (sample.db "pending") sample.jan01 1
      (inr (v1.Build_BookRequest 7 sample.jan10_0900 None "checkup"))
    = (sample.db "pending", v1.respond_error http.StatusNotFound "Doctor not found")
  ∧ v1.BookAppointment (sample.db "pending") sample.jan01 1
      (inr (v1.Build_BookRequest 1 sample.jan10_0900 None "checkup"))
    = (sample.db "pending",
       v1.respond_error http.StatusConflict "Doctor is not available at the requested time").
Proof.
  split; [|split].
  - apply (booking_failure_modes (sample.db "pending") sample.jan01 1
             (v1.Build_BookRequest 1 GoTime.zero None "checkup")).
    right. split; reflexivity.
  - apply (booking_failure_modes (sample.db "pending") sample.jan01 1
             (v1.Build_BookRequest 7 sample.jan10_0900 None "checkup")).
    + reflexivity.
    + intros doc [Hrow _]. vm_compute in Hrow. discriminate.
  - apply (proj2 (proj2 (proj2
             (booking_failure_modes (sample.db "pending") sample.jan01 1
                (v1.Build_BookRequest 1 sample.jan10_0900 None "checkup"))))
             eq_refl eq_refl
             sample.dr_bob 1%N (sample.appointment "pending")
             (sample_doctor "pending") (sample_appointment "pending")
             eq_refl eq_refl eq_refl).
Defined.

Lemma booking_creates_pending_appointment_witness :
  ∃ (id : N) (appointment : Appointment.t) (db' : DB),
    v1.BookAppointment sample.db0 sample.jan01 1
      (inr (v1.Build_BookRequest 1 sample.jan10_0900 None "checkup"))
    = (db', c_JSON http.StatusCreated (marshal_Appointment ∅ ∅ [] id appointment))
    ∧ rows (appointments sample.db0) !! id = None
    ∧ rows (appointments db') = <[id := appointment]> (rows (appointments sample.db0))
    ∧ users db' = users sample.db0 ∧ doctors db' = doctors sample.db0
    ∧ Appointment.PatientID appointment = 1%N
    ∧ Appointment.DoctorID appointment = 1%N
    ∧ Appointment.StartTime appointment = sample.jan10_0900
    ∧ Appointment.EndTime appointment = sample.jan10_0900 + 30 * 60
    ∧ Appointment.Status appointment = models.StatusPending
    ∧ Appointment.DeletedAt appointment = None.
Proof.
  apply (booking_creates_pending_appointment sample.db0 sample.jan01 1
           (v1.Build_BookRequest 1 sample.jan10_0900 None "checkup") sample.dr_bob).
  - reflexivity.
  - reflexivity.
  - split; reflexivity.
  - exists sample.alice. reflexivity.
  - intros id [a Hrow]. simpl in Hrow. rewrite lookup_empty in Hrow. discriminate.
  - intros id a [Hrow _]. simpl in Hrow. rewrite lookup_empty in Hrow. discriminate.
Defined.

Lemma cancelled_appointment_occupies_slot_witness :
  (∃ slots,
     v1.GetDoctorAvailability (sample.db "cancelled") sample.jan01 1 (Some "2025-01-10"%string)
     = Some (c_JSON http.StatusOK (availability_body 1 "2025-01-10" slots))
     ∧ "09:00"%string ∉ slots)
  ∧ v1.BookAppointment (sample.db "cancelled") sample.jan01 1
      (inr (v1.Build_BookRequest 1 sample.jan10_0900 None "again"))
    = (sample.db "cancelled",
       v1.respond_error http.StatusConflict "Doctor is not available at the requested time").
Proof.
  pose proof (cancelled_appointment_occupies_slot (sample.db "cancelled") sample.jan01
                sample.dr_bob 1 (sample.appointment "cancelled")
                eq_refl (sample_doctor "cancelled") (sample_appointment "cancelled") eq_refl)
    as [Havail Hbook].
  split.
  - apply (Havail (Some "2025-01-10"%string)). vm_compute. reflexivity.
  - apply (Hbook 1%N (v1.Build_BookRequest 1 sample.jan10_0900 None "again"));
      reflexivity.
Defined.

End booking_witnesses.

(** ** The appointment lifecycle *)

Section lifecycle.
Context `{Externals}.
Import GoTime gorm spec.

Lemma First_unique {A : Type} `{GormModel A} (t : Table A) (cond : N → A → bool) id a :
  live t id a → cond id a = true →
  (∀ id' a', live t id' a' → cond id' a' = true → id' = id) →
  First true t cond = Ok (id, a).
Proof.
  intros [Hrow Hlive] Hc Huniq.
  destruct (First_found t cond (id, a)) as [[id' a'] Hfirst];
    [by apply elem_of_Where|].
  rewrite Hfirst. apply First_Ok, elem_of_Where in Hfirst as (Hrow' & Hlive' & Hc').
  simpl in *. assert (id' = id) as -> by (by apply (Huniq id' a')).
  congruence.
Qed.

(** The appointment lookup of [CancelAppointment]. *)
Lemma First_own_appointment db (userID id : N) :
  First (online db) (appointments db)
    (λ k a, bool_decide (k = id) && bool_decide (Appointment.PatientID a = userID))
  = if online db then
      match rows (appointments db) !! id with
      | Some a =>
          if bool_decide (Appointment.DeletedAt a = None)
             && bool_decide (Appointment.PatientID a = userID)
          then Ok (id, a) else Err ErrRecordNotFound
      | None => Err ErrRecordNotFound
      end
    else Err ErrStatement.
Proof.
  destruct (online db); [|done].
  rewrite (First_pk _ _ id).
  2:{ by intros k a [?%bool_decide_eq_true _]%andb_true_iff. }
  destruct (rows (appointments db) !! id) as [a|]; [|done].
  by rewrite (bool_decide_eq_true_2 (id = id)) by done.
Qed.

Lemma CancelAppointment_not_own db now userID id :
  (∀ a, live (appointments db) id a → Appointment.PatientID a ≠ userID) →
  v1.CancelAppointment db now userID id
  = (db, v1.respond_error http.StatusNotFound "Appointment not found").
Proof.
  intros Hforeign. unfold v1.CancelAppointment. rewrite First_own_appointment.
  destruct (online db); [|done].
  destruct (rows (appointments db) !! id) as [a|] eqn:Hrow; [|done].
  destruct (bool_decide (Appointment.DeletedAt a = None)) eqn:Hlive; [|done].
  apply bool_decide_eq_true in Hlive.
  by rewrite bool_decide_eq_false_2 by (by apply Hforeign).
Qed.

Lemma CancelAppointment_already_cancelled db now userID id a :
  online db = true → live (appointments db) id a →
  Appointment.PatientID a = userID →
  Appointment.Status a = models.StatusCancelled →
  v1.CancelAppointment db now userID id
  = (db, v1.respond_error http.StatusBadRequest "Appointment is already cancelled").
Proof.
  intros Hup [Hrow Hlive] Hown Hst. unfold v1.CancelAppointment.
  rewrite First_own_appointment, Hup, Hrow. simpl in Hlive.
  rewrite (bool_decide_eq_true_2 _ Hlive), (bool_decide_eq_true_2 _ Hown). cbn [andb].
  by rewrite (bool_decide_eq_true_2 _ Hst).
Qed.

Lemma CancelAppointment_cancels db now userID id a :
  online db = true → live (appointments db) id a →
  Appointment.PatientID a = userID →
  Appointment.Status a ≠ models.StatusCancelled →
  ∃ db',
    v1.CancelAppointment db now userID id
    = (db', c_JSON http.StatusOK (message_body "Appointment cancelled successfully"))
    ∧ rows (appointments db') !! id
      = Some (Appointment.set_Status models.StatusCancelled now a).
Proof.
  intros Hup [Hrow Hlive] Hown Hst. unfold v1.CancelAppointment.
  rewrite First_own_appointment, Hup, Hrow. simpl in Hlive.
  rewrite (bool_decide_eq_true_2 _ Hlive), (bool_decide_eq_true_2 _ Hown). cbn [andb].
  rewrite (bool_decide_eq_false_2 _ Hst).
  eexists. split; [reflexivity|].
  cbn [with_appointments appointments rows].
  rewrite map_lookup_imap, Hrow. simpl.
  rewrite (bool_decide_eq_true_2 _ Hlive). by rewrite bool_decide_eq_true_2.
Qed.

(** The doctor of the logged-in user, and the update the handler makes. *)
Lemma UpdateAppointmentStatus_sets db now userID doctorID doc id a (s : string) :
  online db = true →
  live (doctors db) doctorID doc → Doctor.UserID doc = userID →
  (∀ k d, live (doctors db) k d → Doctor.UserID d = userID → k = doctorID) →
  live (appointments db) id a → Appointment.DoctorID a = doctorID →
  s ∈ [models.StatusConfirmed; models.StatusCancelled; models.StatusCompleted] →
  ∃ db',
    v1.UpdateAppointmentStatus db now userID id (inr (v1.Build_StatusRequest s))
    = (db', c_JSON http.StatusOK (message_body "Appointment status updated successfully"))
    ∧ rows (appointments db') !! id = Some (Appointment.set_Status s now a).
Proof.
  intros Hup Hdoc Huser Huniq [Hrow Hlive] Hd Hs. unfold v1.UpdateAppointmentStatus.
  rewrite Hup. rewrite (First_unique (doctors db) _ doctorID doc); [|done| |].
  2:{ by apply bool_decide_eq_true_2. }
  2:{ intros k d Hk Hu%bool_decide_eq_true. by apply (Huniq k d). }
  rewrite ShouldBindJSON_valid.
  2:{ unfold v1.validate_StatusRequest, binding.field, binding.oneof, binding.required_string.
      cbn [v1.req_Status].
      rewrite (bool_decide_eq_true_2 (s ∈ _)) by done.
      rewrite bool_decide_eq_false_2.
      - done.
      - intros ->. rewrite !elem_of_cons, elem_of_nil in Hs.
        destruct Hs as [?|[?|[?|[]]]]; discriminate. }
  assert (Where (appointments db)
            (λ k a', bool_decide (k = id) && bool_decide (Appointment.DoctorID a' = doctorID))
          = [(id, a)]) as Hsel.
  { rewrite (Where_pk _ _ id) by (by intros k a' [?%bool_decide_eq_true _]%andb_true_iff).
    rewrite Hrow. simpl in Hlive. by rewrite !bool_decide_eq_true_2. }
  unfold Update. rewrite Hsel. cbn [length Z.of_nat].
  rewrite bool_decide_eq_false_2 by done.
  eexists. split; [reflexivity|].
  cbn [with_appointments appointments rows v1.req_Status].
  rewrite map_lookup_imap, Hrow. simpl. simpl in Hlive.
  by rewrite !bool_decide_eq_true_2.
Qed.

End lifecycle.

Section lifecycle_claims.
Context `{Externals}.
Import GoTime gorm spec.

(** C1, as the handlers have it. The doctor's status update sets the
    status of an appointment of that doctor to the requested one of
    confirmed, cancelled and completed whatever the current status is; the
    patient's cancellation leaves an already cancelled appointment as it is
    (400) and sets an appointment in any other status to cancelled. So the
    transitions out of pending and confirmed are admitted, and cancelled
    and completed are not terminal. *)
Theorem status_updates_ignore_current_status db now userID id a :
  online db = true →
  live (appointments db) id a →
  (∀ doc s,
     live (doctors db) (Appointment.DoctorID a) doc → Doctor.UserID doc = userID →
     (∀ k d, live (doctors db) k d → Doctor.UserID d = userID → k = Appointment.DoctorID a) →
     s ∈ [models.StatusConfirmed; models.StatusCancelled; models.StatusCompleted] →
     ∃ db',
       v1.UpdateAppointmentStatus db now userID id (inr (v1.Build_StatusRequest s))
       = (db', c_JSON http.StatusOK (message_body "Appointment status updated successfully"))
       ∧ Appointment.Status <$> rows (appointments db') !! id = Some s)
  ∧ (Appointment.PatientID a = userID →
     Appointment.Status a = models.StatusCancelled →
     v1.CancelAppointment db now userID id
     = (db, v1.respond_error http.StatusBadRequest "Appointment is already cancelled"))
  ∧ (Appointment.PatientID a = userID →
     Appointment.Status a ≠ models.StatusCancelled →
     ∃ db',
       v1.CancelAppointment db now userID id
       = (db', c_JSON http.StatusOK (message_body "Appointment cancelled successfully"))
       ∧ Appointment.Status <$> rows (appointments db') !! id = Some models.StatusCancelled).
Proof.
  intros Hup Ha. split; [|split].
  - intros doc s Hdoc Huser Huniq Hs.
    destruct (UpdateAppointmentStatus_sets db now userID (Appointment.DoctorID a) doc id a s)
      as (db' & Hupd & Hrow); try done.
    exists db'. split; [done|]. by rewrite Hrow.
  - intros Hown Hst. by eapply CancelAppointment_already_cancelled.
  - intros Hown Hst.
    destruct (CancelAppointment_cancels db now userID id a) as (db' & Hc & Hrow); try done.
    exists db'. split; [done|]. by rewrite Hrow.
Qed.

(** C5. A patient's cancellation of an own appointment that is already
    cancelled is answered with 400 and changes nothing in the database; a
    cancellation of an appointment that is not the patient's own is
    answered with 404. *)
Theorem cancel_rejects_cancelled_and_foreign db now userID id :
  (∀ a, online db = true → live (appointments db) id a →
        Appointment.PatientID a = userID →
        Appointment.Status a = models.StatusCancelled →
        v1.CancelAppointment db now userID id
        = (db, v1.respond_error http.StatusBadRequest "Appointment is already cancelled"))
  ∧ ((∀ a, live (appointments db) id a → Appointment.PatientID a ≠ userID) →
     v1.CancelAppointment db now userID id
     = (db, v1.respond_error http.StatusNotFound "Appointment not found")).
Proof.
  split.
  - intros a. apply CancelAppointment_already_cancelled.
  - apply CancelAppointment_not_own.
Qed.

End lifecycle_claims.

Section lifecycle_witnesses.
Import spec.
#[local] Existing Instance sample.externals.

(** A cancelled appointment is confirmed by its doctor, and a completed one
    is cancelled by its patient. *)
Lemma terminal_status_changes :
  (Appointment.Status <$> rows (appointments (sample.db "cancelled")) !! 1%N
   = Some "cancelled"%string
   ∧ status (v1.UpdateAppointmentStatus (sample.db "cancelled") sample.jan01 2 1
               (inr (v1.Build_StatusRequest "confirmed"))).2 = 200
   ∧ Appointment.Status
       <$> rows (appointments
                   (v1.UpdateAppointmentStatus (sample.db "cancelled") sample.jan01 2 1
                      (inr (v1.Build_StatusRequest "confirmed"))).1) !! 1%N
     = Some "confirmed"%string)
  ∧ (Appointment.Status <$> rows (appointments (sample.db "completed")) !! 1%N
     = Some "completed"%string
     ∧ status (v1.CancelAppointment (sample.db "completed") sample.jan01 1 1).2 = 200
     ∧ Appointment.Status
         <$> rows (appointments
                     (v1.CancelAppointment (sample.db "completed") sample.jan01 1 1).1) !! 1%N
       = Some "cancelled"%string).
Proof. vm_compute. repeat split. Qed.

Lemma sample_only_doctor st k d :
  live (doctors (sample.db st)) k d → Doctor.UserID d = 2%N → k = 1%N.
Proof.
  intros [Hrow _] _. simpl in Hrow.
  apply lookup_insert_Some in Hrow as [[<- _]|[_ Hrow]]; [done|].
  by rewrite lookup_empty in Hrow.
Qed.

Lemma status_updates_ignore_current_status_witness :
  (∃ db',
     v1.UpdateAppointmentStatus (sample.db "completed") sample.jan01 2 1
       (inr (v1.Build_StatusRequest "confirmed"))
     = (db', c_JSON http.StatusOK (message_body "Appointment status updated successfully"))
     ∧ Appointment.Status <$> rows (appointments db') !! 1%N = Some "confirmed"%string)
  ∧ ∃ db',
      v1.CancelAppointment (sample.db "completed") sample.jan01 1 1
      = (db', c_JSON http.StatusOK (message_body "Appointment cancelled successfully"))
      ∧ Appointment.Status <$> rows (appointments db') !! 1%N = Some models.StatusCancelled.
Proof.
  pose proof (status_updates_ignore_current_status (sample.db "completed") sample.jan01)
    as Hclaim.
  split.
  - apply (proj1 (Hclaim 2%N 1%N (sample.appointment "completed") eq_refl
                    (sample_appointment "completed")) sample.dr_bob).
    + apply sample_doctor.
    + reflexivity.
    + apply sample_only_doctor.
    + left.
  - apply (proj2 (proj2 (Hclaim 1%N 1%N (sample.appointment "completed") eq_refl
                           (sample_appointment "completed")))).
    + reflexivity.
    + discriminate.
Defined.

Lemma cancel_rejects_cancelled_and_foreign_witness :
  v1.CancelAppointment (sample.db "cancelled") sample.jan01 1 1
  = (sample.db "cancelled",
     v1.respond_error http.StatusBadRequest "Appointment is already cancelled")
  ∧ v1.CancelAppointment (sample.db "pending") sample.jan01 3 1
    = (sample.db "pending", v1.respond_error http.StatusNotFound "Appointment not found").
Proof.
  split.
  - apply (proj1 (cancel_rejects_cancelled_and_foreign (sample.db "cancelled") sample.jan01 1 1)
             (sample.appointment "cancelled")).
    + reflexivity.
    + apply sample_appointment.
    + reflexivity.
    + reflexivity.
  - apply (proj2 (cancel_rejects_cancelled_and_foreign (sample.db "pending") sample.jan01 3 1)).
    intros a [Hrow _]. simpl in Hrow.
    apply lookup_insert_Some in Hrow as [[_ <-]|[_ Hrow]]; [discriminate|].
    by rewrite lookup_empty in Hrow.
Defined.

End lifecycle_witnesses.

(** ** Registration and login *)

Section auth.
Context `{Externals}.
Import GoTime gorm spec.

Lemma field_nil (name : string) (tags : list (string * bool)) :
  binding.field name tags = [] ↔ Forall (λ r, r.2 = true) tags.
Proof.
  unfold binding.field. rewrite Forall_forall. split.
  - intros Hnil [tag b] Hin. simpl. destruct b; [done|].
    assert ((tag, false) ∈ filter (λ r : string * bool, r.2 = false) tags) as Hf
      by (by apply list_elem_of_filter).
    destruct (filter _ tags) as [|[??] ?]; [by apply not_elem_of_nil in Hf|done].
  - intros Hall. destruct (filter _ tags) as [|[tag b] l] eqn:Hf; [done|].
    assert ((tag, b) ∈ filter (λ r : string * bool, r.2 = false) tags) as [Hb Hin]%list_elem_of_filter
      by (rewrite Hf; left).
    apply Hall in Hin. simpl in *. congruence.
Qed.

(** A request that passes validation names one of the two public roles. *)
Lemma validate_RegisterRequest_role (req : v1.RegisterRequest) :
  v1.validate_RegisterRequest req = [] →
  v1.reg_Role req ∈ [models.PatientRole; models.DoctorRole].
Proof.
  unfold v1.validate_RegisterRequest.
  intros Hv. apply app_eq_nil in Hv as [_ Hv]. apply app_eq_nil in Hv as [_ Hv].
  apply app_eq_nil in Hv as [_ Hrole]. apply field_nil in Hrole.
  rewrite !Forall_cons in Hrole. destruct Hrole as (_ & Hone & _).
  simpl in Hone. by apply bool_decide_eq_true in Hone.
Qed.

Lemma RegisterUser_bind_error db now body err :
  binding.ShouldBindJSON v1.validate_RegisterRequest body = inl err →
  v1.RegisterUser db now body = (db, v1.respond_error http.StatusBadRequest err).
Proof. unfold v1.RegisterUser. by intros ->. Qed.

(** Whatever else the request says, an e-mail address that a user already
    has is refused with 400 and nothing is written. *)
Lemma RegisterUser_duplicate db now req id u :
  online db = true → live (users db) id u → User.Email u = v1.reg_Email req →
  ∃ err, v1.RegisterUser db now (inr req)
         = (db, v1.respond_error http.StatusBadRequest err).
Proof.
  intros Hup [Hrow Hlive] Hemail.
  destruct (v1.validate_RegisterRequest req) as [|e errs] eqn:Hvalid.
  - exists "Email already registered"%string. unfold v1.RegisterUser.
    rewrite (ShouldBindJSON_valid _ _ Hvalid), Hup.
    edestruct (First_found (users db)) as [r' ->]; [|done].
    apply (elem_of_Where _ _ (id, u)). simpl. by rewrite bool_decide_eq_true_2.
  - eexists. apply RegisterUser_bind_error, ShouldBindJSON_invalid. by rewrite Hvalid.
Qed.

(** What a [Create] does to the rows. *)
Lemma Create_rows {A : Type} (up : bool) (same : A → A → bool) (refs : bool)
    (t t' : Table A) (row : A) (res : result N) :
  Create up same refs t row = (t', res) →
  match res with
  | Ok id =>
      rows t' = <[id := row]> (rows t) ∧ rows t !! id = None
      ∧ ∀ k old, rows t !! k = Some old → same old row = false
  | Err _ => rows t' = rows t
  end.
Proof.
  unfold Create. destruct up; [|by intros [= <- <-]].
  destruct (bool_decide (is_Some (rows t !! (seq t + 1)%N))) eqn:Hfresh;
    [by intros [= <- <-]|].
  destruct (bool_decide (Exists _ _)) eqn:Hsame; [by intros [= <- <-]|].
  destruct refs; intros [= <- <-]; [|done]. simpl.
  apply bool_decide_eq_false in Hfresh, Hsame. split; [done|]. split.
  - by apply eq_None_not_Some.
  - intros k old Hk. destruct (same old row) eqn:Hs; [|done].
    exfalso. apply Hsame, Exists_exists. exists (k, old).
    by rewrite elem_of_map_to_list.
Qed.

End auth.

Section registration.
Context `{Externals}.
Import GoTime gorm spec.

Lemma ShouldBindJSON_inr {R : Type} (validate : R → list (string * string))
    (body : string + R) (r : R) :
  binding.ShouldBindJSON validate body = inr r → body = inr r ∧ validate r = [].
Proof.
  unfold binding.ShouldBindJSON. destruct body as [msg|r']; [done|].
  destruct (validate r') eqn:Hv; [|done]. by intros [= ->].
Qed.

(** The user rows after a registration: the rows before, or those with
    one more row, for a request that passed validation, under a primary
    key and an e-mail address that no row had. *)
Lemma RegisterUser_users db now body :
  rows (users (v1.RegisterUser db now body).1) = rows (users db)
  ∨ ∃ req id u,
      body = inr req ∧ v1.validate_RegisterRequest req = []
      ∧ rows (users (v1.RegisterUser db now body).1) = <[id := u]> (rows (users db))
      ∧ rows (users db) !! id = None
      ∧ User.Email u = v1.reg_Email req ∧ User.Role u = v1.reg_Role req
      ∧ ∀ k old, rows (users db) !! k = Some old → User.Email old ≠ User.Email u.
Proof.
  unfold v1.RegisterUser.
  destruct (binding.ShouldBindJSON _ body) as [err|req] eqn:Hbind; [by left|].
  apply ShouldBindJSON_inr in Hbind as [-> Hvalid].
  destruct (First _ _ _) as [?|?]; [by left|].
  unfold v1.Create_User. destruct (bcrypt_GenerateFromPassword _) as [hash|]; [|by left].
  destruct (Create _ _ _ (users db) _) as [users' created] eqn:Hcreate.
  apply Create_rows in Hcreate. destruct created as [id|e']; [|by left].
  destruct Hcreate as (Hrows & Hfresh & Hsame). simpl in Hrows, Hsame.
  assert (∀ tx : DB, rows (users tx) = users'.(rows) →
          rows (users tx) = rows (users db)
          ∨ ∃ req0 id0 u,
              (inr req : string + v1.RegisterRequest) = inr req0
              ∧ v1.validate_RegisterRequest req0 = []
              ∧ rows (users tx) = <[id0 := u]> (rows (users db))
              ∧ rows (users db) !! id0 = None
              ∧ User.Email u = v1.reg_Email req0 ∧ User.Role u = v1.reg_Role req0
              ∧ ∀ k old, rows (users db) !! k = Some old → User.Email old ≠ User.Email u)
    as Hnew.
  { intros tx ->. right. eexists req, id, _. repeat split; try done.
    intros k old Hk Heq. apply Hsame in Hk.
    by rewrite bool_decide_eq_true_2 in Hk. }
  cbn [User.Role].
  destruct (bool_decide (v1.reg_Role req = models.DoctorRole)).
  - destruct (Create _ _ _ (doctors _) _) as [doctors' [?|?]]; [|by left].
    destruct (online db); [|by left]. cbn [negb].
    destruct (GenerateToken _ _ _); by apply Hnew.
  - destruct (online db); [|by left]. cbn [negb].
    destruct (GenerateToken _ _ _); by apply Hnew.
Qed.

Lemma RegisterUser_emails_unique db now body :
  emails_unique (users db) → emails_unique (users (v1.RegisterUser db now body).1).
Proof.
  intros Huniq. unfold emails_unique.
  destruct (RegisterUser_users db now body)
    as [->|(req & id & u & _ & _ & -> & Hfresh & _ & _ & Hnew)]; [done|].
  intros id1 id2 u1 u2 H1 H2 Heq.
  apply lookup_insert_Some in H1 as [[<- <-]|[Hne1 H1]];
    apply lookup_insert_Some in H2 as [[<- <-]|[Hne2 H2]]; try done.
  - by destruct (Hnew _ _ H2).
  - by destruct (Hnew _ _ H1).
  - by apply (Huniq id1 id2 u1 u2).
Qed.

End registration.

Section auth_claims.
Context `{Externals}.
Import GoTime gorm spec.

(** C7. A registration whose e-mail address is that of an existing user is
    answered with 400 and writes nothing: the database, and so the set of
    users, is unchanged. And no registration at all breaks the uniqueness
    of e-mail addresses among the users. *)
Theorem duplicate_email_registration_refused db now :
  (∀ req id u,
     online db = true → live (users db) id u → User.Email u = v1.reg_Email req →
     ∃ err, v1.RegisterUser db now (inr req)
            = (db, v1.respond_error http.StatusBadRequest err))
  ∧ (∀ body, emails_unique (users db) →
             emails_unique (users (v1.RegisterUser db now body).1)).
Proof.
  split.
  - intros req id u. apply RegisterUser_duplicate.
  - intros body. apply RegisterUser_emails_unique.
Qed.

(** C10. A registration whose role is not exactly "patient" or "doctor"
    (so "admin", for one) fails validation: it is answered with 400 and
    creates no user. Hence every user row that a registration adds has the
    role patient or doctor, and none has the role admin. *)
Theorem registration_role_patient_or_doctor db now :
  (∀ req, v1.reg_Role req ∉ [models.PatientRole; models.DoctorRole] →
          ∃ err, v1.RegisterUser db now (inr req)
                 = (db, v1.respond_error http.StatusBadRequest err))
  ∧ (∀ body id u,
       rows (users (v1.RegisterUser db now body).1) !! id = Some u →
       rows (users db) !! id = Some u
       ∨ (User.Role u ∈ [models.PatientRole; models.DoctorRole]
          ∧ User.Role u ≠ models.AdminRole)).
Proof.
  split.
  - intros req Hrole. eexists. apply RegisterUser_bind_error, ShouldBindJSON_invalid.
    intros Hvalid. by apply Hrole, validate_RegisterRequest_role.
  - intros body id u.
    destruct (RegisterUser_users db now body)
      as [->|(req & id' & u' & _ & Hvalid & -> & _ & _ & Hrole & _)]; [by left|].
    intros [[<- <-]|[_ Hold]]%lookup_insert_Some; [right|by left].
    apply validate_RegisterRequest_role in Hvalid. rewrite <- Hrole in Hvalid.
    split; [done|]. intros Hadmin. rewrite Hadmin in Hvalid.
    rewrite !elem_of_cons, elem_of_nil in Hvalid.
    destruct Hvalid as [?|[?|[]]]; discriminate.
Qed.

(** C8. A login attempt that can be bound is answered: with 401 when no
    user has the e-mail address or the password does not match the stored
    hash; with 403 when the password matches and the account is inactive;
    with 200 and the token the signer issued when the password matches and
    the account is active. *)
Theorem login_outcomes db req :
  v1.validate_LoginRequest req = [] →
  ((∀ id u, live (users db) id u → User.Email u ≠ v1.login_Email req) →
   v1.LoginUser db (inr req)
   = v1.respond_error http.StatusUnauthorized "Invalid email or password")
  ∧ (∀ id u,
       online db = true → live (users db) id u → User.Email u = v1.login_Email req →
       (∀ k u', live (users db) k u' → User.Email u' = v1.login_Email req → k = id) →
       (bcrypt_CompareHashAndPassword (User.Password u) (v1.login_Password req) = false →
        v1.LoginUser db (inr req)
        = v1.respond_error http.StatusUnauthorized "Invalid email or password")
       ∧ (bcrypt_CompareHashAndPassword (User.Password u) (v1.login_Password req) = true →
          User.Active u = false →
          v1.LoginUser db (inr req)
          = v1.respond_error http.StatusForbidden "Account is deactivated")
       ∧ (bcrypt_CompareHashAndPassword (User.Password u) (v1.login_Password req) = true →
          User.Active u = true →
          ∀ token, GenerateToken id (User.Email u) (User.Role u) = Some token →
                   v1.LoginUser db (inr req)
                   = c_JSON http.StatusOK
                       (JStruct
                          [("token"%string, JStr token);
                           ("user"%string,
                            JStruct [("id"%string, JNum (Z.of_N id));
                                     ("name"%string, JStr (User.Name u));
                                     ("email"%string, JStr (User.Email u));
                                     ("role"%string, JStr (User.Role u))])]))).
Proof.
  intros Hvalid. unfold v1.LoginUser. rewrite (ShouldBindJSON_valid _ _ Hvalid). split.
  - intros Hunknown. destruct (online db); [|done].
    rewrite First_none; [done|]. intros id u Hu. by apply bool_decide_eq_false_2, (Hunknown id).
  - intros id u Hup Hu Hemail Huniq. rewrite Hup.
    rewrite (First_unique (users db) _ id u); [|done| |].
    2:{ by apply bool_decide_eq_true_2. }
    2:{ intros k u' Hk He%bool_decide_eq_true. by apply (Huniq k u'). }
    split; [|split].
    + by intros ->.
    + by intros -> ->.
    + by intros -> -> token ->.
Qed.

End auth_claims.

Section auth_witnesses.
Import spec.
#[local] Existing Instance sample.externals.

Lemma sample_users st k u :
  rows (users (sample.db st)) !! k = Some u →
  (k = 1%N ∧ u = sample.alice) ∨ (k = 2%N ∧ u = sample.bob) ∨ (k = 3%N ∧ u = sample.carol).
Proof.
  simpl. intros Hrow.
  apply lookup_insert_Some in Hrow as [[<- <-]|[_ Hrow]]; [by left|].
  apply lookup_insert_Some in Hrow as [[<- <-]|[_ Hrow]]; [by right; left|].
  apply lookup_insert_Some in Hrow as [[<- <-]|[_ Hrow]]; [by right; right|].
  by rewrite lookup_empty in Hrow.
Qed.

Lemma sample_emails_unique st : emails_unique (users (sample.db st)).
Proof.
  intros id1 id2 u1 u2 H1%sample_users H2%sample_users.
  destruct H1 as [[-> ->]|[[-> ->]|[-> ->]]], H2 as [[-> ->]|[[-> ->]|[-> ->]]];
    done || discriminate.
Qed.

Lemma duplicate_email_registration_refused_witness :
  (∃ err,
     v1.RegisterUser (sample.db "pending") sample.jan01
       (inr (sample.form "alice@example.com" "patient"))
     = (sample.db "pending", v1.respond_error http.StatusBadRequest err))
  ∧ emails_unique
      (users (v1.RegisterUser (sample.db "pending") sample.jan01
                (inr (sample.form "dana@example.com" "patient"))).1).
Proof.
  split.
  - apply (proj1 (duplicate_email_registration_refused (sample.db "pending") sample.jan01)
             (sample.form "alice@example.com" "patient") 1%N sample.alice).
    + reflexivity.
    + split; reflexivity.
    + reflexivity.
  - apply (proj2 (duplicate_email_registration_refused (sample.db "pending") sample.jan01)).
    apply sample_emails_unique.
Defined.

Lemma registration_role_patient_or_doctor_witness :
  ∃ err,
    v1.RegisterUser (sample.db "pending") sample.jan01
      (inr (sample.form "dana@example.com" "admin"))
    = (sample.db "pending", v1.respond_error http.StatusBadRequest err).
Proof.
  apply (proj1 (registration_role_patient_or_doctor (sample.db "pending") sample.jan01)
           (sample.form "dana@example.com" "admin")).
  simpl. rewrite !elem_of_cons, elem_of_nil. intros [?|[?|[]]]; discriminate.
Defined.

Lemma sample_email_owner st (email : string) k0 u0 :
  live (users (sample.db st)) k0 u0 → User.Email u0 = email →
  ∀ k u', live (users (sample.db st)) k u' → User.Email u' = email → k = k0.
Proof.
  intros [H0 _] E0 k u' [Hk _] Ek.
  apply (sample_emails_unique st k k0 u' u0); congruence.
Qed.

Lemma login_outcomes_witness :
  v1.LoginUser (sample.db "pending")
    (inr (v1.Build_LoginRequest "nobody@example.com" "password"))
  = v1.respond_error http.StatusUnauthorized "Invalid email or password"
  ∧ v1.LoginUser (sample.db "pending")
      (inr (v1.Build_LoginRequest "alice@example.com" "wrongpassword"))
    = v1.respond_error http.StatusUnauthorized "Invalid email or password"
  ∧ v1.LoginUser (sample.db "pending")
      (inr (v1.Build_LoginRequest "carol@example.com" "carolpassword"))
    = v1.respond_error http.StatusForbidden "Account is deactivated"
  ∧ v1.LoginUser (sample.db "pending")
      (inr (v1.Build_LoginRequest "alice@example.com" "alicepassword"))
    = c_JSON http.StatusOK
        (JStruct [("token"%string, JStr "talice@example.com");
                  ("user"%string,
                   JStruct [("id"%string, JNum 1);
                            ("name"%string, JStr "Alice");
                            ("email"%string, JStr "alice@example.com");
                            ("role"%string, JStr "patient")])]).
Proof.
  split; [|split; [|split]].
  - destruct (login_outcomes (sample.db "pending")
                (v1.Build_LoginRequest "nobody@example.com" "password")) as [Hunknown _];
      [vm_compute; reflexivity|].
    apply Hunknown.
    intros id u [[[-> ->]|[[-> ->]|[-> ->]]]%sample_users _]; discriminate.
  - destruct (login_outcomes (sample.db "pending")
                (v1.Build_LoginRequest "alice@example.com" "wrongpassword")) as [_ Hknown];
      [vm_compute; reflexivity|].
    apply (Hknown 1%N sample.alice); [reflexivity|split; reflexivity|reflexivity| |].
    + by apply (sample_email_owner "pending" "alice@example.com" 1%N sample.alice).
    + vm_compute. reflexivity.
  - destruct (login_outcomes (sample.db "pending")
                (v1.Build_LoginRequest "carol@example.com" "carolpassword")) as [_ Hknown];
      [vm_compute; reflexivity|].
    apply (Hknown 3%N sample.carol); [reflexivity|split; reflexivity|reflexivity| | |].
    + by apply (sample_email_owner "pending" "carol@example.com" 3%N sample.carol).
    + vm_compute. reflexivity.
    + reflexivity.
  - destruct (login_outcomes (sample.db "pending")
                (v1.Build_LoginRequest "alice@example.com" "alicepassword")) as [_ Hknown];
      [vm_compute; reflexivity|].
    apply (Hknown 1%N sample.alice); [reflexivity|split; reflexivity|reflexivity| | | |].
    + by apply (sample_email_owner "pending" "alice@example.com" 1%N sample.alice).
    + vm_compute. reflexivity.
    + reflexivity.
    + reflexivity.
Defined.

End auth_witnesses.

(** ** The shapes of the responses *)

Section shapes.
Context `{Externals}.
Import GoTime gorm spec.

Lemma respond_error_is_error (code : Z) (msg : string) :
  400 <= code < 600 → is_error (v1.respond_error code msg).
Proof. intros Hcode. split; [done|]. by exists msg. Qed.

Lemma array_is_no_page (l : list JSON) : ¬ is_page_or_null (JArr l).
Proof. by intros [(? & ? & ? & ? & ?)|(? & ? & ? & ?)]. Qed.

Ltac error_response :=
  right; apply respond_error_is_error; by vm_compute.

Lemma ListDoctors_shape db specialization name page limit :
  ok_or_error 200 is_page_or_null (v1.ListDoctors db specialization name page limit).
Proof.
  unfold v1.ListDoctors. destruct (Find _ _ _) as [found|e]; [|error_response].
  left. split; [done|]. cbn [body c_JSON].
  destruct (gorm_page _ _ _ found); [right|left]; by repeat eexists.
Qed.

Lemma ListAllUsers_shape db role active page limit :
  ok_or_error 200 is_page (v1.ListAllUsers db role active page limit).
Proof.
  unfold v1.ListAllUsers. destruct (Find _ _ _) as [found|e]; [|error_response].
  left. split; [done|]. by repeat eexists.
Qed.

Lemma GetDoctorAppointments_shape db userID status startDate endDate :
  ok_or_error 200 is_array (v1.GetDoctorAppointments db userID status startDate endDate).
Proof.
  unfold v1.GetDoctorAppointments.
  destruct (First _ _ _) as [[doctor_ID ?]|e]; [|error_response].
  destruct (v1.find_appointments _ _ _ _ _) as [found|e]; [|error_response].
  left. split; [done|]. by eexists.
Qed.

Lemma GetPatientAppointments_shape db userID status startDate endDate :
  ok_or_error 200 is_array (v1.GetPatientAppointments db userID status startDate endDate).
Proof.
  unfold v1.GetPatientAppointments.
  destruct (v1.find_appointments _ _ _ _ _) as [found|e]; [|error_response].
  left. split; [done|]. by eexists.
Qed.

(** The other handlers answer with their success status or with an error
    of the same shape. *)
Lemma UpdateAppointmentStatus_shape db now userID id body :
  ok_or_error 200 (λ _, True) (v1.UpdateAppointmentStatus db now userID id body).2.
Proof.
  unfold v1.UpdateAppointmentStatus.
  repeat case_match; try error_response; by left.
Qed.

Lemma BookAppointment_shape db now userID body :
  ok_or_error 201 (λ _, True) (v1.BookAppointment db now userID body).2.
Proof.
  unfold v1.BookAppointment.
  repeat case_match; try error_response; by left.
Qed.

Lemma CancelAppointment_shape db now userID id :
  ok_or_error 200 (λ _, True) (v1.CancelAppointment db now userID id).2.
Proof.
  unfold v1.CancelAppointment.
  repeat case_match; try error_response; by left.
Qed.

Lemma GetDoctorAvailability_shape db now doctorID date r :
  v1.GetDoctorAvailability db now doctorID date = Some r →
  ok_or_error 200 (λ _, True) r.
Proof.
  unfold v1.GetDoctorAvailability.
  destruct (Parse_2006_01_02 _) as [day|]; [|intros [= <-]; error_response].
  destruct (First _ _ _) as [?|?]; [|intros [= <-]; error_response].
  destruct (v1.generate_slots _ _ _ _ _) as [timeSlots|]; [|done]. cbn [mbind option_bind].
  destruct (Find _ _ _) as [?|?]; intros [= <-]; [by left|error_response].
Qed.

Lemma RegisterUser_shape db now body :
  ok_or_error 201 (λ _, True) (v1.RegisterUser db now body).2.
Proof.
  unfold v1.RegisterUser, v1.Create_User.
  repeat case_match; try error_response; by left.
Qed.

Lemma LoginUser_shape db body :
  ok_or_error 200 (λ _, True) (v1.LoginUser db body).
Proof.
  unfold v1.LoginUser.
  repeat case_match; try error_response; by left.
Qed.

(** X28. The admin list of appointments orders by a column
    [scheduled_at], which the appointments table does not have: its
    statement is refused and the handler answers 500 on every request. *)
Remark ListAllAppointments_fails db status startDate endDate doctorID patientID page limit :
  v1.ListAllAppointments db status startDate endDate doctorID patientID page limit
  = v1.respond_error http.StatusInternalServerError "Failed to fetch appointments".
Proof. done. Qed.

End shapes.

Section shapes_more.
Context `{Externals}.
Import GoTime gorm spec.

#[local] Ltac error_response_more :=
  right; apply respond_error_is_error; by vm_compute.

Lemma ListDoctors_page_shape db specialization name page limit :
  ok_or_error 200 (λ j, doctor_page db specialization name page limit ≠ [] → is_page j)
    (v1.ListDoctors db specialization name page limit).
Proof.
  unfold v1.ListDoctors, doctor_page, Find.
  destruct (online db); [|error_response_more].
  left. split; [done|]. cbn [body c_JSON].
  destruct (gorm_page _ _ _ _) as [|d page']; [done|]. intros _. by repeat eexists.
Qed.

Lemma ListAllAppointments_shape db status startDate endDate doctorID patientID page limit :
  ok_or_error 200 (λ _, True)
    (v1.ListAllAppointments db status startDate endDate doctorID patientID page limit).
Proof. error_response_more. Qed.

Lemma UpdateUserStatus_shape db now userID body :
  ok_or_error 200 (λ _, True) (v1.UpdateUserStatus db now userID body).2.
Proof.
  unfold v1.UpdateUserStatus.
  destruct (binding.ShouldBindJSON _ body) as [err|req]; [error_response_more|].
  destruct (Update _ _ _ _) as [tbl [n|e]]; [by left|error_response_more].
Qed.

Lemma UpdateUserProfile_shape db now userID body :
  ok_or_error 200 (λ _, True) (v1.UpdateUserProfile db now userID body).2.
Proof.
  unfold v1.UpdateUserProfile. cbv zeta.
  destruct (binding.ShouldBindJSON _ body) as [err|req]; [error_response_more|].
  destruct (First _ _ _) as [[user_ID user]|?]; [|error_response_more].
  destruct (if _ && _ then _ else _) as [msg|user']; [error_response_more|].
  destruct (if negb _ then _ else _) as [user''|]; [|error_response_more].
  destruct (v1.Save_User _ _ _ _ _) as [tbl [saved|e]]; [by left|error_response_more].
Qed.

Lemma GetDoctorDashboard_shape db now userID :
  ok_or_error 200 (λ _, True) (v1.GetDoctorDashboard db now userID).
Proof.
  unfold v1.GetDoctorDashboard.
  destruct (First _ _ _) as [[doctor_ID doctor]|?]; [|error_response_more].
  destruct (Parse_2006_01_02 _) as [day|]; [|error_response_more].
  destruct (Find _ _ _) as [today|?]; [|error_response_more].
  destruct (v1.upcoming _ _ _) as [next|?]; [by left|error_response_more].
Qed.

Lemma CreateSchedule_shape (marshal_Schedule : N → Schedule.t → JSON) db schedules now
    userID body :
  ok_or_error 201 (λ _, True)
    (v1.CreateSchedule marshal_Schedule db schedules now userID body).2.
Proof.
  unfold v1.CreateSchedule.
  destruct (First _ _ _) as [[doctor_ID doctor]|?]; [|error_response_more].
  destruct (binding.ShouldBindJSON _ body) as [err|req]; [error_response_more|].
  destruct (Parse_2006_01_02 _) as [day|]; [|error_response_more].
  destruct (Parse_15_04 (v1.sch_StartTime req)) as [startTime|]; [|error_response_more].
  destruct (Parse_15_04 (v1.sch_EndTime req)) as [endTime|]; [|error_response_more].
  destruct (After endTime startTime); cbn [negb]; [|error_response_more].
  destruct (Create _ _ _ _ _) as [tbl [id|e]]; [by left|error_response_more].
Qed.

Lemma GetUserProfile_shape (marshal_Doctor : N → Doctor.t → JSON) db userID :
  ok_or_error 200 (λ _, True) (v1.GetUserProfile marshal_Doctor db userID).
Proof.
  unfold v1.GetUserProfile.
  destruct (First _ (users db) _) as [[user_ID user]|?]; [|error_response_more].
  cbv zeta. left. split; [|done]. by repeat case_match.
Qed.

Lemma GetDoctorProfile_shape (sql_condition : string → option (N → Doctor.t → bool)) db id :
  ok_or_error 200 (λ _, True) (v1.GetDoctorProfile sql_condition db id).
Proof.
  unfold v1.GetDoctorProfile.
  destruct (v1.First_doctor_by_param _ _ _) as [[doctor_ID doctor]|?];
    [by left|error_response_more].
Qed.

Lemma GetDoctorAvailability_by_param_shape
    (sql_condition : string → option (N → Doctor.t → bool))
    (sql_doctor_id_is : string → option (N → bool)) db now doctorID date r :
  v1.GetDoctorAvailability_by_param sql_condition sql_doctor_id_is db now doctorID date
  = Some r →
  ok_or_error 200 (λ _, True) r.
Proof.
  unfold v1.GetDoctorAvailability_by_param.
  destruct (Parse_2006_01_02 _) as [day|]; [|intros [= <-]; error_response_more].
  destruct (v1.First_doctor_by_param _ _ _) as [?|?]; [|intros [= <-]; error_response_more].
  destruct (v1.generate_slots _ _ _ _ _) as [timeSlots|]; [|done]. cbn [mbind option_bind].
  destruct (sql_doctor_id_is doctorID) as [is_doctor|]; [|intros [= <-]; error_response_more].
  destruct (Find _ _ _) as [?|?]; intros [= <-]; [by left|error_response_more].
Qed.

End shapes_more.

Section shape_claim.
Context `{Externals}.
Import spec.

(** C6, as the handlers have it. The admin user list answers 200 with an
    object of the shape [{"data": [...], "total": N, "page": P, "limit": L}],
    and so does the doctor listing whenever the page it is asked for holds
    at least one doctor; the doctor's and the patient's appointment lists
    answer 200 with a bare array; and every handler of the API answers with
    its success status or with an error status and an object of the shape
    [{"error": "..."}]. *)
Theorem collection_and_error_shapes db now :
  (∀ role active page limit,
     ok_or_error 200 is_page (v1.ListAllUsers db role active page limit))
  ∧ (∀ specialization name page limit,
       ok_or_error 200 (λ j, doctor_page db specialization name page limit ≠ [] → is_page j)
         (v1.ListDoctors db specialization name page limit))
  ∧ (∀ userID status startDate endDate,
       ok_or_error 200 is_array (v1.GetDoctorAppointments db userID status startDate endDate))
  ∧ (∀ userID status startDate endDate,
       ok_or_error 200 is_array (v1.GetPatientAppointments db userID status startDate endDate))
  ∧ (∀ status startDate endDate doctorID patientID page limit,
       ok_or_error 200 (λ _, True)
         (v1.ListAllAppointments db status startDate endDate doctorID patientID page limit))
  ∧ (∀ userID id body,
       ok_or_error 200 (λ _, True) (v1.UpdateAppointmentStatus db now userID id body).2)
  ∧ (∀ userID body, ok_or_error 201 (λ _, True) (v1.BookAppointment db now userID body).2)
  ∧ (∀ userID id, ok_or_error 200 (λ _, True) (v1.CancelAppointment db now userID id).2)
  ∧ (∀ sql_condition sql_doctor_id_is doctorID date r,
       v1.GetDoctorAvailability_by_param sql_condition sql_doctor_id_is db now doctorID date
       = Some r →
       ok_or_error 200 (λ _, True) r)
  ∧ (∀ body, ok_or_error 201 (λ _, True) (v1.RegisterUser db now body).2)
  ∧ (∀ body, ok_or_error 200 (λ _, True) (v1.LoginUser db body))
  ∧ (∀ marshal_Doctor userID,
       ok_or_error 200 (λ _, True) (v1.GetUserProfile marshal_Doctor db userID))
  ∧ (∀ userID body, ok_or_error 200 (λ _, True) (v1.UpdateUserProfile db now userID body).2)
  ∧ (∀ userID body, ok_or_error 200 (λ _, True) (v1.UpdateUserStatus db now userID body).2)
  ∧ (∀ sql_condition id, ok_or_error 200 (λ _, True) (v1.GetDoctorProfile sql_condition db id))
  ∧ (∀ userID, ok_or_error 200 (λ _, True) (v1.GetDoctorDashboard db now userID))
  ∧ (∀ marshal_Schedule schedules userID body,
       ok_or_error 201 (λ _, True)
         (v1.CreateSchedule marshal_Schedule db schedules now userID body).2).
Proof.
  repeat split; intros.
  - apply ListAllUsers_shape.
  - apply ListDoctors_page_shape.
  - apply GetDoctorAppointments_shape.
  - apply GetPatientAppointments_shape.
  - apply ListAllAppointments_shape.
  - apply UpdateAppointmentStatus_shape.
  - apply BookAppointment_shape.
  - apply CancelAppointment_shape.
  - by eapply GetDoctorAvailability_by_param_shape.
  - apply RegisterUser_shape.
  - apply LoginUser_shape.
  - apply GetUserProfile_shape.
  - apply UpdateUserProfile_shape.
  - apply UpdateUserStatus_shape.
  - apply GetDoctorProfile_shape.
  - apply GetDoctorDashboard_shape.
  - apply CreateSchedule_shape.
Qed.

End shape_claim.

Section shape_counterexample.
Import spec.
#[local] Existing Instance sample.externals.

(** The appointment lists of a patient and of a doctor answer 200 with a
    bare array, not with an object with data, total, page and limit. *)
Lemma appointment_lists_are_bare_arrays :
  (status (v1.GetPatientAppointments (sample.db "pending") 1 "" "" "") = 200
   ∧ ¬ is_page (body (v1.GetPatientAppointments (sample.db "pending") 1 "" "" "")))
  ∧ (status (v1.GetDoctorAppointments (sample.db "pending") 2 "" "" "") = 200
     ∧ ¬ is_page (body (v1.GetDoctorAppointments (sample.db "pending") 2 "" "" ""))).
Proof.
  split; (split; [vm_compute; reflexivity|]).
  - assert (∃ l, body (v1.GetPatientAppointments (sample.db "pending") 1 "" "" "") = JArr l)
      as [l ->] by (vm_compute; eauto).
    intros Hpage. apply (array_is_no_page l). by left.
  - assert (∃ l, body (v1.GetDoctorAppointments (sample.db "pending") 2 "" "" "") = JArr l)
      as [l ->] by (vm_compute; eauto).
    intros Hpage. apply (array_is_no_page l). by left.
Qed.

End shape_counterexample.

(** ** The shape of the appointments table is kept by the handlers *)

Section invariants.
Context `{Externals}.
Import GoTime gorm spec.

Lemma appointments_wf_empty us ds up : appointments_wf (mkDB us ds (mkTable ∅ 0) up).
Proof.
  split.
  - intros id a Hrow. simpl in Hrow. by rewrite lookup_empty in Hrow.
  - intros id [a Hrow]. simpl in Hrow. by rewrite lookup_empty in Hrow.
Qed.

Lemma Update_status_wf db (cond : N → Appointment.t → bool) (s : string) now tbl res :
  appointments_wf db →
  Update (online db) (appointments db) cond (Appointment.set_Status s now) = (tbl, res) →
  appointments_wf (with_appointments db tbl).
Proof.
  intros [Hdates Hseq]. unfold Update. destruct (online db); intros [= <- <-].
  - split.
    + intros id a Hrow. cbn [with_appointments appointments rows] in Hrow.
      rewrite map_lookup_imap in Hrow.
      destruct (rows (appointments db) !! id) as [a0|] eqn:Hrow0; [|done].
      simpl in Hrow. injection Hrow as <-. apply Hdates in Hrow0.
      by destruct (_ && _).
    + intros id Hsome. cbn [with_appointments appointments rows seq] in *.
      apply Hseq. rewrite map_lookup_imap in Hsome.
      destruct (rows (appointments db) !! id); [eauto|by destruct Hsome].
  - by destruct db as [? ? [? ?] ?].
Qed.

Lemma Create_seq_ahead {A : Type} up (same : A → A → bool) refs (t t' : Table A) row res :
  seq_ahead t → Create up same refs t row = (t', res) → seq_ahead t'.
Proof.
  intros Hseq. unfold Create. destruct up; [|by intros [= <- <-]].
  destruct (_ || _ || _); intros [= <- <-]; intros id Hsome; simpl in *.
  - apply Hseq in Hsome. lia.
  - apply lookup_insert_is_Some in Hsome as [<-|[_ Hsome%Hseq]]; lia.
Qed.

Lemma BookAppointment_wf db now userID body :
  appointments_wf db → appointments_wf (v1.BookAppointment db now userID body).1.
Proof.
  intros Hwf. unfold v1.BookAppointment.
  destruct (binding.ShouldBindJSON _ body) as [err|req]; [done|].
  destruct (First _ (doctors db) _) as [d|e1]; [|done].
  destruct (First _ (appointments db) _) as [r|e2]; [done|].
  destruct (Create _ _ _ _ _) as [tbl created] eqn:Hcreate.
  assert (appointments_wf (with_appointments db tbl)) as Hwf'.
  { destruct Hwf as [Hdates Hseq]. split; [|by eapply Create_seq_ahead].
    apply Create_rows in Hcreate. intros id row Hrow. cbn in Hrow.
    destruct created as [id'|e3].
    - destruct Hcreate as (Hrows & _). rewrite Hrows in Hrow.
      apply lookup_insert_Some in Hrow as [[_ <-]|[_ Hrow]]; [done|by apply (Hdates id)].
    - rewrite Hcreate in Hrow. by apply (Hdates id). }
  by destruct created.
Qed.

Lemma CancelAppointment_wf db now userID id :
  appointments_wf db → appointments_wf (v1.CancelAppointment db now userID id).1.
Proof.
  intros Hwf. unfold v1.CancelAppointment.
  destruct (First _ _ _) as [[k a]|?]; [|done].
  destruct (bool_decide _); [done|].
  destruct (Update _ _ _ _) as [tbl [n|e]] eqn:Hupd; [|done].
  by eapply Update_status_wf.
Qed.

Lemma UpdateAppointmentStatus_wf db now userID id body :
  appointments_wf db → appointments_wf (v1.UpdateAppointmentStatus db now userID id body).1.
Proof.
  intros Hwf. unfold v1.UpdateAppointmentStatus.
  destruct (First _ _ _) as [[k d]|?]; [|done].
  destruct (binding.ShouldBindJSON _ body) as [err|req]; [done|].
  destruct (Update _ _ _ _) as [tbl [n|e]] eqn:Hupd; [|done].
  destruct (bool_decide _); [done|]. by eapply Update_status_wf.
Qed.

Lemma RegisterUser_appointments db now body :
  rows (appointments (v1.RegisterUser db now body).1) = rows (appointments db)
  ∧ seq (appointments (v1.RegisterUser db now body).1) = seq (appointments db).
Proof.
  unfold v1.RegisterUser, v1.Create_User.
  repeat case_match; simplify_eq; done.
Qed.

Lemma RegisterUser_wf db now body :
  appointments_wf db → appointments_wf (v1.RegisterUser db now body).1.
Proof.
  intros [Hdates Hseq]. destruct (RegisterUser_appointments db now body) as [Hrows Hs].
  split.
  - intros id a. rewrite Hrows. apply Hdates.
  - intros id. rewrite Hrows, Hs. apply Hseq.
Qed.

End invariants.

(** ** The handlers at work *)

Section examples.
Import spec.
#[local] Existing Instance sample.externals.

Example parse_date_2025_01_10 : GoTime.Parse_2006_01_02 "2025-01-10" = Some 20098.
Proof. reflexivity. Qed.

Example parse_date_feb_30 : GoTime.Parse_2006_01_02 "2025-02-30" = None.
Proof. reflexivity. Qed.

Example format_date_2025_01_10 :
  GoTime.Format_2006_01_02 sample.jan10_0900 = "2025-01-10"%string.
Proof. reflexivity. Qed.

Example format_clock_0900 : GoTime.Format_15_04 sample.jan10_0900 = "09:00"%string.
Proof. reflexivity. Qed.

(** Every day from 2024-01-01 to 2028-12-31 is read back from its
    rendering. *)
Example date_round_trip :
  Forall (λ day, GoTime.Parse_2006_01_02 (GoTime.Format_2006_01_02 (day * 86400 + 4711))
                 = Some day)
         (seqZ 19723 1827).
Proof. apply (bool_decide_unpack _). vm_compute. exact I. Qed.

Example zero_time : GoTime.zero = -62135596800.
Proof. reflexivity. Qed.

Example Atoi_examples :
  Atoi "10" = 10 ∧ Atoi "-3" = -3 ∧ Atoi "" = 0 ∧ Atoi "1x" = 0
  ∧ Atoi "99999999999999999999" = 2 ^ 63 - 1.
Proof. vm_compute. repeat split. Qed.

(** With the 09:00 appointment of January 10 in the table, whatever its
    status, the fifteen other slots are available. *)
Example availability_jan10 :
  v1.GetDoctorAvailability (sample.db "pending") sample.jan01 1 (Some "2025-01-10"%string)
  = Some (c_JSON 200
            (availability_body 1 "2025-01-10"
               ["09:30"; "10:00"; "10:30"; "11:00"; "11:30"; "12:00"; "12:30"; "13:00";
                "13:30"; "14:00"; "14:30"; "15:00"; "15:30"; "16:00"; "16:30"]%string)).
Proof. vm_compute. reflexivity. Qed.

(** Without the [date] parameter the day is today's. *)
Example availability_today :
  v1.GetDoctorAvailability (sample.db "pending") sample.jan10_0900 1 None
  = v1.GetDoctorAvailability (sample.db "pending") sample.jan01 1 (Some "2025-01-10"%string).
Proof. vm_compute. reflexivity. Qed.

Example availability_bad_date :
  v1.GetDoctorAvailability (sample.db "pending") sample.jan01 1 (Some "10/01/2025"%string)
  = Some (v1.respond_error 400 "Invalid date format. Use YYYY-MM-DD").
Proof. vm_compute. reflexivity. Qed.

(** The example of the specification: booking doctor 1 at
    2025-01-10T09:00:00Z with notes "checkup" is answered with 201 and a
    pending appointment; the same request again is answered with 409. *)
Example booking_twice :
  let first := v1.BookAppointment sample.db0 sample.jan01 1 (inr sample.checkup) in
  status first.2 = 201
  ∧ Appointment.Status <$> rows (appointments first.1) !! 1%N = Some "pending"%string
  ∧ v1.BookAppointment first.1 sample.jan01 1 (inr sample.checkup)
    = (first.1, v1.respond_error 409 "Doctor is not available at the requested time").
Proof. vm_compute. repeat split. Qed.

(** A registration, then a login with the same credentials. *)
(** The zero instant written with an offset is no missing field: the
    request is bound and booked. *)
Example booking_zero_instant_with_offset :
  status (v1.BookAppointment sample.db0 sample.jan01 1
            (inr (v1.Build_BookRequest 1 GoTime.zero (Some 3600) "checkup"))).2
  = http.StatusCreated
  ∧ status (v1.BookAppointment sample.db0 sample.jan01 1
              (inr (v1.Build_BookRequest 1 GoTime.zero None "checkup"))).2
    = http.StatusBadRequest.
Proof. split; vm_compute; reflexivity. Qed.

(** The path parameter of the availability handler, as gorm reads it. *)
Example availability_by_param_examples :
  v1.GetDoctorAvailability_by_param sample.sql_condition sample.sql_doctor_id_is
    (sample.db "pending") sample.jan01 "1" (Some "2025-01-10"%string)
  = v1.GetDoctorAvailability (sample.db "pending") sample.jan01 1 (Some "2025-01-10"%string)
  ∧ status <$> v1.GetDoctorAvailability_by_param sample.sql_condition
                 sample.sql_doctor_id_is (sample.db "pending") sample.jan01 "01"
                 (Some "2025-01-10"%string) = Some http.StatusOK
  ∧ status <$> v1.GetDoctorAvailability_by_param sample.sql_condition
                 sample.sql_doctor_id_is (sample.db "pending") sample.jan01 "id=7 OR 1=1"
                 (Some "2025-01-10"%string) = Some http.StatusOK.
Proof. repeat split; vm_compute; reflexivity. Qed.

Example register_then_login :
  let registered :=
    v1.RegisterUser sample.db0 sample.jan01 (inr (sample.form "dana@example.com" "doctor")) in
  status registered.2 = 201
  ∧ User.Role <$> rows (users registered.1) !! 4%N = Some "doctor"%string
  ∧ Doctor.UserID <$> rows (doctors registered.1) !! 2%N = Some 4%N
  ∧ status (v1.LoginUser registered.1
              (inr (v1.Build_LoginRequest "dana@example.com" "danapassword"))) = 200.
Proof. vm_compute. repeat split. Qed.

End examples.

(** ** The calendar *)

Section calendar.
Import GoTime spec.

Lemma days_from_civil_from_days z :
  let '(y, m, d) := civil_from_days z in days_from_civil y m d = z.
Proof.
  unfold civil_from_days, days_from_civil. cbv zeta.
  repeat case_bool_decide.
  all: Z.to_euclidean_division_equations.
  all: lia.
Qed.

Lemma civil_month_range z :
  let '(y, m, d) := civil_from_days z in 1 <= m <= 12 ∧ 1 <= d <= 31.
Proof.
  unfold civil_from_days. cbv zeta.
  repeat case_bool_decide.
  all: Z.to_euclidean_division_equations.
  all: lia.
Qed.

Lemma civil_day_range z :
  let '(y, m, d) := civil_from_days z in d <= daysIn m y.
Proof.
  unfold civil_from_days, daysIn, is_leap. cbv zeta.
  repeat case_bool_decide; cbn [andb orb negb].
  all: try (repeat case_bool_decide; cbn [andb orb negb]).
  all: Z.to_euclidean_division_equations.
  all: lia.
Qed.

Lemma days_from_civil_before y m d :
  y <= -1 → 1 <= m <= 12 → 1 <= d <= 31 → days_from_civil y m d < -719528.
Proof.
  unfold days_from_civil. cbv zeta. intros.
  repeat case_bool_decide.
  all: Z.to_euclidean_division_equations.
  all: lia.
Qed.

Lemma days_from_civil_after y m d :
  10000 <= y → 1 <= m <= 12 → 1 <= d <= 31 → 2932897 <= days_from_civil y m d.
Proof.
  unfold days_from_civil. cbv zeta. intros.
  repeat case_bool_decide.
  all: Z.to_euclidean_division_equations.
  all: lia.
Qed.

Lemma four_digit_year_day t :
  four_digit_year t → -719528 <= day_of t < 2932897.
Proof.
  unfold four_digit_year, day_of, Date, secondsPerDay, Hour, Minute.
  change (days_from_civil 0 1 1) with (-719528).
  change (days_from_civil 10000 1 1) with 2932897.
  intros Ht. Z.to_euclidean_division_equations; lia.
Qed.

Lemma Parse_Format_date t :
  four_digit_year t → Parse_2006_01_02 (Format_2006_01_02 t) = Some (day_of t).
Proof.
  intros Hday%four_digit_year_day.
  pose proof (days_from_civil_from_days (day_of t)) as Hback.
  pose proof (civil_month_range (day_of t)) as Hmonth.
  pose proof (civil_day_range (day_of t)) as Hdays.
  unfold Format_2006_01_02.
  destruct (civil_from_days (day_of t)) as [[y m] d].
  assert (0 <= y <= 9999) as Hy.
  { destruct (decide (y <= -1)) as [Hlo|Hlo].
    { pose proof (days_from_civil_before y m d Hlo). lia. }
    destruct (decide (10000 <= y)) as [Hhi|Hhi]; [|lia].
    pose proof (days_from_civil_after y m d Hhi). lia. }
  unfold Parse_2006_01_02, two_digits, two_digits_then. cbn [String.list_ascii_of_string].
  rewrite bool_decide_eq_true_2 by done. cbn [andb].
  repeat (rewrite num2_two_digits by (Z.to_euclidean_division_equations; lia);
          cbn [mbind option_bind]).
  replace (100 * (y `div` 100) + y `mod` 100) with y
    by (Z.to_euclidean_division_equations; lia).
  rewrite !bool_decide_eq_true_2 by lia. cbn [andb]. by rewrite Hback.
Qed.

End calendar.

(** ** More on the availability calculator *)

Section availability_param.
Context `{Externals}.
Variable sql_condition : string → option (N → Doctor.t → bool).
Variable sql_doctor_id_is : string → option (N → bool).
Import GoTime gorm spec.

Lemma Where_ext {A : Type} `{GormModel A} (t : Table A) (c1 c2 : N → A → bool) :
  (∀ k a, c1 k a = c2 k a) → Where t c1 = Where t c2.
Proof.
  intros Hext. unfold Where. apply list_filter_iff. intros [k a]. simpl.
  by rewrite Hext.
Qed.

Lemma First_ext {A : Type} `{GormModel A} up (t : Table A) (c1 c2 : N → A → bool) :
  (∀ k a, c1 k a = c2 k a) → First up t c1 = First up t c2.
Proof. intros Hext. unfold First. by rewrite (Where_ext t c1 c2 Hext). Qed.

Lemma Find_ext {A : Type} `{GormModel A} up (t : Table A) (c1 c2 : N → A → bool) :
  (∀ k a, c1 k a = c2 k a) → Find up t c1 = Find up t c2.
Proof. intros Hext. unfold Find. by rewrite (Where_ext t c1 c2 Hext). Qed.

(** On the decimal numeral of a key, read by the database as that key,
    the handler on the path parameter is the handler on the key. *)
Lemma GetDoctorAvailability_by_param_numeral db now (doctorID : N) date :
  strconv_Atoi (pretty doctorID) = Some (Z.of_N doctorID) →
  sql_doctor_id_is (pretty doctorID) = Some (λ k, bool_decide (k = doctorID)) →
  v1.GetDoctorAvailability_by_param sql_condition sql_doctor_id_is db now (pretty doctorID) date
  = v1.GetDoctorAvailability db now doctorID date.
Proof.
  intros Hnumeral Htest.
  unfold v1.GetDoctorAvailability_by_param, v1.GetDoctorAvailability,
    v1.First_doctor_by_param.
  rewrite Hnumeral, Htest.
  rewrite (First_ext _ _ (λ k _, bool_decide (Z.of_N k = Z.of_N doctorID))
             (λ k _, bool_decide (k = doctorID))); [done|].
  intros k _. apply bool_decide_ext. lia.
Qed.



End availability_param.

Section availability_more.
Context `{Externals}.
Import GoTime gorm spec.

(** X2. For every instant of the years 0000 to 9999 the date that
    [Format("2006-01-02")] writes is read back by [time.Parse] as the day
    of that instant; so a request without the [date] parameter is never
    answered with 400. *)
Theorem availability_default_date_is_read db now doctorID :
  four_digit_year now →
  Parse_2006_01_02 (Format_2006_01_02 now) = Some (day_of now)
  ∧ ∀ r, v1.GetDoctorAvailability db now doctorID None = Some r →
         status r ≠ http.StatusBadRequest.
Proof.
  intros Hnow. pose proof (Parse_Format_date now Hnow) as Hparse. split; [done|].
  unfold v1.GetDoctorAvailability. cbn [DefaultQuery default]. rewrite Hparse.
  destruct (First _ _ _) as [?|?]; [|by intros r [= <-]].
  rewrite window_slots. cbn [mbind option_bind].
  by destruct (Find _ _ _) as [?|?]; intros r [= <-].
Qed.

(** X3. The slot loop ends for every window within the years 0000 to
    9999 and every positive duration below 153722868 minutes, the range
    in which the step of the source does not wrap: with the fuel the
    handler gives it, it returns the slots it was given followed by one
    slot per started period of the window. The handler runs it with 30
    minutes, and so answers every request. *)
Theorem slot_loop_terminates (currentTime endTime duration : Z) (timeSlots : list string) :
  0 < duration < 153722868 →
  four_digit_year currentTime → four_digit_year endTime →
  (∃ l, v1.generate_slots (Z.to_nat (endTime - currentTime)) currentTime endTime duration
          timeSlots = Some (timeSlots ++ l)
        ∧ Z.of_nat (length l)
          = Z.max 0 ((endTime - currentTime + duration * 60 - 1) `div` (duration * 60)))
  ∧ ∀ db now doctorID date, is_Some (v1.GetDoctorAvailability db now doctorID date).
Proof.
  intros [Hd _] _ _. split.
  - destruct (decide (endTime <= currentTime)) as [Hle|Hlt].
    + exists []. rewrite app_nil_r. split.
      * destruct (Z.to_nat _); simpl; unfold Before; by rewrite bool_decide_eq_false_2 by lia.
      * simpl. Z.to_euclidean_division_equations; nia.
    + set (n := (endTime - currentTime + duration * 60 - 1) `div` (duration * 60)).
      assert (1 <= n ∧ (n - 1) * (duration * 60) < endTime - currentTime
              ∧ endTime - currentTime <= n * (duration * 60) ∧ n <= endTime - currentTime)
        as (Hn1 & Hlo & Hhi & Hfuel).
      { unfold n. Z.to_euclidean_division_equations. nia. }
      eexists. split.
      * apply (generate_slots_steps (Z.to_nat n)); unfold Minute; try lia.
      * rewrite length_fmap, length_seq. lia.
  - intros db now doctorID date. unfold v1.GetDoctorAvailability.
    destruct (Parse_2006_01_02 _); [|eauto].
    destruct (First _ _ _) as [?|?]; [|eauto].
    rewrite window_slots. cbn [mbind option_bind].
    destruct (Find _ _ _); eauto.
Qed.

End availability_more.

(* ================================================================== *)
(** ** Booking, continued *)

Section booking_more.
Context `{Externals}.
Import GoTime gorm spec.

(** The rows after a booking. *)
Lemma BookAppointment_rows db now userID body :
  let out := v1.BookAppointment db now userID body in
  users out.1 = users db ∧ doctors out.1 = doctors db ∧ online out.1 = online db
  ∧ ((rows (appointments out.1) = rows (appointments db) ∧ status out.2 ≠ http.StatusCreated)
     ∨ ∃ id a, rows (appointments db) !! id = None
               ∧ rows (appointments out.1) = <[id := a]> (rows (appointments db))
               ∧ status out.2 = http.StatusCreated).
Proof.
  unfold v1.BookAppointment.
  destruct (binding.ShouldBindJSON _ body) as [err|req]; [by repeat split; left|].
  destruct (First _ (doctors db) _) as [d|e1]; [|by repeat split; left].
  destruct (First _ (appointments db) _) as [r|e2]; [by repeat split; left|].
  destruct (Create _ _ _ _ _) as [tbl created] eqn:Hcreate.
  apply Create_rows in Hcreate. destruct created as [id|e3].
  - destruct Hcreate as (Hrows & Hfresh & _). repeat split. right. by eexists id, _.
  - repeat split. by left.
Qed.

(** X4. A booking never touches the users or the doctors, and never
    changes or removes an appointment that is there: it adds one row under
    an unused key exactly when it answers 201, and otherwise leaves the
    rows as they are. *)
Theorem booking_only_adds db now userID body :
  let out := v1.BookAppointment db now userID body in
  users out.1 = users db ∧ doctors out.1 = doctors db
  ∧ (∀ id a, rows (appointments db) !! id = Some a →
             rows (appointments out.1) !! id = Some a)
  ∧ (status out.2 = http.StatusCreated
     ↔ ∃ id a, rows (appointments db) !! id = None
               ∧ rows (appointments out.1) = <[id := a]> (rows (appointments db)))
  ∧ (status out.2 ≠ http.StatusCreated →
     rows (appointments out.1) = rows (appointments db)).
Proof.
  destruct (BookAppointment_rows db now userID body) as (Hu & Hd & _ & Hrows).
  cbv zeta. split; [done|]. split; [done|].
  destruct Hrows as [[Hsame Hstatus]|(id & a & Hfresh & Hnew & Hstatus)].
  - rewrite Hsame. split; [done|]. split; [|done]. split; [done|].
    intros (id & a & Hfresh & Hnew). exfalso.
    assert (rows (appointments db) !! id = Some a) as Hin
      by (rewrite Hnew; apply lookup_insert_eq).
    congruence.
  - rewrite Hnew. split; [|split; [|done]].
    + intros k a' Hk. rewrite lookup_insert_ne; [done|]. intros <-. congruence.
    + split; [|done]. intros _. by exists id, a.
Qed.

(** X5. A booking that succeeded makes the same slot unbookable: any
    request for that doctor at that instant, from any patient and with any
    notes, is then refused and changes nothing. It is answered with 409
    when it can be bound, and with 400 when it cannot (the zero instant
    written without an offset reads as a missing field). *)
Theorem booking_twice_conflicts db now now' userID userID' req req' doc :
  online db = true →
  v1.validate_BookRequest req = [] →
  live (doctors db) (v1.req_DoctorID req) doc →
  is_Some (rows (users db) !! userID) →
  seq_ahead (appointments db) →
  (∀ id a, live (appointments db) id a →
           Appointment.DoctorID a = v1.req_DoctorID req →
           Appointment.StartTime a ≠ v1.req_ScheduledAt req) →
  v1.req_DoctorID req' = v1.req_DoctorID req →
  v1.req_ScheduledAt req' = v1.req_ScheduledAt req →
  let db' := (v1.BookAppointment db now userID (inr req)).1 in
  status (v1.BookAppointment db now userID (inr req)).2 = http.StatusCreated
  ∧ (v1.validate_BookRequest req' = [] →
     v1.BookAppointment db' now' userID' (inr req')
     = (db', v1.respond_error http.StatusConflict
               "Doctor is not available at the requested time"))
  ∧ (v1.validate_BookRequest req' ≠ [] →
     ∃ err, v1.BookAppointment db' now' userID' (inr req')
            = (db', v1.respond_error http.StatusBadRequest err)).
Proof.
  intros Hup Hvalid Hdoc Hpatient Hseq Hfree Hd Ht.
  destruct (BookAppointment_created db now userID req doc) as [Hbook Hfresh]; try done.
  cbv zeta. rewrite Hbook. split; [done|]. cbn [fst]. split.
  2:{ intros Hinvalid. eexists. by apply BookAppointment_bind_error, ShouldBindJSON_invalid. }
  intros Hvalid'.
  eapply (BookAppointment_conflict _ now' userID' req' doc (seq (appointments db) + 1)%N);
    try done.
  - by rewrite Hd.
  - split; [apply lookup_insert_eq|done].
  - by rewrite Hd.
  - by rewrite Ht.
  - by rewrite Ht.
Qed.

End booking_more.

Section booking_availability.
Context `{Externals}.
Import GoTime gorm spec.

(** X6. Booking and availability fit together: after a booking that
    succeeded, the availability of that doctor on the day of the booked
    instant no longer offers the slot of that instant, and offers every
    other slot exactly if it did before. *)
Theorem booking_takes_its_slot db now now' userID req doc date :
  online db = true →
  v1.validate_BookRequest req = [] →
  live (doctors db) (v1.req_DoctorID req) doc →
  is_Some (rows (users db) !! userID) →
  seq_ahead (appointments db) →
  (∀ id a, live (appointments db) id a →
           Appointment.DoctorID a = v1.req_DoctorID req →
           Appointment.StartTime a ≠ v1.req_ScheduledAt req) →
  Parse_2006_01_02 (DefaultQuery date (Format_2006_01_02 now'))
  = Some (day_of (v1.req_ScheduledAt req)) →
  let db' := (v1.BookAppointment db now userID (inr req)).1 in
  let dateStr := DefaultQuery date (Format_2006_01_02 now') in
  ∃ before after : list string,
    v1.GetDoctorAvailability db now' (v1.req_DoctorID req) date
    = Some (c_JSON http.StatusOK (availability_body (v1.req_DoctorID req) dateStr before))
    ∧ v1.GetDoctorAvailability db' now' (v1.req_DoctorID req) date
      = Some (c_JSON http.StatusOK (availability_body (v1.req_DoctorID req) dateStr after))
    ∧ (Format_15_04 (v1.req_ScheduledAt req) ∉ after)
    ∧ ∀ slot, slot ≠ Format_15_04 (v1.req_ScheduledAt req) →
              (slot ∈ after ↔ slot ∈ before).
Proof.
  intros Hup Hvalid Hdoc Hpatient Hseq Hfree Hdate.
  destruct (BookAppointment_created db now userID req doc) as [Hbook Hfresh]; try done.
  cbv zeta. rewrite Hbook. cbn [fst].
  set (id := (seq (appointments db) + 1)%N) in *.
  set (appointment := Appointment.mk _ _ _ _ _ _ _ _ _ _) in *.
  set (db' := with_appointments db _).
  assert (∀ k a, day_appointments db' (v1.req_DoctorID req) (day_of (v1.req_ScheduledAt req)) !! k
                 = Some a
                 ↔ (k = id ∧ a = appointment)
                   ∨ (k ≠ id
                      ∧ day_appointments db (v1.req_DoctorID req)
                          (day_of (v1.req_ScheduledAt req)) !! k = Some a)) as Hday.
  { intros k a. unfold day_appointments. rewrite !map_lookup_filter_Some.
    cbn [db' with_appointments appointments rows]. rewrite lookup_insert_Some. simpl.
    split.
    - intros [[[-> <-]|[Hne Hk]] Hp]; [by left|by right].
    - intros [[-> ->]|[Hne [Hk Hp]]]; [|by split; [right|]].
      split; [by left|]. by repeat split. }
  do 2 eexists. split; [by eapply GetDoctorAvailability_ok|].
  split; [by eapply (GetDoctorAvailability_ok db')|].
  split.
  - rewrite list_elem_of_filter. intros [Hno _]. apply Hno.
    exists id, appointment. split; [|done]. apply Hday. by left.
  - intros slot Hslot. rewrite !list_elem_of_filter.
    split; intros [Hno Hin]; (split; [|done]); intros (k & a & Hk & Ha); apply Hno.
    + exists k, a. split; [|done]. apply Hday. right. split; [|done].
      intros ->. unfold day_appointments in Hk.
      apply map_lookup_filter_Some in Hk as [Hk _]. congruence.
    + apply Hday in Hk as [[-> ->]|[_ Hk]]; [|by exists k, a].
      by destruct Hslot.
Qed.

End booking_availability.

(* ================================================================== *)
(** ** The life cycle of an appointment, continued *)

Section lifecycle_more.
Context `{Externals}.
Import GoTime gorm spec.

Lemma set_Status_same a s now : same_but_status a (Appointment.set_Status s now a).
Proof. by repeat split. Qed.

Lemma same_but_status_refl a : same_but_status a a.
Proof. by repeat split. Qed.

(** What an update of the status column does to the rows. *)
Lemma Update_status_rows (t : Table Appointment.t) (cond : N → Appointment.t → bool)
    (s : string) now (k : N) :
  rows (Update true t cond (Appointment.set_Status s now)).1 !! k
  = (λ a, if bool_decide (Appointment.DeletedAt a = None) && cond k a
          then Appointment.set_Status s now a else a) <$> rows t !! k.
Proof. simpl. rewrite map_lookup_imap. by destruct (rows t !! k). Qed.

Lemma status_frame_refl id m : status_frame id m m.
Proof.
  intros k. destruct (m !! k) as [a|]; [|done].
  exists a. split; [done|]. split; [apply same_but_status_refl|done].
Qed.

Lemma Update_status_frame (t : Table Appointment.t) (cond : N → Appointment.t → bool)
    (s : string) now (id : N) :
  (∀ k a, cond k a = true → k = id) →
  status_frame id (rows t) (rows (Update true t cond (Appointment.set_Status s now)).1).
Proof.
  intros Hpk k. rewrite Update_status_rows.
  destruct (rows t !! k) as [a|]; [|done]. simpl. eexists. split; [done|].
  destruct (bool_decide _ && cond k a) eqn:Hc.
  - split; [apply set_Status_same|]. intros Hne.
    apply andb_true_iff in Hc as [_ Hc]. by apply Hpk in Hc.
  - split; [apply same_but_status_refl|done].
Qed.

(** The database after a cancellation: the one given, or that one with
    the status column of the row updated to cancelled. *)
Lemma CancelAppointment_db db now userID id :
  (v1.CancelAppointment db now userID id).1 = db
  ∨ online db = true
    ∧ (v1.CancelAppointment db now userID id).1
      = with_appointments db
          (Update true (appointments db) (λ k _, bool_decide (k = id))
             (Appointment.set_Status models.StatusCancelled now)).1.
Proof.
  unfold v1.CancelAppointment. rewrite First_own_appointment.
  destruct (online db) eqn:Hup; [|by left].
  destruct (rows (appointments db) !! id) as [a|]; [|by left].
  destruct (_ && _); [|by left].
  destruct (bool_decide (Appointment.Status a = _)); [by left|].
  right. by split.
Qed.

(** The database after a status update by a doctor. *)
Lemma UpdateAppointmentStatus_db db now userID id body :
  (v1.UpdateAppointmentStatus db now userID id body).1 = db
  ∨ ∃ doctor_ID s,
      online db = true
      ∧ s ∈ [models.StatusConfirmed; models.StatusCancelled; models.StatusCompleted]
      ∧ (v1.UpdateAppointmentStatus db now userID id body).1
        = with_appointments db
            (Update true (appointments db)
               (λ k a, bool_decide (k = id)
                       && bool_decide (Appointment.DoctorID a = doctor_ID))
               (Appointment.set_Status s now)).1.
Proof.
  unfold v1.UpdateAppointmentStatus.
  destruct (First _ _ _) as [[doctor_ID d]|e]; [|by left].
  destruct (binding.ShouldBindJSON _ body) as [err|req] eqn:Hbind; [by left|].
  apply ShouldBindJSON_inr in Hbind as [-> Hvalid].
  destruct (online db) eqn:Hup; [|by left].
  destruct (Update true _ _ _) as [tbl [n|e]] eqn:Hupd; [|by left].
  destruct (bool_decide _); [by left|].
  right. exists doctor_ID, (v1.req_Status req). split; [done|].
  split; [|by rewrite Hupd].
  unfold v1.validate_StatusRequest in Hvalid. apply field_nil in Hvalid.
  rewrite !Forall_cons in Hvalid. destruct Hvalid as (_ & Hone & _).
  by apply bool_decide_eq_true in Hone.
Qed.

(** X7. Neither the doctor's status update nor the patient's cancellation
    adds or removes an appointment, touches another appointment, or
    changes anything of the appointment but its status and its update
    time; users and doctors are left alone. *)
Theorem status_changes_only_the_status db now userID id :
  (∀ body,
     let db' := (v1.UpdateAppointmentStatus db now userID id body).1 in
     users db' = users db ∧ doctors db' = doctors db
     ∧ status_frame id (rows (appointments db)) (rows (appointments db')))
  ∧ (let db' := (v1.CancelAppointment db now userID id).1 in
     users db' = users db ∧ doctors db' = doctors db
     ∧ status_frame id (rows (appointments db)) (rows (appointments db'))).
Proof.
  split.
  - intros body. cbv zeta.
    destruct (UpdateAppointmentStatus_db db now userID id body)
      as [->|(doctor_ID & s & _ & _ & ->)].
    + repeat split. apply status_frame_refl.
    + repeat split. apply Update_status_frame.
      by intros k a [?%bool_decide_eq_true _]%andb_true_iff.
  - cbv zeta. destruct (CancelAppointment_db db now userID id) as [->|[_ ->]].
    + repeat split. apply status_frame_refl.
    + repeat split. apply Update_status_frame.
      by intros k a ?%bool_decide_eq_true.
Qed.

(** X8. No handler puts an appointment back to pending: an appointment
    that is pending after a status update or a cancellation was the same
    pending appointment before. *)
Theorem pending_is_never_restored db now userID id k a' :
  Appointment.Status a' = models.StatusPending →
  (∀ body,
     rows (appointments (v1.UpdateAppointmentStatus db now userID id body).1) !! k = Some a' →
     rows (appointments db) !! k = Some a')
  ∧ (rows (appointments (v1.CancelAppointment db now userID id).1) !! k = Some a' →
     rows (appointments db) !! k = Some a').
Proof.
  intros Hpending. split.
  - intros body.
    destruct (UpdateAppointmentStatus_db db now userID id body)
      as [->|(doctor_ID & s & _ & Hs & ->)]; [done|].
    cbn [with_appointments appointments]. rewrite Update_status_rows.
    destruct (rows (appointments db) !! k) as [a|]; [|done]. simpl.
    destruct (_ && _); [|done]. intros [= <-]. simpl in Hpending. subst s.
    rewrite !elem_of_cons, elem_of_nil in Hs. destruct Hs as [?|[?|[?|[]]]]; discriminate.
  - destruct (CancelAppointment_db db now userID id) as [->|[_ ->]]; [done|].
    cbn [with_appointments appointments]. rewrite Update_status_rows.
    destruct (rows (appointments db) !! k) as [a|]; [|done]. simpl.
    destruct (_ && _); [|done]. intros [= <-]. discriminate.
Qed.

(** X9. A cancellation that succeeded cannot be repeated: the second
    request for the same appointment is answered with 400 and changes
    nothing. *)
Theorem cancel_twice_is_refused db now now' userID id a :
  online db = true → live (appointments db) id a →
  Appointment.PatientID a = userID →
  Appointment.Status a ≠ models.StatusCancelled →
  let db' := (v1.CancelAppointment db now userID id).1 in
  status (v1.CancelAppointment db now userID id).2 = http.StatusOK
  ∧ v1.CancelAppointment db' now' userID id
    = (db', v1.respond_error http.StatusBadRequest "Appointment is already cancelled").
Proof.
  intros Hup Ha Hown Hst.
  destruct (CancelAppointment_cancels db now userID id a) as (db' & Hc & Hrow); try done.
  cbv zeta. rewrite Hc. split; [done|]. cbn [fst].
  apply (CancelAppointment_already_cancelled db' now' userID id
           (Appointment.set_Status models.StatusCancelled now a)); try done.
  - destruct (CancelAppointment_db db now userID id) as [Hsame|[_ Hnew]];
      rewrite Hc in *; simpl in *; by subst.
  - split; [done|]. apply Ha.
Qed.

End lifecycle_more.

(* ================================================================== *)
(** ** The lists of appointments *)

Section status_update_errors.
Context `{Externals}.
Import GoTime gorm spec.

(** X10. The doctor's status update checks, in this order: that the
    logged-in user has a doctor profile (404 otherwise, whatever the body);
    that the body names one of confirmed, cancelled and completed (400
    otherwise, so "pending" cannot be requested); that the appointment
    exists and is that doctor's (404 otherwise). Nothing is written in
    any of these cases. *)
Theorem status_update_failure_modes db now userID id :
  ((∀ k d, live (doctors db) k d → Doctor.UserID d ≠ userID) →
   ∀ body, v1.UpdateAppointmentStatus db now userID id body
           = (db, v1.respond_error http.StatusNotFound "Doctor not found"))
  ∧ (∀ k d s, online db = true → live (doctors db) k d → Doctor.UserID d = userID →
       s ∉ [models.StatusConfirmed; models.StatusCancelled; models.StatusCompleted] →
       ∃ err, v1.UpdateAppointmentStatus db now userID id (inr (v1.Build_StatusRequest s))
              = (db, v1.respond_error http.StatusBadRequest err))
  ∧ (∀ doctorID doc s, online db = true →
       live (doctors db) doctorID doc → Doctor.UserID doc = userID →
       (∀ k d, live (doctors db) k d → Doctor.UserID d = userID → k = doctorID) →
       s ∈ [models.StatusConfirmed; models.StatusCancelled; models.StatusCompleted] →
       (∀ a, live (appointments db) id a → Appointment.DoctorID a ≠ doctorID) →
       v1.UpdateAppointmentStatus db now userID id (inr (v1.Build_StatusRequest s))
       = (db, v1.respond_error http.StatusNotFound "Appointment not found")).
Proof.
  split; [|split].
  - intros Hnone body. unfold v1.UpdateAppointmentStatus.
    destruct (online db); [|done]. rewrite First_none; [done|].
    intros k d Hk. by apply bool_decide_eq_false_2, (Hnone k).
  - intros k d s Hup Hd Huser Hs. unfold v1.UpdateAppointmentStatus. rewrite Hup.
    destruct (First_found (doctors db) (λ _ d0, bool_decide (Doctor.UserID d0 = userID)) (k, d))
      as [[k' d'] ->].
    { apply elem_of_Where. destruct Hd as [Hrow Hlive]. simpl.
      by rewrite bool_decide_eq_true_2. }
    rewrite ShouldBindJSON_invalid; [by eexists|].
    intros Hvalid. apply Hs. unfold v1.validate_StatusRequest in Hvalid.
    apply field_nil in Hvalid. rewrite !Forall_cons in Hvalid.
    destruct Hvalid as (_ & Hone & _). by apply bool_decide_eq_true in Hone.
  - intros doctorID doc s Hup Hdoc Huser Huniq Hs Hforeign.
    unfold v1.UpdateAppointmentStatus. rewrite Hup.
    rewrite (First_unique (doctors db) _ doctorID doc); [|done| |].
    2:{ by apply bool_decide_eq_true_2. }
    2:{ intros k d Hk Hu%bool_decide_eq_true. by apply (Huniq k d). }
    rewrite ShouldBindJSON_valid.
    2:{ unfold v1.validate_StatusRequest, binding.field, binding.oneof, binding.required_string.
        cbn [v1.req_Status]. rewrite (bool_decide_eq_true_2 (s ∈ _)) by done.
        rewrite bool_decide_eq_false_2; [done|].
        intros ->. rewrite !elem_of_cons, elem_of_nil in Hs.
        destruct Hs as [?|[?|[?|[]]]]; discriminate. }
    assert (Where (appointments db)
              (λ k a', bool_decide (k = id) && bool_decide (Appointment.DoctorID a' = doctorID))
            = []) as Hsel.
    { rewrite (Where_pk _ _ id) by (by intros k a' [?%bool_decide_eq_true _]%andb_true_iff).
      destruct (rows (appointments db) !! id) as [a|] eqn:Hrow; [|done].
      destruct (bool_decide (deleted_at a = None)) eqn:Hlive; [|done].
      apply bool_decide_eq_true in Hlive.
      rewrite (bool_decide_eq_false_2 (Appointment.DoctorID a = doctorID));
        [by rewrite andb_false_r|].
      by apply Hforeign. }
    unfold Update. by rewrite Hsel.
Qed.

End status_update_errors.

Section lists.
Context `{Externals}.
Import GoTime gorm spec.

Lemma later_first_spec r1 r2 : v1.later_first r1 r2 = true ↔ not_earlier r1 r2.
Proof.
  unfold v1.later_first, not_earlier.
  rewrite orb_true_iff, andb_true_iff, !bool_decide_eq_true. tauto.
Qed.

#[local] Instance later_first_trans : Transitive (λ r1 r2, v1.later_first r1 r2 = true).
Proof.
  intros r1 r2 r3. rewrite !later_first_spec. unfold not_earlier. lia.
Qed.

#[local] Instance later_first_total : Total (λ r1 r2, v1.later_first r1 r2 = true).
Proof.
  intros r1 r2. rewrite !later_first_spec. unfold not_earlier. lia.
Qed.

Lemma StronglySorted_weaken {A} (R R' : relation A) (l : list A) :
  (∀ x y, R x y → R' x y) → StronglySorted R l → StronglySorted R' l.
Proof.
  intros HR. induction 1 as [|x l Hl IH Hx]; constructor; [done|].
  eapply Forall_impl; [done|]. intros y. apply HR.
Qed.

Lemma sort_by_later_first (l : list (N * Appointment.t)) :
  v1.sort_by v1.later_first l ≡ₚ l
  ∧ StronglySorted not_earlier (v1.sort_by v1.later_first l).
Proof.
  unfold v1.sort_by. split; [apply merge_sort_Permutation|].
  eapply StronglySorted_weaken; [|apply (StronglySorted_merge_sort _)].
  intros r1 r2. apply later_first_spec.
Qed.

End lists.

Section lists_more.
Context `{Externals}.
Import GoTime gorm spec.

Lemma appointment_filters_reads status startDate endDate lo hi :
  reads_as startDate lo → reads_as endDate hi →
  ∃ keep, v1.appointment_filters "appointment_date" status startDate endDate = Some keep
    ∧ ∀ a, keep a = true
           ↔ (status = ""%string ∨ Appointment.Status a = status)
             ∧ within lo hi (Appointment.AppointmentDate a).
Proof.
  intros Hlo Hhi. unfold v1.appointment_filters, within.
  destruct Hlo as [[-> ->]|(Hs & [l ->] & Hl)], Hhi as [[-> ->]|(He & [h ->] & Hh)];
    rewrite ?(bool_decide_eq_false_2 _ Hs), ?(bool_decide_eq_false_2 _ He), ?Hl, ?Hh;
    cbn; eexists; (split; [done|]); intros a;
    rewrite ?andb_true_iff, orb_true_iff, ?bool_decide_eq_true;
    (split; [intros Hkeep; split; [tauto|]; split; intros ? [= <-]; tauto
            |intros (Hst & Hl' & Hh'); repeat split; try tauto;
             [by apply Hl' || by apply Hh'..]]).
Qed.

Lemma find_appointments_listed db (owner : Appointment.t → bool) status startDate endDate lo hi :
  online db = true → reads_as startDate lo → reads_as endDate hi →
  ∃ l, v1.find_appointments db owner status startDate endDate = Ok l
    ∧ NoDup l.*1
    ∧ StronglySorted not_earlier l
    ∧ ∀ r, r ∈ l ↔ listed db (λ a, owner a = true) status lo hi r.
Proof.
  intros Hup Hlo Hhi. unfold v1.find_appointments.
  destruct (appointment_filters_reads status _ _ _ _ Hlo Hhi) as (keep & -> & Hkeep).
  unfold Find. rewrite Hup. eexists. split; [done|].
  destruct (sort_by_later_first (Where (appointments db) (λ _ a, owner a && keep a)))
    as [Hperm Hsorted].
  split; [|split; [done|]].
  - rewrite Hperm. apply NoDup_Where_keys.
  - intros r. rewrite Hperm, elem_of_Where, andb_true_iff, Hkeep.
    unfold listed, live. simpl. tauto.
Qed.

Lemma find_appointments_unreadable db owner status startDate endDate :
  (startDate ≠ ""%string ∧ pg_timestamp startDate = None)
  ∨ (endDate ≠ ""%string ∧ pg_timestamp endDate = None) →
  ∃ e, v1.find_appointments db owner status startDate endDate = Err e.
Proof.
  intros Hbad. unfold v1.find_appointments, v1.appointment_filters.
  destruct Hbad as [[Hs Hnone]|[He Hnone]].
  - rewrite (bool_decide_eq_false_2 _ Hs), Hnone. cbn. by eexists.
  - rewrite (bool_decide_eq_false_2 _ He), Hnone.
    destruct (bool_decide (startDate = ""%string)); cbn;
      [|destruct (pg_timestamp startDate); cbn]; by eexists.
Qed.

(** X11. A patient's list holds exactly that patient's live appointments
    that pass the optional filters (status equal, date within the two
    bounds, both inclusive), each once, latest date first and latest start
    first on one date; a bound that the database cannot read gives 500. *)
Theorem patient_list_is_filtered_and_sorted db userID status startDate endDate :
  (∀ lo hi, online db = true → reads_as startDate lo → reads_as endDate hi →
     ∃ l, v1.GetPatientAppointments db userID status startDate endDate
          = c_JSON http.StatusOK
              (JArr ((λ r, marshal_Appointment (rows (users db)) (rows (doctors db))
                             ["Doctor"; "Doctor.User"; "Patient"]%string r.1 r.2) <$> l))
        ∧ NoDup l.*1
        ∧ StronglySorted not_earlier l
        ∧ ∀ r, r ∈ l ↔ listed db (λ a, Appointment.PatientID a = userID) status lo hi r)
  ∧ ((startDate ≠ ""%string ∧ pg_timestamp startDate = None)
     ∨ (endDate ≠ ""%string ∧ pg_timestamp endDate = None) →
     v1.GetPatientAppointments db userID status startDate endDate
     = v1.respond_error http.StatusInternalServerError "Failed to fetch appointments").
Proof.
  split.
  - intros lo hi Hup Hlo Hhi. unfold v1.GetPatientAppointments.
    destruct (find_appointments_listed db
                (λ a, bool_decide (Appointment.PatientID a = userID)) status _ _ _ _ Hup Hlo Hhi)
      as (l & -> & Hnodup & Hsorted & Hmem).
    exists l. split; [done|]. split; [done|]. split; [done|].
    intros r. rewrite Hmem. unfold listed. by rewrite bool_decide_eq_true.
  - intros Hbad. unfold v1.GetPatientAppointments.
    by destruct (find_appointments_unreadable db
                   (λ a, bool_decide (Appointment.PatientID a = userID)) status _ _ Hbad)
      as [e ->].
Qed.

(** X12. A doctor's list is looked up through the doctor profile of the
    logged-in user: with no live profile the answer is 404; otherwise it
    holds exactly the live appointments of that doctor that pass the
    filters, each once, latest first. Appointments of other doctors never
    appear. *)
Theorem doctor_list_is_own_filtered_and_sorted db userID status startDate endDate :
  ((∀ k d, live (doctors db) k d → Doctor.UserID d ≠ userID) →
   v1.GetDoctorAppointments db userID status startDate endDate
   = v1.respond_error http.StatusNotFound "Doctor not found")
  ∧ (∀ doctorID doc lo hi, online db = true →
       live (doctors db) doctorID doc → Doctor.UserID doc = userID →
       (∀ k d, live (doctors db) k d → Doctor.UserID d = userID → k = doctorID) →
       reads_as startDate lo → reads_as endDate hi →
       ∃ l, v1.GetDoctorAppointments db userID status startDate endDate
            = c_JSON http.StatusOK
                (JArr ((λ r, marshal_Appointment (rows (users db)) (rows (doctors db))
                               ["Patient"]%string r.1 r.2) <$> l))
          ∧ NoDup l.*1
          ∧ StronglySorted not_earlier l
          ∧ ∀ r, r ∈ l ↔ listed db (λ a, Appointment.DoctorID a = doctorID) status lo hi r).
Proof.
  split.
  - intros Hnone. unfold v1.GetDoctorAppointments.
    destruct (online db); [|done]. rewrite First_none; [done|].
    intros k d Hk. by apply bool_decide_eq_false_2, (Hnone k).
  - intros doctorID doc lo hi Hup Hdoc Huser Huniq Hlo Hhi.
    unfold v1.GetDoctorAppointments.
    rewrite Hup, (First_unique (doctors db) _ doctorID doc); [|done| |].
    2:{ by apply bool_decide_eq_true_2. }
    2:{ intros k d Hk Hu%bool_decide_eq_true. by apply (Huniq k d). }
    rewrite <- Hup.
    destruct (find_appointments_listed db
                (λ a, bool_decide (Appointment.DoctorID a = doctorID)) status _ _ _ _ Hup Hlo Hhi)
      as (l & -> & Hnodup & Hsorted & Hmem).
    exists l. split; [done|]. split; [done|]. split; [done|].
    intros r. rewrite Hmem. unfold listed. by rewrite bool_decide_eq_true.
Qed.

End lists_more.

(* ================================================================== *)
(** ** The paged lists *)

Section pages.
Context `{Externals}.
Import GoTime gorm spec.

(** X13. The admin's user list: [total] counts every live user that
    passes the filters, whatever the page and the limit; a filter
    [active] other than "true" selects the inactive users; no user on the
    page carries a password hash. With the database unreachable the answer
    is 500. *)
Theorem user_list_total_and_passwords db role active page limit :
  (online db = true →
   ∃ matching shown : list (N * User.t),
     v1.ListAllUsers db role active page limit
     = c_JSON http.StatusOK
         (H [("data"%string, JArr ((λ r, marshal_User r.1 r.2) <$> shown));
             ("total"%string, JNum (Z.of_nat (length matching)));
             ("page"%string, JNum (Atoi (DefaultQuery page "1")));
             ("limit"%string, JNum (Atoi (DefaultQuery limit "10")))])
     ∧ NoDup matching.*1
     ∧ (∀ r, r ∈ matching ↔ rows (users db) !! r.1 = Some r.2 ∧ user_listed role active r)
     ∧ Forall (λ r, User.Password r.2 = ""%string) shown)
  ∧ (online db = false →
     v1.ListAllUsers db role active page limit
     = v1.respond_error http.StatusInternalServerError "Failed to fetch users").
Proof.
  split; intros Hup; unfold v1.ListAllUsers, Find; rewrite Hup; [|done].
  eexists _, _. split; [done|]. split; [apply NoDup_Where_keys|]. split.
  - intros r. rewrite elem_of_Where, andb_true_iff, !orb_true_iff, !bool_decide_eq_true.
    unfold user_listed. simpl. tauto.
  - by apply Forall_fmap, Forall_true.
Qed.

(** X14. The public doctor list: [total] counts every live doctor that is
    available and passes the filters, whatever the page and the limit, so
    an unavailable doctor is never counted. With the database unreachable
    the answer is 500. *)
Theorem doctor_list_total db specialization name page limit :
  (online db = true →
   ∃ (matching : list (N * Doctor.t)) (data : JSON),
     v1.ListDoctors db specialization name page limit
     = c_JSON http.StatusOK
         (H [("data"%string, data);
             ("total"%string, JNum (Z.of_nat (length matching)));
             ("page"%string, JNum (Atoi (DefaultQuery page "1")));
             ("limit"%string, JNum (Atoi (DefaultQuery limit "10")))])
     ∧ NoDup matching.*1
     ∧ (∀ r, r ∈ matching
             ↔ rows (doctors db) !! r.1 = Some r.2 ∧ doctor_listed db specialization name r))
  ∧ (online db = false →
     v1.ListDoctors db specialization name page limit
     = v1.respond_error http.StatusInternalServerError "Failed to fetch doctors").
Proof.
  split; intros Hup; unfold v1.ListDoctors, Find; rewrite Hup; [|done].
  eexists _, _. split; [done|]. split; [apply NoDup_Where_keys|].
  intros r. rewrite elem_of_Where, !andb_true_iff, !orb_true_iff, !bool_decide_eq_true.
  unfold doctor_listed. simpl.
  destruct (rows (users db) !! Doctor.UserID r.2) as [u|].
  - split.
    + intros (? & ? & (? & ?) & [?|?]); repeat split; eauto.
    + intros (? & ? & ? & ? & [?|(u' & [= <-] & ?)]); repeat split; eauto.
  - split.
    + intros (? & ? & (? & ?) & [?|?]); repeat split; eauto; done.
    + intros (? & ? & ? & ? & [?|(u' & [=] & ?)]); repeat split; eauto.
Qed.

End pages.

(* ================================================================== *)
(** ** Registration, continued *)

Section registration_more.
Context `{Externals}.
Import GoTime gorm spec.

Lemma Table_eta {A : Type} (t : Table A) : mkTable (rows t) (seq t) = t.
Proof. by destruct t. Qed.

#[local] Ltac nothing_written :=
  cbn; rewrite ?Table_eta; split; [done|]; split; [done|]; left; auto.

(** Every way a registration can end. *)
Lemma RegisterUser_outcome db now body :
  let db' := (v1.RegisterUser db now body).1 in
  let r := (v1.RegisterUser db now body).2 in
  online db' = online db ∧ appointments db' = appointments db
  ∧ ((rows (users db') = rows (users db) ∧ rows (doctors db') = rows (doctors db)
      ∧ (status r = http.StatusBadRequest ∨ status r = http.StatusInternalServerError))
     ∨ ∃ req id hash,
         body = inr req ∧ v1.validate_RegisterRequest req = [] ∧ online db = true
         ∧ bcrypt_GenerateFromPassword (v1.reg_Password req) = Some hash
         ∧ one_more (users db) (users db') id (registered_user req hash now)
         ∧ (∀ k old, rows (users db) !! k = Some old → User.Email old ≠ v1.reg_Email req)
         ∧ (v1.reg_Role req = models.DoctorRole →
            ∃ did, one_more (doctors db) (doctors db') did (registered_doctor req id now))
         ∧ (v1.reg_Role req ≠ models.DoctorRole → rows (doctors db') = rows (doctors db))
         ∧ ((∃ token, r = c_JSON http.StatusCreated
                            (v1.AuthResponse token id (registered_user req hash now)))
            ∨ r = v1.respond_error http.StatusInternalServerError "Failed to generate token")).
Proof.
  unfold v1.RegisterUser.
  destruct (binding.ShouldBindJSON _ body) as [err|req] eqn:Hbind;
    [nothing_written|].
  apply ShouldBindJSON_inr in Hbind as [-> Hvalid].
  destruct (First _ _ _) as [?|?]; [nothing_written|].
  unfold v1.Create_User.
  destruct (bcrypt_GenerateFromPassword _) as [hash|] eqn:Hhash;
    [|nothing_written].
  destruct (Create _ _ _ (users db) _) as [users' created] eqn:Hcreate.
  pose proof Hcreate as Hrows. apply Create_rows in Hrows.
  destruct created as [id|e'];
    [|nothing_written].
  destruct Hrows as (Hrows & Hfresh & Hsame). simpl in Hsame, Hhash, Hrows.
  assert (online db = true) as Hup.
  { unfold Create in Hcreate. by destruct (online db). }
  assert (∀ k old, rows (users db) !! k = Some old → User.Email old ≠ v1.reg_Email req)
    as Hemails.
  { intros k old Hk Heq. apply Hsame in Hk. by rewrite bool_decide_eq_true_2 in Hk. }
  cbn [User.Role User.Email].
  destruct (bool_decide (v1.reg_Role req = models.DoctorRole)) eqn:Hrole.
  - apply bool_decide_eq_true in Hrole.
    destruct (Create _ _ _ (doctors _) _) as [doctors' [did|?]] eqn:Hdoc;
      [|nothing_written].
    apply Create_rows in Hdoc as (Hdrows & Hdfresh & _).
    rewrite Hup. cbn [negb].
    destruct (GenerateToken _ _ _) as [token|]; cbn; (split; [done|]); (split; [done|]);
      right; exists req, id, hash;
      (split; [done|]); (split; [done|]); (split; [done|]); (split; [done|]);
      (split; [by split|]); (split; [done|]);
      (split; [intros _; exists did; by split|]); (split; [done|]);
      [left; by eexists|by right].
  - apply bool_decide_eq_false in Hrole.
    rewrite Hup. cbn [negb].
    destruct (GenerateToken _ _ _) as [token|]; cbn; (split; [done|]); (split; [done|]);
      right; exists req, id, hash;
      (split; [done|]); (split; [done|]); (split; [done|]); (split; [done|]);
      (split; [by split|]); (split; [done|]);
      (split; [done|]); (split; [done|]);
      [left; by eexists|by right].
Qed.

(** X15. A registration is all or nothing. Either it leaves the rows of
    every table as they were and is answered with 400 or 500; or it adds
    one user row, which holds the hash of the password and is active,
    together with one doctor profile for that user exactly when the role
    is doctor, and it is answered with 201 or, the rows being committed
    before the token is signed, with 500 for a token that could not be
    signed. The appointments are never touched. *)
Theorem registration_is_all_or_nothing db now body :
  let db' := (v1.RegisterUser db now body).1 in
  let r := (v1.RegisterUser db now body).2 in
  appointments db' = appointments db
  ∧ ((rows (users db') = rows (users db) ∧ rows (doctors db') = rows (doctors db)
      ∧ (status r = 400 ∨ status r = 500))
     ∨ ∃ req id hash,
         body = inr req
         ∧ bcrypt_GenerateFromPassword (v1.reg_Password req) = Some hash
         ∧ one_more (users db) (users db') id (registered_user req hash now)
         ∧ (v1.reg_Role req = models.DoctorRole →
            ∃ did, one_more (doctors db) (doctors db') did (registered_doctor req id now))
         ∧ (v1.reg_Role req ≠ models.DoctorRole → rows (doctors db') = rows (doctors db))
         ∧ (status r = 201
            ∨ r = v1.respond_error 500 "Failed to generate token")).
Proof.
  destruct (RegisterUser_outcome db now body)
    as (_ & Happ & [Hsame | (req & id & hash & Hbody & _ & _ & Hhash & Huser & _ & Hdoc & Hnodoc & Hr)]).
  - split; [done|]. by left.
  - split; [done|]. right. exists req, id, hash. repeat (split; [done|]).
    destruct Hr as [[token ->] | ->]; [by left|by right].
Qed.

(** X16. A request that passes validation and fits the columns, for an
    address that no row holds, on a database that is reachable and whose
    sequences are ahead of the keys in use, is answered with 201: the
    answer is the object with the token signed for the new user and with
    the id, name, e-mail address and role of that user, and the stored
    password is the hash. The tables of the model do not limit their
    columns, so the limits of the schema are a precondition here. *)
Theorem registration_creates_account db now req hash token :
  let id := (seq (users db) + 1)%N in
  online db = true →
  v1.validate_RegisterRequest req = [] →
  fits_columns req hash →
  (∀ k u, rows (users db) !! k = Some u → User.Email u ≠ v1.reg_Email req) →
  seq_ahead (users db) → seq_ahead (doctors db) →
  (∀ k d, rows (doctors db) !! k = Some d → Doctor.UserID d ≠ id) →
  bcrypt_GenerateFromPassword (v1.reg_Password req) = Some hash →
  GenerateToken id (v1.reg_Email req) (v1.reg_Role req) = Some token →
  (v1.RegisterUser db now (inr req)).2
  = c_JSON http.StatusCreated
      (JStruct [("token"%string, JStr token);
                ("user"%string,
                 JStruct [("id"%string, JNum (Z.of_N id));
                          ("name"%string, JStr (v1.reg_Name req));
                          ("email"%string, JStr (v1.reg_Email req));
                          ("role"%string, JStr (v1.reg_Role req))])])
  ∧ one_more (users db) (users (v1.RegisterUser db now (inr req)).1) id
      (registered_user req hash now)
  ∧ (if bool_decide (v1.reg_Role req = models.DoctorRole)
     then one_more (doctors db) (doctors (v1.RegisterUser db now (inr req)).1)
            (seq (doctors db) + 1)%N (registered_doctor req id now)
     else rows (doctors (v1.RegisterUser db now (inr req)).1) = rows (doctors db)).
Proof.
  intros id Hup Hvalid _ Hnew Hseq Hdseq Hnodoc Hhash Htoken.
  unfold v1.RegisterUser. rewrite (ShouldBindJSON_valid _ _ Hvalid), Hup.
  rewrite First_none.
  2:{ intros k u [Hk _]. by apply bool_decide_eq_false_2, (Hnew k). }
  unfold v1.Create_User.
  cbn [User.Name User.Email User.Password User.Role User.Active User.CreatedAt
       User.UpdatedAt User.DeletedAt].
  rewrite Hhash.
  destruct (Create_fresh (λ old new, bool_decide (User.Email old = User.Email new))
              (users db) (registered_user req hash now)) as [Hcreate Hfresh]; [done| |].
  { intros k old Hk. by apply bool_decide_eq_false_2, (Hnew k). }
  unfold registered_user in Hcreate. rewrite Hcreate. fold id.
  cbn [User.Role User.Email].
  destruct (bool_decide (v1.reg_Role req = models.DoctorRole)) eqn:Hrole.
  - cbn [with_users users doctors rows].
    rewrite (bool_decide_eq_true_2 (is_Some _)) by (by rewrite lookup_insert_eq).
    destruct (Create_fresh (λ old new, bool_decide (Doctor.UserID old = Doctor.UserID new))
                (doctors db) (registered_doctor req id now)) as [Hdcreate Hdfresh]; [done| |].
    { intros k old Hk. by apply bool_decide_eq_false_2, (Hnodoc k). }
    unfold registered_doctor in Hdcreate. rewrite Hdcreate. cbn [negb].
    rewrite Htoken. cbn. by repeat split.
  - cbn [negb]. rewrite Htoken. cbn. by repeat split.
Qed.

(** X17. Logging in with the credentials of a registration that was
    answered with 201 is never refused: given that bcrypt accepts a
    password against its own hash, the answer is 200, or 500 when no token
    could be signed, and never 400, 401 or 403. *)
Theorem login_after_registration db now req :
  bcrypt_sound →
  status (v1.RegisterUser db now (inr req)).2 = http.StatusCreated →
  let login := v1.LoginUser (v1.RegisterUser db now (inr req)).1
                 (inr (v1.Build_LoginRequest (v1.reg_Email req) (v1.reg_Password req))) in
  status login = http.StatusOK
  ∨ login = v1.respond_error http.StatusInternalServerError "Failed to generate token".
Proof.
  intros Hbcrypt Hcreated.
  destruct (RegisterUser_outcome db now (inr req))
    as (Hon & _ & [(_ & _ & [Hs|Hs])
                  | (req' & id & hash & Hbody & Hvalid & Hup & Hhash & [Hrows Hfresh]
                    & Hemails & _ & _ & _)]);
    [rewrite Hs in Hcreated; discriminate..|].
  injection Hbody as <-.
  cbn zeta. unfold v1.LoginUser.
  rewrite ShouldBindJSON_valid.
  2:{ unfold v1.validate_RegisterRequest in Hvalid.
      apply app_eq_nil in Hvalid as [_ Hvalid]. apply app_eq_nil in Hvalid as [Hemail Hvalid].
      apply app_eq_nil in Hvalid as [Hpass _].
      unfold v1.validate_LoginRequest. cbn [v1.login_Email v1.login_Password].
      rewrite Hemail. cbn [app]. apply field_nil. apply field_nil in Hpass.
      rewrite !Forall_cons in Hpass. rewrite !Forall_cons. tauto. }
  rewrite Hon, Hup. cbn [v1.login_Email v1.login_Password].
  rewrite (First_unique _ _ id (registered_user req hash now)).
  - cbn [User.Password User.Active User.Email User.Role registered_user].
    rewrite (Hbcrypt _ _ Hhash). cbn [negb].
    destruct (GenerateToken _ _ _); [by left|by right].
  - split; [|done]. by rewrite Hrows, lookup_insert_eq.
  - by apply bool_decide_eq_true_2.
  - intros k u [Hk _] Heq%bool_decide_eq_true. rewrite Hrows in Hk.
    apply lookup_insert_Some in Hk as [[? _]|[_ Hk]]; [done|].
    by apply Hemails in Hk.
Qed.

(** X18. The address of a user that was soft-deleted cannot be registered
    again: the lookup for an existing user skips the deleted row, the
    unique index of the e-mail column does not, and the answer is 500 with
    nothing written. *)
Theorem deleted_email_cannot_register db now req k u :
  v1.validate_RegisterRequest req = [] →
  rows (users db) !! k = Some u → User.Email u = v1.reg_Email req →
  (∀ id u', live (users db) id u' → User.Email u' ≠ v1.reg_Email req) →
  (v1.RegisterUser db now (inr req)).2
  = v1.respond_error http.StatusInternalServerError "Failed to create user"
  ∧ rows (users (v1.RegisterUser db now (inr req)).1) = rows (users db)
  ∧ rows (doctors (v1.RegisterUser db now (inr req)).1) = rows (doctors db).
Proof.
  intros Hvalid Hk Hemail Hnolive.
  unfold v1.RegisterUser. rewrite (ShouldBindJSON_valid _ _ Hvalid).
  assert (∃ e, First (online db) (users db)
                 (λ _ u0, bool_decide (User.Email u0 = v1.reg_Email req)) = Err e) as [e ->].
  { destruct (online db); [|by eexists]. rewrite First_none; [by eexists|].
    intros id u' Hu. by apply bool_decide_eq_false_2, (Hnolive id). }
  unfold v1.Create_User.
  destruct (bcrypt_GenerateFromPassword _) as [hash|]; [|done].
  unfold Create. destruct (online db); [|done].
  rewrite (bool_decide_eq_true_2 (Exists _ _)); [by rewrite orb_true_r|].
  apply Exists_exists. exists (k, u). rewrite elem_of_map_to_list. split; [done|].
  by apply bool_decide_eq_true_2.
Qed.

End registration_more.

(* ================================================================== *)
(** ** The user controller *)

Section users_more.
Context `{Externals}.
Import GoTime gorm spec.

Lemma First_by_key {A : Type} `{GormModel A} (t : Table A) (id : N) r :
  First true t (λ k _, bool_decide (k = id)) = Ok r → r.1 = id ∧ live t id r.2.
Proof.
  intros (Hrow & Hlive & Hk%bool_decide_eq_true)%First_Ok%elem_of_Where.
  rewrite <- Hk. by repeat split.
Qed.

(** Every way a profile update can end. *)
Lemma UpdateUserProfile_outcome db now userID body :
  let db' := (v1.UpdateUserProfile db now userID body).1 in
  let r := (v1.UpdateUserProfile db now userID body).2 in
  (db' = db
   ∧ (status r = http.StatusBadRequest ∨ status r = http.StatusNotFound
      ∨ status r = http.StatusInternalServerError))
  ∨ ∃ req u password,
      body = inr req ∧ online db = true ∧ live (users db) userID u
      ∧ ((v1.upd_Password req = ""%string ∧ password = User.Password u)
         ∨ (v1.upd_Password req ≠ ""%string
            ∧ v1.hashPassword (v1.upd_Password req) = Some password))
      ∧ (∀ k old, rows (users db) !! k = Some old → k ≠ userID →
                  User.Email old ≠ User.Email (updated_user req u password now))
      ∧ db' = with_users db
                (mkTable (<[userID := updated_user req u password now]> (rows (users db)))
                         (seq (users db)))
      ∧ r = c_JSON http.StatusOK
              (H [("message"%string, JStr "Profile updated successfully");
                  ("user"%string,
                   marshal_User userID
                     (v1.clear_Password (updated_user req u password now)))]).
Proof.
  unfold v1.UpdateUserProfile.
  destruct (binding.ShouldBindJSON _ body) as [err|req] eqn:Hbind; [left; cbn; auto|].
  apply ShouldBindJSON_inr in Hbind as [-> _].
  destruct (online db) eqn:Hup; [|left; cbn; auto].
  destruct (First true (users db) _) as [[user_ID u]|?] eqn:Hfirst; [|left; cbn; auto].
  apply First_by_key in Hfirst as [Hid Hu]. simpl in Hid, Hu. subst user_ID.
  set (named := if negb (bool_decide (v1.upd_Name req = ""%string))
                then v1.with_Name (v1.upd_Name req) u else u).
  assert (named = User.mk (if bool_decide (v1.upd_Name req = ""%string)
                           then User.Name u else v1.upd_Name req)
                    (User.Email u) (User.Password u) (User.Role u) (User.Active u)
                    (User.CreatedAt u) (User.UpdatedAt u) (User.DeletedAt u)) as Hnamed.
  { unfold named. destruct (bool_decide (v1.upd_Name req = ""%string)); [|done].
    by destruct u. }
  clearbody named. subst named. cbn [User.Email].
  set (e_step := if _ && _ then _ else _).
  assert ((∃ msg, e_step = inl msg)
          ∨ e_step = inr (User.mk
                 (if bool_decide (v1.upd_Name req = ""%string)
                  then User.Name u else v1.upd_Name req)
                 (if bool_decide (v1.upd_Email req = ""%string)
                  then User.Email u else v1.upd_Email req)
                 (User.Password u) (User.Role u) (User.Active u)
                 (User.CreatedAt u) (User.UpdatedAt u) (User.DeletedAt u))) as He.
  { unfold e_step.
    destruct (bool_decide (v1.upd_Email req = ""%string)) eqn:Hempty; [by right|].
    destruct (bool_decide (v1.upd_Email req = User.Email u)) eqn:Hsame.
    - apply bool_decide_eq_true in Hsame. right. cbn. by rewrite Hsame.
    - cbn [negb andb]. destruct (First true (users db) _); [left; by eexists|by right]. }
  clearbody e_step. destruct He as [[msg ->]| ->]; [left; cbn; auto|].
  set (p_step := if negb _ then _ else _).
  assert (p_step = None
          ∨ ∃ password,
              p_step = Some (updated_user req u password (User.UpdatedAt u))
              ∧ ((v1.upd_Password req = ""%string ∧ password = User.Password u)
                 ∨ (v1.upd_Password req ≠ ""%string
                    ∧ v1.hashPassword (v1.upd_Password req) = Some password))) as Hp.
  { unfold p_step. destruct (bool_decide (v1.upd_Password req = ""%string)) eqn:Hempty.
    - apply bool_decide_eq_true in Hempty. right. exists (User.Password u).
      split; [done|]. by left.
    - apply bool_decide_eq_false in Hempty. cbn.
      destruct (v1.hashPassword (v1.upd_Password req)) as [hash|] eqn:Hhash; [|by left].
      right. exists hash. split; [done|]. by right. }
  clearbody p_step. destruct Hp as [->|(password & -> & Hpassword)]; [left; cbn; auto|].
  unfold v1.Save_User. cbn [v1.BeforeUpdate User.Password updated_user].
  destruct (bool_decide (Exists _ _)) eqn:Htaken; [left; cbn; auto|].
  apply bool_decide_eq_false in Htaken.
  right. exists req, u, password. split; [done|]. split; [done|]. split; [done|].
  split; [done|]. split; [|by split].
  intros k old Hk Hne Heq. apply Htaken, Exists_exists. exists (k, old).
  by rewrite elem_of_map_to_list.
Qed.

(** X19. A profile update writes at most the name, the e-mail address,
    the password and the update time of the logged-in user: the role, the
    active flag, the creation time and the deletion mark of that user stay,
    as do all other users, the doctors and the appointments. No user row
    appears or disappears. *)
Theorem profile_update_frame db now userID body :
  let db' := (v1.UpdateUserProfile db now userID body).1 in
  doctors db' = doctors db ∧ appointments db' = appointments db
  ∧ ∀ k, match rows (users db) !! k with
         | None => rows (users db') !! k = None
         | Some u =>
             ∃ u', rows (users db') !! k = Some u'
                   ∧ User.Role u' = User.Role u ∧ User.Active u' = User.Active u
                   ∧ User.CreatedAt u' = User.CreatedAt u
                   ∧ User.DeletedAt u' = User.DeletedAt u
                   ∧ (k ≠ userID → u' = u)
         end.
Proof.
  destruct (UpdateUserProfile_outcome db now userID body)
    as [[-> _] | (req & u & password & _ & _ & [Hu _] & _ & _ & -> & _)].
  - split; [done|]. split; [done|]. intros k.
    destruct (rows (users db) !! k) as [u|]; [|done]. by exists u.
  - split; [done|]. split; [done|]. intros k. cbn [with_users users rows].
    destruct (decide (k = userID)) as [->|Hne].
    + rewrite Hu, lookup_insert_eq. by eexists.
    + rewrite lookup_insert_ne by done.
      destruct (rows (users db) !! k) as [u0|]; [|done]. by exists u0.
Qed.

(** X20. A profile update keeps the e-mail addresses of the users
    distinct; and a request for the address of another live user is
    answered with 400 and writes nothing. *)
Theorem profile_update_keeps_emails_unique db now userID :
  (∀ body, emails_unique (users db) →
           emails_unique (users (v1.UpdateUserProfile db now userID body).1))
  ∧ (∀ req u k other,
       online db = true → live (users db) userID u → live (users db) k other →
       v1.upd_Email req ≠ ""%string → v1.upd_Email req ≠ User.Email u →
       User.Email other = v1.upd_Email req →
       v1.UpdateUserProfile db now userID (inr req)
       = (db, v1.respond_error http.StatusBadRequest "Email already in use")).
Proof.
  split.
  - intros body Huniq.
    destruct (UpdateUserProfile_outcome db now userID body)
      as [[-> _] | (req & u & password & _ & _ & [Hu _] & _ & Hfree & -> & _)]; [done|].
    intros id1 id2 u1 u2. cbn [with_users users rows].
    intros [[<- <-]|[Hne1 H1]]%lookup_insert_Some [[<- <-]|[Hne2 H2]]%lookup_insert_Some Heq.
    + done.
    + by destruct (Hfree id2 u2).
    + by destruct (Hfree id1 u1).
    + by apply (Huniq id1 id2 u1 u2).
  - intros req u k other Hup Hu Hother Hnonempty Hdiffers Hemail.
    unfold v1.UpdateUserProfile. rewrite ShouldBindJSON_valid by done. rewrite Hup.
    rewrite (First_unique (users db) _ userID u); [|done| |].
    2:{ by apply bool_decide_eq_true_2. }
    2:{ by intros ? ? _ ?%bool_decide_eq_true. }
    assert (User.Email (if negb (bool_decide (v1.upd_Name req = ""%string))
                        then v1.with_Name (v1.upd_Name req) u else u) = User.Email u) as ->
      by (by destruct (bool_decide (v1.upd_Name req = ""%string))).
    rewrite (bool_decide_eq_false_2 _ Hnonempty), (bool_decide_eq_false_2 _ Hdiffers).
    cbn [negb andb].
    destruct (First_found (users db) (λ _ u0, bool_decide (User.Email u0 = v1.upd_Email req))
                (k, other)) as [r' ->]; [|done].
    apply elem_of_Where. destruct Hother as [Hrow Hlive]. simpl.
    by rewrite bool_decide_eq_true_2.
Qed.

End users_more.

Section accounts.
Context `{Externals}.
Import GoTime gorm spec.

Lemma UpdateUserStatus_rows db now userID req k :
  online db = true →
  v1.UpdateUserStatus db now userID (inr req)
  = ((v1.UpdateUserStatus db now userID (inr req)).1,
     c_JSON http.StatusOK (message_body "User status updated successfully"))
  ∧ doctors (v1.UpdateUserStatus db now userID (inr req)).1 = doctors db
  ∧ appointments (v1.UpdateUserStatus db now userID (inr req)).1 = appointments db
  ∧ online (v1.UpdateUserStatus db now userID (inr req)).1 = true
  ∧ rows (users (v1.UpdateUserStatus db now userID (inr req)).1) !! k
    = (λ u, if bool_decide (User.DeletedAt u = None) && bool_decide (k = userID)
            then v1.set_Active (v1.req_Active req) now u else u)
      <$> rows (users db) !! k.
Proof.
  intros Hup. unfold v1.UpdateUserStatus.
  rewrite ShouldBindJSON_valid by done. unfold Update. rewrite Hup.
  cbn. repeat (split; [done|]). rewrite map_lookup_imap.
  by destruct (rows (users db) !! k).
Qed.

(** X21. The admin's status update, for a path id that is a number,
    answers 200 whenever the database can be reached, also for an id that
    no user has, in which case nothing changes. It writes only the active flag and the update time of the one
    live user: name, e-mail address, password hash and role of every user
    stay as they are, and so do the doctors and the appointments. *)
Theorem user_status_update_frame db now userID req :
  online db = true →
  let db' := (v1.UpdateUserStatus db now userID (inr req)).1 in
  (v1.UpdateUserStatus db now userID (inr req)).2
  = c_JSON http.StatusOK (message_body "User status updated successfully")
  ∧ doctors db' = doctors db ∧ appointments db' = appointments db
  ∧ ((∀ u, ¬ live (users db) userID u) → rows (users db') = rows (users db))
  ∧ ∀ k, match rows (users db) !! k with
         | None => rows (users db') !! k = None
         | Some u =>
             ∃ u', rows (users db') !! k = Some u'
                   ∧ User.Name u' = User.Name u ∧ User.Email u' = User.Email u
                   ∧ User.Password u' = User.Password u ∧ User.Role u' = User.Role u
                   ∧ (k ≠ userID → u' = u)
                   ∧ (k = userID → User.DeletedAt u = None →
                      User.Active u' = v1.req_Active req)
         end.
Proof.
  intros Hup db'. subst db'.
  split; [|split; [|split; [|split]]].
  - by destruct (UpdateUserStatus_rows db now userID req 0%N Hup) as (-> & _).
  - by destruct (UpdateUserStatus_rows db now userID req 0%N Hup) as (_ & ? & _).
  - by destruct (UpdateUserStatus_rows db now userID req 0%N Hup) as (_ & _ & ? & _).
  - intros Hnone. apply map_eq. intros k.
    destruct (UpdateUserStatus_rows db now userID req k Hup) as (_ & _ & _ & _ & ->).
    destruct (rows (users db) !! k) as [u|] eqn:Hk; [|done]. cbn.
    destruct (bool_decide (User.DeletedAt u = None)) eqn:Hlive; [|done].
    destruct (bool_decide (k = userID)) eqn:Hid; [|done].
    apply bool_decide_eq_true in Hlive, Hid. subst k. by destruct (Hnone u).
  - intros k.
    destruct (UpdateUserStatus_rows db now userID req k Hup) as (_ & _ & _ & _ & ->).
    destruct (rows (users db) !! k) as [u|] eqn:Hk; [|done]. cbn. eexists. split; [done|].
    repeat case_bool_decide; cbn; (repeat (split; [done|])); try split; intros; first [done|congruence].
Qed.

(** X22. Deactivation takes effect at the next login: once the admin
    has set the flag of a user to false, a login with that user's
    credentials is answered with 403; once it is set to true the login is
    not refused. The stored password hash is not touched by the update, so
    the password still matches. *)
Theorem status_update_then_login db now userID u req active :
  online db = true → live (users db) userID u →
  v1.validate_LoginRequest req = [] →
  User.Email u = v1.login_Email req →
  (∀ k u', live (users db) k u' → User.Email u' = v1.login_Email req → k = userID) →
  bcrypt_CompareHashAndPassword (User.Password u) (v1.login_Password req) = true →
  let login := v1.LoginUser
                 (v1.UpdateUserStatus db now userID (inr (v1.Build_UpdateUserStatusRequest active))).1
                 (inr req) in
  if active
  then status login = http.StatusOK
       ∨ login = v1.respond_error http.StatusInternalServerError "Failed to generate token"
  else login = v1.respond_error http.StatusForbidden "Account is deactivated".
Proof.
  intros Hup [Hrow Hlive] Hvalid Hemail Huniq Hmatch login. subst login.
  set (req' := v1.Build_UpdateUserStatusRequest active).
  pose proof (λ k, UpdateUserStatus_rows db now userID req' k Hup) as Hrows.
  destruct (Hrows 0%N) as (_ & _ & _ & Hup' & _).
  unfold v1.LoginUser. rewrite (ShouldBindJSON_valid _ _ Hvalid), Hup'.
  rewrite (First_unique _ _ userID (v1.set_Active active now u)).
  - cbn [v1.set_Active User.Password User.Active User.Email User.Role].
    rewrite Hmatch. cbn [negb]. destruct active; cbn [negb]; [|done].
    destruct (GenerateToken _ _ _); [by left|by right].
  - destruct (Hrows userID) as (_ & _ & _ & _ & Hk). split; [|done].
    rewrite Hk, Hrow. cbn. simpl in Hlive.
    by rewrite (bool_decide_eq_true_2 _ Hlive), (bool_decide_eq_true_2 (userID = userID)).
  - by apply bool_decide_eq_true_2.
  - intros k u' [Hk Hlive'] Heq%bool_decide_eq_true.
    destruct (Hrows k) as (_ & _ & _ & _ & Hk'). rewrite Hk' in Hk.
    destruct (rows (users db) !! k) as [u0|] eqn:Hk0; [|done].
    cbn in Hk. apply (Huniq k u0).
    + split; [done|]. injection Hk as <-. simpl in Hlive'.
      by destruct (_ && _).
    + injection Hk as <-. by destruct (_ && _).
Qed.

(** X23. After a profile update that was answered with 200 and carried a
    new password, the user row holds a hash of that password, and a login
    with the address now stored and the new password is not refused for
    the credentials: given that bcrypt accepts a password against its own
    hash, it is answered with 200 (or 500 for the token) when the account
    is active and with 403 when it is not. *)
Theorem password_change_then_login db now userID req :
  bcrypt_sound →
  status (v1.UpdateUserProfile db now userID (inr req)).2 = http.StatusOK →
  v1.upd_Password req ≠ ""%string →
  ∃ u', live (users (v1.UpdateUserProfile db now userID (inr req)).1) userID u'
        ∧ bcrypt_GenerateFromPassword (v1.upd_Password req) = Some (User.Password u')
        ∧ ∀ login,
            login = v1.Build_LoginRequest (User.Email u') (v1.upd_Password req) →
            v1.validate_LoginRequest login = [] →
            let answer := v1.LoginUser (v1.UpdateUserProfile db now userID (inr req)).1
                            (inr login) in
            if User.Active u'
            then status answer = http.StatusOK
                 ∨ answer = v1.respond_error http.StatusInternalServerError
                              "Failed to generate token"
            else answer = v1.respond_error http.StatusForbidden "Account is deactivated".
Proof.
  intros Hbcrypt Hok Hnew.
  destruct (UpdateUserProfile_outcome db now userID (inr req))
    as [[_ [Hs|[Hs|Hs]]]
       | (req' & u & password & Hbody & Hup & [Hrow Hlive] & Hpass & Hfree & Hdb & _)];
    [rewrite Hs in Hok; discriminate..|].
  injection Hbody as <-. destruct Hpass as [[? _]|[_ Hhash]]; [done|].
  rewrite Hdb. exists (updated_user req u password now). split; [|split].
  - split; [|done]. cbn. by rewrite lookup_insert_eq.
  - done.
  - intros login -> Hvalid answer. subst answer.
    unfold v1.LoginUser. rewrite (ShouldBindJSON_valid _ _ Hvalid).
    cbn [with_users online users]. rewrite Hup.
    rewrite (First_unique _ _ userID (updated_user req u password now)).
    + cbn [v1.login_Password v1.login_Email updated_user User.Password User.Active].
      rewrite (Hbcrypt _ _ Hhash). cbn [negb].
      destruct (User.Active u); cbn [negb]; [|done].
      destruct (GenerateToken _ _ _); [by left|by right].
    + split; [|done]. cbn. by rewrite lookup_insert_eq.
    + by apply bool_decide_eq_true_2.
    + intros k u' [Hk _] Heq%bool_decide_eq_true. cbn [rows] in Hk.
      apply lookup_insert_Some in Hk as [[? _]|[Hne Hk]]; [done|].
      by destruct (Hfree k u').
Qed.

End accounts.

(* ================================================================== *)
(** ** The dashboard and the schedules of a doctor *)

Section dashboard.
Context `{Externals}.
Import GoTime gorm spec.

#[local] Instance not_later_trans :
  Transitive (λ r1 r2 : N * Appointment.t,
                bool_decide (Appointment.AppointmentDate r1.2
                             <= Appointment.AppointmentDate r2.2) = true).
Proof. intros r1 r2 r3. rewrite !bool_decide_eq_true. lia. Qed.

#[local] Instance not_later_total :
  Total (λ r1 r2 : N * Appointment.t,
           bool_decide (Appointment.AppointmentDate r1.2
                        <= Appointment.AppointmentDate r2.2) = true).
Proof. intros r1 r2. rewrite !bool_decide_eq_true. lia. Qed.

(** The upcoming appointments are the earliest ten of those after [now]. *)
Lemma upcoming_earliest db doctorID now :
  online db = true →
  ∃ l, v1.upcoming db doctorID now = Ok l
    ∧ (length l ≤ 10)%nat ∧ NoDup l.*1 ∧ StronglySorted not_later l
    ∧ (∀ r, r ∈ l → doctor_appointment db doctorID r
                    ∧ now < Appointment.AppointmentDate r.2)
    ∧ (∀ r, doctor_appointment db doctorID r → now < Appointment.AppointmentDate r.2 →
            r ∈ l ∨ (length l = 10%nat ∧ Forall (λ x, not_later x r) l)).
Proof.
  intros Hup. unfold v1.upcoming, Find. rewrite Hup.
  set (found := Where _ _).
  set (sorted := v1.sort_by _ found).
  assert (sorted ≡ₚ found) as Hperm by apply merge_sort_Permutation.
  assert (StronglySorted not_later sorted) as Hsorted.
  { eapply StronglySorted_weaken; [|apply (StronglySorted_merge_sort _)].
    intros r1 r2. apply bool_decide_eq_true. }
  assert (∀ r, r ∈ sorted ↔ doctor_appointment db doctorID r
                            ∧ now < Appointment.AppointmentDate r.2) as Hmem.
  { intros r. rewrite Hperm. unfold found.
    rewrite elem_of_Where, andb_true_iff, !bool_decide_eq_true.
    unfold doctor_appointment, live. simpl. tauto. }
  exists (take 10 sorted). split; [done|].
  rewrite <- (take_drop 10 sorted) in Hsorted.
  split; [|split; [|split; [|split]]].
  - rewrite length_take. lia.
  - eapply sublist_NoDup; [|apply fmap_sublist, sublist_take].
    rewrite Hperm. apply NoDup_Where_keys.
  - by apply StronglySorted_app_1_l in Hsorted.
  - intros r Hr. apply Hmem. rewrite <- (take_drop 10 sorted), elem_of_app. by left.
  - intros r Hr Hlater.
    assert (r ∈ take 10 sorted ++ drop 10 sorted) as [?|Hdrop]%elem_of_app
      by (rewrite take_drop; by apply Hmem); [by left|right].
    split.
    + rewrite length_take. apply list_elem_of_lookup in Hdrop as [i Hi].
      apply lookup_lt_Some in Hi. rewrite length_drop in Hi. lia.
    + apply Forall_forall. intros x Hx.
      by apply (StronglySorted_app_1_elem_of _ _ _ _ _ Hsorted).
Qed.

(** X24. The dashboard of a doctor, at a time within the years 0 to
    9999: the appointments of today are exactly the doctor's live
    appointments whose date falls on the calendar day of [now], whatever
    their status; the upcoming ones are at most ten, all strictly after
    [now], earliest first, and an appointment after [now] that is left out
    is not earlier than any that is shown. The name in the answer is empty,
    the doctor having been read without its user. *)
Theorem dashboard_today_and_next_ten db now userID doctorID doc :
  online db = true →
  live (doctors db) doctorID doc → Doctor.UserID doc = userID →
  (∀ k d, live (doctors db) k d → Doctor.UserID d = userID → k = doctorID) →
  four_digit_year now →
  ∃ today next,
    v1.GetDoctorDashboard db now userID
    = c_JSON http.StatusOK
        (H [("doctor_id"%string, JNum (Z.of_N doctorID));
            ("name"%string, JStr "");
            ("today_appointments"%string,
             JArr ((λ r, marshal_Appointment (rows (users db)) (rows (doctors db))
                           ["Patient"]%string r.1 r.2) <$> today));
            ("upcoming_appointments"%string,
             JArr ((λ r, marshal_Appointment (rows (users db)) (rows (doctors db))
                           ["Patient"]%string r.1 r.2) <$> next))])
    ∧ (∀ r, r ∈ today ↔ doctor_appointment db doctorID r
                         ∧ day_of (Appointment.AppointmentDate r.2) = day_of now)
    ∧ (length next ≤ 10)%nat ∧ StronglySorted not_later next
    ∧ (∀ r, r ∈ next → doctor_appointment db doctorID r
                       ∧ now < Appointment.AppointmentDate r.2)
    ∧ (∀ r, doctor_appointment db doctorID r → now < Appointment.AppointmentDate r.2 →
            r ∈ next ∨ (length next = 10%nat ∧ Forall (λ x, not_later x r) next)).
Proof.
  intros Hup Hdoc Huser Huniq Hyear.
  destruct (upcoming_earliest db doctorID now Hup)
    as (next & Hnext & Hlen & _ & Hsorted & Hin & Hout).
  unfold v1.GetDoctorDashboard.
  rewrite Hup, (First_unique (doctors db) _ doctorID doc); [|done| |].
  2:{ by apply bool_decide_eq_true_2. }
  2:{ intros k d Hk Hu%bool_decide_eq_true. by apply (Huniq k d). }
  rewrite (Parse_Format_date now Hyear), Hnext.
  unfold Find. eexists _, next. split; [done|]. split; [|done].
  intros r. rewrite elem_of_Where, andb_true_iff, !bool_decide_eq_true.
  unfold doctor_appointment, live. simpl. tauto.
Qed.

(** X25. Without a live doctor profile of the logged-in user the
    dashboard is answered with 404, and so it is while the database cannot
    be reached. *)
Theorem dashboard_needs_doctor db now userID :
  (online db = false ∨ ∀ k d, live (doctors db) k d → Doctor.UserID d ≠ userID) →
  v1.GetDoctorDashboard db now userID
  = v1.respond_error http.StatusNotFound "Doctor profile not found".
Proof.
  intros Hnone. unfold v1.GetDoctorDashboard.
  destruct (online db); [|done]. destruct Hnone as [?|Hnone]; [done|].
  rewrite First_none; [done|].
  intros k d Hk. by apply bool_decide_eq_false_2, (Hnone k).
Qed.

End dashboard.

Section schedules.
Context `{Externals}.
Variable marshal_Schedule : N → Schedule.t → JSON.
Import GoTime gorm spec.

(** X26. A schedule is created only by a user with a doctor profile
    (403 otherwise, whatever the body), and only from a date that reads as
    YYYY-MM-DD and two clock times that read as HH:MM with the end
    strictly after the start. The row then belongs to that doctor, is
    available, is dated at midnight of the day and holds the two times as
    the request spelled them. Any answer but 201 leaves the rows as they
    were, and the [slots] of the request are never looked at. *)
Theorem schedule_creation_checks db schedules now userID :
  ((online db = false ∨ ∀ k d, live (doctors db) k d → Doctor.UserID d ≠ userID) →
   ∀ body, v1.CreateSchedule marshal_Schedule db schedules now userID body
           = (schedules, v1.respond_error http.StatusForbidden
                           "Only doctors can create schedules"))
  ∧ (∀ body,
       let tbl := (v1.CreateSchedule marshal_Schedule db schedules now userID body).1 in
       let r := (v1.CreateSchedule marshal_Schedule db schedules now userID body).2 in
       (status r ≠ http.StatusCreated → rows tbl = rows schedules)
       ∧ (status r = http.StatusCreated →
          ∃ req id doctorID doc day startTime endTime,
            body = inr req
            ∧ live (doctors db) doctorID doc ∧ Doctor.UserID doc = userID
            ∧ Parse_2006_01_02 (v1.sch_Date req) = Some day
            ∧ Parse_15_04 (v1.sch_StartTime req) = Some startTime
            ∧ Parse_15_04 (v1.sch_EndTime req) = Some endTime
            ∧ startTime < endTime
            ∧ one_more schedules tbl id
                (Schedule.mk doctorID (Date day 0 0 0) (v1.sch_StartTime req)
                   (v1.sch_EndTime req) true now now None)))
  ∧ (∀ req slots,
       v1.CreateSchedule marshal_Schedule db schedules now userID
         (inr (v1.Build_ScheduleRequest (v1.sch_Date req) (v1.sch_StartTime req)
                 (v1.sch_EndTime req) slots))
       = v1.CreateSchedule marshal_Schedule db schedules now userID (inr req)).
Proof.
  split; [|split].
  - intros Hnone body. unfold v1.CreateSchedule.
    destruct (online db); [|done]. destruct Hnone as [?|Hnone]; [done|].
    rewrite First_none; [done|].
    intros k d Hk. by apply bool_decide_eq_false_2, (Hnone k).
  - intros body. unfold v1.CreateSchedule.
    destruct (online db) eqn:Hup; [|by cbn].
    destruct (First true (doctors db) _) as [[doctorID doc]|?] eqn:Hdoc; [|by cbn].
    apply First_Ok, elem_of_Where in Hdoc as (Hrow & Hlive & Huser%bool_decide_eq_true).
    simpl in Hrow, Hlive, Huser.
    destruct (binding.ShouldBindJSON _ body) as [err|req] eqn:Hbind; [by cbn|].
    apply ShouldBindJSON_inr in Hbind as [-> _].
    destruct (Parse_2006_01_02 _) as [day|] eqn:Hday; [|by cbn].
    destruct (Parse_15_04 (v1.sch_StartTime req)) as [startTime|] eqn:Hstart; [|by cbn].
    destruct (Parse_15_04 (v1.sch_EndTime req)) as [endTime|] eqn:Hend; [|by cbn].
    destruct (After endTime startTime) eqn:Hafter; cbn [negb]; [|by cbn].
    apply bool_decide_eq_true in Hafter.
    destruct (Create _ _ _ schedules _) as [tbl [id|e]] eqn:Hcreate.
    + apply Create_rows in Hcreate as (Hrows & Hfresh & _). cbn. split; [done|].
      intros _. by eexists req, id, doctorID, doc, day, startTime, endTime.
    + apply Create_rows in Hcreate. cbn. split; [done|]. intros [=].
  - intros [date startTime endTime slots'] slots.
    cbn [v1.sch_Date v1.sch_StartTime v1.sch_EndTime].
    unfold v1.CreateSchedule, binding.ShouldBindJSON.
    change (v1.validate_ScheduleRequest (v1.Build_ScheduleRequest date startTime endTime slots))
      with (v1.validate_ScheduleRequest
              (v1.Build_ScheduleRequest date startTime endTime slots')).
    by destruct (v1.validate_ScheduleRequest _).
Qed.

(** X27. Nothing keeps a doctor from creating the same schedule twice: a
    request that was answered with 201 is answered with 201 again, and the
    table then holds two rows for it. *)
Theorem schedule_can_be_created_twice db schedules now now' userID req :
  seq_ahead schedules →
  status (v1.CreateSchedule marshal_Schedule db schedules now userID (inr req)).2
  = http.StatusCreated →
  let once := (v1.CreateSchedule marshal_Schedule db schedules now userID (inr req)).1 in
  let twice := (v1.CreateSchedule marshal_Schedule db once now' userID (inr req)).1 in
  status (v1.CreateSchedule marshal_Schedule db once now' userID (inr req)).2
  = http.StatusCreated
  ∧ ∃ id id' s s',
      id ≠ id' ∧ rows twice = <[id' := s']> (<[id := s]> (rows schedules))
      ∧ rows schedules !! id = None ∧ rows schedules !! id' = None
      ∧ Schedule.DoctorID s' = Schedule.DoctorID s ∧ Schedule.Date s' = Schedule.Date s
      ∧ Schedule.StartTime s' = Schedule.StartTime s
      ∧ Schedule.EndTime s' = Schedule.EndTime s.
Proof.
  intros Hseq. unfold v1.CreateSchedule.
  destruct (online db) eqn:Hup; [|by cbn].
  destruct (First true (doctors db) _) as [[doctorID doc]|?] eqn:Hdoc; [|by cbn].
  apply First_Ok, elem_of_Where in Hdoc as (Hrow & _). simpl in Hrow.
  destruct (binding.ShouldBindJSON _ _) as [err|req'] eqn:Hbind; [by cbn|].
  apply ShouldBindJSON_inr in Hbind as [Hbody Hvalid]. injection Hbody as <-.
  destruct (Parse_2006_01_02 _) as [day|]; [|by cbn].
  destruct (Parse_15_04 (v1.sch_StartTime req)) as [startTime|]; [|by cbn].
  destruct (Parse_15_04 (v1.sch_EndTime req)) as [endTime|]; [|by cbn].
  destruct (After endTime startTime); cbn [negb]; [|by cbn].
  rewrite (bool_decide_eq_true_2 (is_Some _)) by (by rewrite Hrow).
  destruct (Create_fresh (λ _ _ : Schedule.t, false) schedules
              (Schedule.mk doctorID (Date day 0 0 0) (v1.sch_StartTime req)
                 (v1.sch_EndTime req) true now now None)) as [-> Hfresh]; [done..|].
  intros _. cbn [fst snd].
  destruct (Create_fresh (λ _ _ : Schedule.t, false)
              (mkTable (<[(seq schedules + 1)%N :=
                          Schedule.mk doctorID (Date day 0 0 0) (v1.sch_StartTime req)
                            (v1.sch_EndTime req) true now now None]> (rows schedules))
                       (seq schedules + 1))
              (Schedule.mk doctorID (Date day 0 0 0) (v1.sch_StartTime req)
                 (v1.sch_EndTime req) true now' now' None)) as [-> Hfresh']; [|done|].
  { intros id [s Hs]. cbn [rows seq] in *.
    apply lookup_insert_Some in Hs as [[<- _]|[_ Hs]]; [done|].
    assert (id ≤ seq schedules)%N by (by apply Hseq). lia. }
  cbn [rows seq] in *. split; [done|].
  eexists (seq schedules + 1)%N, (seq schedules + 1 + 1)%N, _, _.
  split; [lia|]. split; [done|]. split; [done|]. split; [|done].
  by apply lookup_insert_None in Hfresh' as [? _].
Qed.

End schedules.

(* ================================================================== *)
(** ** The properties above on the sample database *)

Section more_witnesses.
Import GoTime spec.
#[local] Existing Instance sample.externals.

Lemma sample_doctors st k d :
  rows (doctors (sample.db st)) !! k = Some d → k = 1%N ∧ d = sample.dr_bob.
Proof.
  simpl. intros Hrow.
  apply lookup_insert_Some in Hrow as [[<- <-]|[_ Hrow]]; [done|].
  by rewrite lookup_empty in Hrow.
Qed.

Lemma sample_no_doctor_profile st (userID : N) :
  userID ≠ 2%N → ∀ k d, live (doctors (sample.db st)) k d → Doctor.UserID d ≠ userID.
Proof. intros Hne k d [[_ ->]%sample_doctors _]. simpl. congruence. Qed.

Lemma sample_bcrypt_sound : bcrypt_sound.
Proof.
  intros password hash. cbn. intros [= <-]. by apply bool_decide_eq_true_2.
Qed.

Lemma db0_free (doctorID : N) (t : Time) :
  ∀ id a, live (appointments sample.db0) id a →
          Appointment.DoctorID a = doctorID → Appointment.StartTime a ≠ t.
Proof. intros id a [Hrow _]. simpl in Hrow. by rewrite lookup_empty in Hrow. Qed.

Lemma db0_seq_ahead : seq_ahead (appointments sample.db0).
Proof. intros id [a Ha]. simpl in Ha. by rewrite lookup_empty in Ha. Qed.

Lemma four_digit_year_jan01 : four_digit_year sample.jan01.
Proof. vm_compute. split; [by intros [=]|done]. Qed.


Lemma availability_default_date_is_read_witness :
  Parse_2006_01_02 (Format_2006_01_02 sample.jan01) = Some (day_of sample.jan01).
Proof.
  apply (proj1 (availability_default_date_is_read (sample.db "pending") sample.jan01 1
                  four_digit_year_jan01)).
Defined.

Lemma slot_loop_terminates_witness :
  ∃ l, v1.generate_slots (Z.to_nat (3600 - 0)) 0 3600 30 [] = Some ([] ++ l)
       ∧ Z.of_nat (length l) = Z.max 0 ((3600 - 0 + 30 * 60 - 1) `div` (30 * 60)).
Proof.
  destruct (slot_loop_terminates 0 3600 30 []) as [Hslots _].
  - lia.
  - vm_compute. split; [by intros [=]|done].
  - vm_compute. split; [by intros [=]|done].
  - exact Hslots.
Defined.

Lemma booking_only_adds_witness :
  ∃ id a,
    rows (appointments sample.db0) !! id = None
    ∧ rows (appointments (v1.BookAppointment sample.db0 sample.jan01 1
                            (inr sample.checkup)).1)
      = <[id := a]> (rows (appointments sample.db0)).
Proof.
  apply (proj1 (proj1 (proj2 (proj2 (proj2
           (booking_only_adds sample.db0 sample.jan01 1 (inr sample.checkup))))))).
  vm_compute. reflexivity.
Defined.

Lemma booking_twice_conflicts_witness :
  status (v1.BookAppointment sample.db0 sample.jan01 1 (inr sample.checkup)).2
  = http.StatusCreated
  ∧ v1.BookAppointment
      (v1.BookAppointment sample.db0 sample.jan01 1 (inr sample.checkup)).1
      sample.jan10_0900 3 (inr (v1.Build_BookRequest 1 sample.jan10_0900 None "again"))
    = ((v1.BookAppointment sample.db0 sample.jan01 1 (inr sample.checkup)).1,
       v1.respond_error http.StatusConflict "Doctor is not available at the requested time").
Proof.
  destruct (booking_twice_conflicts sample.db0 sample.jan01 sample.jan10_0900 1 3
              sample.checkup (v1.Build_BookRequest 1 sample.jan10_0900 None "again")
              sample.dr_bob) as (Hcreated & Hconflict & _).
  - reflexivity.
  - vm_compute. reflexivity.
  - split; reflexivity.
  - eexists. reflexivity.
  - apply db0_seq_ahead.
  - apply db0_free.
  - reflexivity.
  - reflexivity.
  - split; [exact Hcreated|]. apply Hconflict. vm_compute. reflexivity.
Defined.

Lemma booking_takes_its_slot_witness :
  ∃ before after : list string,
    v1.GetDoctorAvailability sample.db0 sample.jan01 1 (Some "2025-01-10"%string)
    = Some (c_JSON http.StatusOK (availability_body 1 "2025-01-10" before))
    ∧ v1.GetDoctorAvailability
        (v1.BookAppointment sample.db0 sample.jan01 1 (inr sample.checkup)).1
        sample.jan01 1 (Some "2025-01-10"%string)
      = Some (c_JSON http.StatusOK (availability_body 1 "2025-01-10" after))
    ∧ ("09:00"%string ∉ after)
    ∧ ∀ slot, slot ≠ "09:00"%string → (slot ∈ after ↔ slot ∈ before).
Proof.
  apply (booking_takes_its_slot sample.db0 sample.jan01 sample.jan01 1 sample.checkup
           sample.dr_bob (Some "2025-01-10"%string)).
  - reflexivity.
  - vm_compute. reflexivity.
  - split; reflexivity.
  - eexists. reflexivity.
  - apply db0_seq_ahead.
  - apply db0_free.
  - vm_compute. reflexivity.
Defined.

Lemma pending_is_never_restored_witness :
  rows (appointments (sample.db "pending")) !! 1%N = Some (sample.appointment "pending").
Proof.
  apply (proj2 (pending_is_never_restored (sample.db "pending") sample.jan01 3 1 1
                  (sample.appointment "pending") eq_refl)).
  vm_compute. reflexivity.
Defined.

Lemma cancel_twice_is_refused_witness :
  status (v1.CancelAppointment (sample.db "pending") sample.jan01 1 1).2 = http.StatusOK
  ∧ v1.CancelAppointment (v1.CancelAppointment (sample.db "pending") sample.jan01 1 1).1
      sample.jan10_0900 1 1
    = ((v1.CancelAppointment (sample.db "pending") sample.jan01 1 1).1,
       v1.respond_error http.StatusBadRequest "Appointment is already cancelled").
Proof.
  apply (cancel_twice_is_refused (sample.db "pending") sample.jan01 sample.jan10_0900 1 1
           (sample.appointment "pending")).
  - reflexivity.
  - apply sample_appointment.
  - reflexivity.
  - discriminate.
Defined.

Lemma status_update_failure_modes_witness :
  v1.UpdateAppointmentStatus (sample.db "pending") sample.jan01 1 1
    (inr (v1.Build_StatusRequest "confirmed"))
  = (sample.db "pending", v1.respond_error http.StatusNotFound "Doctor not found")
  ∧ (∃ err, v1.UpdateAppointmentStatus (sample.db "confirmed") sample.jan01 2 1
              (inr (v1.Build_StatusRequest "pending"))
            = (sample.db "confirmed", v1.respond_error http.StatusBadRequest err))
  ∧ v1.UpdateAppointmentStatus (sample.db "pending") sample.jan01 2 7
      (inr (v1.Build_StatusRequest "confirmed"))
    = (sample.db "pending", v1.respond_error http.StatusNotFound "Appointment not found").
Proof.
  split; [|split].
  - apply (proj1 (status_update_failure_modes (sample.db "pending") sample.jan01 1 1)).
    by apply sample_no_doctor_profile.
  - apply (proj1 (proj2 (status_update_failure_modes (sample.db "confirmed") sample.jan01 2 1))
             1%N sample.dr_bob).
    + reflexivity.
    + apply sample_doctor.
    + reflexivity.
    + intros Hin. rewrite !elem_of_cons, elem_of_nil in Hin.
      destruct Hin as [?|[?|[?|[]]]]; discriminate.
  - apply (proj2 (proj2 (status_update_failure_modes (sample.db "pending") sample.jan01 2 7))
             1%N sample.dr_bob).
    + reflexivity.
    + apply sample_doctor.
    + reflexivity.
    + apply sample_only_doctor.
    + left.
    + intros a [Hrow _]. simpl in Hrow.
      rewrite lookup_insert_ne in Hrow by done. by rewrite lookup_empty in Hrow.
Defined.


Lemma reads_from_jan01 : reads_as "2025-01-01" (Some sample.jan01).
Proof. right. split; [done|]. split; [by eexists|]. vm_compute. reflexivity. Qed.

Lemma reads_nothing : reads_as "" None.
Proof. by left. Qed.

Lemma patient_list_is_filtered_and_sorted_witness :
  ∃ l, v1.GetPatientAppointments (sample.db "pending") 1 "pending" "2025-01-01" ""
       = c_JSON http.StatusOK
           (JArr ((λ r, marshal_Appointment (rows (users (sample.db "pending")))
                          (rows (doctors (sample.db "pending")))
                          ["Doctor"; "Doctor.User"; "Patient"]%string r.1 r.2) <$> l))
     ∧ NoDup l.*1
     ∧ StronglySorted not_earlier l
     ∧ ∀ r, r ∈ l ↔ listed (sample.db "pending") (λ a, Appointment.PatientID a = 1%N)
                      "pending" (Some sample.jan01) None r.
Proof.
  apply (proj1 (patient_list_is_filtered_and_sorted (sample.db "pending") 1 "pending"
                  "2025-01-01" "") (Some sample.jan01) None).
  - reflexivity.
  - apply reads_from_jan01.
  - apply reads_nothing.
Defined.

Lemma doctor_list_is_own_filtered_and_sorted_witness :
  v1.GetDoctorAppointments (sample.db "pending") 1 "" "" ""
  = v1.respond_error http.StatusNotFound "Doctor not found"
  ∧ ∃ l, v1.GetDoctorAppointments (sample.db "pending") 2 "" "2025-01-01" ""
         = c_JSON http.StatusOK
             (JArr ((λ r, marshal_Appointment (rows (users (sample.db "pending")))
                            (rows (doctors (sample.db "pending")))
                            ["Patient"]%string r.1 r.2) <$> l))
       ∧ NoDup l.*1
       ∧ StronglySorted not_earlier l
       ∧ ∀ r, r ∈ l ↔ listed (sample.db "pending") (λ a, Appointment.DoctorID a = 1%N)
                        "" (Some sample.jan01) None r.
Proof.
  split.
  - apply (proj1 (doctor_list_is_own_filtered_and_sorted (sample.db "pending") 1 "" "" "")).
    by apply sample_no_doctor_profile.
  - apply (proj2 (doctor_list_is_own_filtered_and_sorted (sample.db "pending") 2 ""
                    "2025-01-01" "") 1%N sample.dr_bob (Some sample.jan01) None).
    + reflexivity.
    + apply sample_doctor.
    + reflexivity.
    + apply sample_only_doctor.
    + apply reads_from_jan01.
    + apply reads_nothing.
Defined.

Lemma user_list_total_and_passwords_witness :
  ∃ matching shown : list (N * User.t),
    v1.ListAllUsers (sample.db "pending") "patient" "false" None None
    = c_JSON http.StatusOK
        (H [("data"%string, JArr ((λ r, marshal_User r.1 r.2) <$> shown));
            ("total"%string, JNum (Z.of_nat (length matching)));
            ("page"%string, JNum (Atoi (DefaultQuery None "1")));
            ("limit"%string, JNum (Atoi (DefaultQuery None "10")))])
    ∧ NoDup matching.*1
    ∧ (∀ r, r ∈ matching ↔ rows (users (sample.db "pending")) !! r.1 = Some r.2
                            ∧ user_listed "patient" "false" r)
    ∧ Forall (λ r, User.Password r.2 = ""%string) shown.
Proof.
  apply (proj1 (user_list_total_and_passwords (sample.db "pending") "patient" "false"
                  None None)).
  reflexivity.
Defined.

Lemma doctor_list_total_witness :
  ∃ (matching : list (N * Doctor.t)) (data : JSON),
    v1.ListDoctors (sample.db "pending") "cardiology" "" None None
    = c_JSON http.StatusOK
        (H [("data"%string, data);
            ("total"%string, JNum (Z.of_nat (length matching)));
            ("page"%string, JNum (Atoi (DefaultQuery None "1")));
            ("limit"%string, JNum (Atoi (DefaultQuery None "10")))])
    ∧ NoDup matching.*1
    ∧ (∀ r, r ∈ matching
            ↔ rows (doctors (sample.db "pending")) !! r.1 = Some r.2
              ∧ doctor_listed (sample.db "pending") "cardiology" "" r).
Proof.
  apply (proj1 (doctor_list_total (sample.db "pending") "cardiology" "" None None)).
  reflexivity.
Defined.

Lemma sample_new_email st (email : string) :
  email ∉ ["alice@example.com"; "bob@example.com"; "carol@example.com"]%string →
  ∀ k u, rows (users (sample.db st)) !! k = Some u → User.Email u ≠ email.
Proof.
  intros Hnew k u Hk%sample_users Heq. apply Hnew. rewrite !elem_of_cons.
  destruct Hk as [[_ ->]|[[_ ->]|[_ ->]]]; simpl in Heq; auto.
Qed.

Lemma dana_is_new :
  "dana@example.com"%string
  ∉ ["alice@example.com"; "bob@example.com"; "carol@example.com"]%string.
Proof.
  rewrite !elem_of_cons, elem_of_nil. intros [?|[?|[?|[]]]]; discriminate.
Qed.

Lemma sample_users_seq_ahead st : seq_ahead (users (sample.db st)).
Proof.
  intros id [u Hu%sample_users]. simpl.
  destruct Hu as [[-> _]|[[-> _]|[-> _]]]; lia.
Qed.

Lemma sample_doctors_seq_ahead st : seq_ahead (doctors (sample.db st)).
Proof. intros id [d [-> _]%sample_doctors]. simpl. lia. Qed.

Lemma registration_creates_account_witness :
  (v1.RegisterUser (sample.db "pending") sample.jan01
     (inr (sample.form "dana@example.com" "doctor"))).2
  = c_JSON http.StatusCreated
      (JStruct [("token"%string, JStr "tdana@example.com");
                ("user"%string,
                 JStruct [("id"%string, JNum 4);
                          ("name"%string, JStr "Dana");
                          ("email"%string, JStr "dana@example.com");
                          ("role"%string, JStr "doctor")])])
  ∧ one_more (users (sample.db "pending"))
      (users (v1.RegisterUser (sample.db "pending") sample.jan01
                (inr (sample.form "dana@example.com" "doctor"))).1) 4
      (registered_user (sample.form "dana@example.com" "doctor") "$danapassword" sample.jan01)
  ∧ one_more (doctors (sample.db "pending"))
      (doctors (v1.RegisterUser (sample.db "pending") sample.jan01
                  (inr (sample.form "dana@example.com" "doctor"))).1) 2
      (registered_doctor (sample.form "dana@example.com" "doctor") 4 sample.jan01).
Proof.
  apply (registration_creates_account (sample.db "pending") sample.jan01
           (sample.form "dana@example.com" "doctor") "$danapassword" "tdana@example.com").
  - reflexivity.
  - vm_compute. reflexivity.
  - vm_compute. repeat split; intros; discriminate.
  - apply sample_new_email, dana_is_new.
  - apply sample_users_seq_ahead.
  - apply sample_doctors_seq_ahead.
  - intros k d [_ ->]%sample_doctors. discriminate.
  - reflexivity.
  - reflexivity.
Defined.

Lemma login_after_registration_witness :
  status (v1.LoginUser
            (v1.RegisterUser (sample.db "pending") sample.jan01
               (inr (sample.form "dana@example.com" "patient"))).1
            (inr (v1.Build_LoginRequest "dana@example.com" "danapassword")))
  = http.StatusOK
  ∨ v1.LoginUser
      (v1.RegisterUser (sample.db "pending") sample.jan01
         (inr (sample.form "dana@example.com" "patient"))).1
      (inr (v1.Build_LoginRequest "dana@example.com" "danapassword"))
    = v1.respond_error http.StatusInternalServerError "Failed to generate token".
Proof.
  apply (login_after_registration (sample.db "pending") sample.jan01
           (sample.form "dana@example.com" "patient") sample_bcrypt_sound).
  vm_compute. reflexivity.
Defined.

(** A table in which Alice's account was soft-deleted. *)
Lemma deleted_email_cannot_register_witness :
  (v1.RegisterUser
     (mkDB (mkTable {[1%N := User.mk "Alice" "alice@example.com" "$alicepassword" "patient"
                               true sample.jan01 sample.jan01 (Some sample.jan01)]} 1)
           (mkTable ∅ 0) (mkTable ∅ 0) true)
     sample.jan10_0900 (inr (sample.form "alice@example.com" "patient"))).2
  = v1.respond_error http.StatusInternalServerError "Failed to create user".
Proof.
  apply (deleted_email_cannot_register
           (mkDB (mkTable {[1%N := User.mk "Alice" "alice@example.com" "$alicepassword"
                                     "patient" true sample.jan01 sample.jan01
                                     (Some sample.jan01)]} 1)
                 (mkTable ∅ 0) (mkTable ∅ 0) true)
           sample.jan10_0900 (sample.form "alice@example.com" "patient") 1%N
           (User.mk "Alice" "alice@example.com" "$alicepassword" "patient" true sample.jan01
              sample.jan01 (Some sample.jan01))).
  - vm_compute. reflexivity.
  - reflexivity.
  - reflexivity.
  - intros id u' [Hrow Hlive]. simpl in Hrow.
    apply lookup_singleton_Some in Hrow as [_ <-]. discriminate.
Defined.


Lemma profile_update_keeps_emails_unique_witness :
  emails_unique
    (users (v1.UpdateUserProfile (sample.db "pending") sample.jan10_0900 1
              (inr (v1.Build_UpdateProfileRequest "Alice A." "alice.a@example.com" ""))).1)
  ∧ v1.UpdateUserProfile (sample.db "pending") sample.jan10_0900 1
      (inr (v1.Build_UpdateProfileRequest "" "bob@example.com" ""))
    = (sample.db "pending", v1.respond_error http.StatusBadRequest "Email already in use").
Proof.
  split.
  - apply (proj1 (profile_update_keeps_emails_unique (sample.db "pending")
                    sample.jan10_0900 1)).
    apply sample_emails_unique.
  - apply (proj2 (profile_update_keeps_emails_unique (sample.db "pending")
                    sample.jan10_0900 1)
             (v1.Build_UpdateProfileRequest "" "bob@example.com" "")
             sample.alice 2%N sample.bob).
    + reflexivity.
    + split; reflexivity.
    + split; reflexivity.
    + discriminate.
    + discriminate.
    + reflexivity.
Defined.

Lemma user_status_update_frame_witness :
  (v1.UpdateUserStatus (sample.db "pending") sample.jan10_0900 7
     (inr (v1.Build_UpdateUserStatusRequest false))).2
  = c_JSON http.StatusOK (message_body "User status updated successfully")
  ∧ rows (users (v1.UpdateUserStatus (sample.db "pending") sample.jan10_0900 7
                   (inr (v1.Build_UpdateUserStatusRequest false))).1)
    = rows (users (sample.db "pending")).
Proof.
  pose proof (user_status_update_frame (sample.db "pending") sample.jan10_0900 7
                (v1.Build_UpdateUserStatusRequest false) eq_refl) as Hframe.
  split.
  - apply Hframe.
  - apply (proj1 (proj2 (proj2 (proj2 Hframe)))).
    intros u [Hrow%sample_users _]. by destruct Hrow as [[? _]|[[? _]|[? _]]].
Defined.

Lemma status_update_then_login_witness :
  v1.LoginUser
    (v1.UpdateUserStatus (sample.db "pending") sample.jan10_0900 1
       (inr (v1.Build_UpdateUserStatusRequest false))).1
    (inr (v1.Build_LoginRequest "alice@example.com" "alicepassword"))
  = v1.respond_error http.StatusForbidden "Account is deactivated".
Proof.
  apply (status_update_then_login (sample.db "pending") sample.jan10_0900 1 sample.alice
           (v1.Build_LoginRequest "alice@example.com" "alicepassword") false).
  - reflexivity.
  - split; reflexivity.
  - vm_compute. reflexivity.
  - reflexivity.
  - apply (sample_email_owner "pending" "alice@example.com" 1%N sample.alice).
    + split; reflexivity.
    + reflexivity.
  - vm_compute. reflexivity.
Defined.

Lemma password_change_then_login_witness :
  ∃ u',
    live (users (v1.UpdateUserProfile (sample.db "pending") sample.jan10_0900 1
                   (inr (v1.Build_UpdateProfileRequest "" "" "newpassword"))).1) 1 u'
    ∧ bcrypt_GenerateFromPassword "newpassword" = Some (User.Password u').
Proof.
  destruct (password_change_then_login (sample.db "pending") sample.jan10_0900 1
              (v1.Build_UpdateProfileRequest "" "" "newpassword") sample_bcrypt_sound)
    as (u' & Hlive & Hhash & _).
  - vm_compute. reflexivity.
  - discriminate.
  - by exists u'.
Defined.

Lemma dashboard_today_and_next_ten_witness :
  ∃ today next,
    v1.GetDoctorDashboard (sample.db "pending") sample.jan01 2
    = c_JSON http.StatusOK
        (H [("doctor_id"%string, JNum (Z.of_N 1));
            ("name"%string, JStr "");
            ("today_appointments"%string,
             JArr ((λ r, marshal_Appointment (rows (users (sample.db "pending")))
                           (rows (doctors (sample.db "pending")))
                           ["Patient"]%string r.1 r.2) <$> today));
            ("upcoming_appointments"%string,
             JArr ((λ r, marshal_Appointment (rows (users (sample.db "pending")))
                           (rows (doctors (sample.db "pending")))
                           ["Patient"]%string r.1 r.2) <$> next))])
    ∧ (∀ r, r ∈ today ↔ doctor_appointment (sample.db "pending") 1 r
                         ∧ day_of (Appointment.AppointmentDate r.2) = day_of sample.jan01)
    ∧ (length next ≤ 10)%nat ∧ StronglySorted not_later next
    ∧ (∀ r, r ∈ next → doctor_appointment (sample.db "pending") 1 r
                       ∧ sample.jan01 < Appointment.AppointmentDate r.2)
    ∧ (∀ r, doctor_appointment (sample.db "pending") 1 r →
            sample.jan01 < Appointment.AppointmentDate r.2 →
            r ∈ next ∨ (length next = 10%nat ∧ Forall (λ x, not_later x r) next)).
Proof.
  apply (dashboard_today_and_next_ten (sample.db "pending") sample.jan01 2 1 sample.dr_bob).
  - reflexivity.
  - apply sample_doctor.
  - reflexivity.
  - apply sample_only_doctor.
  - apply four_digit_year_jan01.
Defined.

Lemma dashboard_needs_doctor_witness :
  v1.GetDoctorDashboard (sample.db "pending") sample.jan01 1
  = v1.respond_error http.StatusNotFound "Doctor profile not found".
Proof.
  apply (dashboard_needs_doctor (sample.db "pending") sample.jan01 1).
  right. by apply sample_no_doctor_profile.
Defined.

Lemma schedule_creation_checks_witness :
  v1.CreateSchedule (λ _ _, JNull) (sample.db "pending") (mkTable ∅ 0) sample.jan01 1
    (inr (v1.Build_ScheduleRequest "2025-01-10" "09:00" "17:00" []))
  = (mkTable ∅ 0, v1.respond_error http.StatusForbidden "Only doctors can create schedules")
  ∧ ∃ req id doctorID doc day startTime endTime,
      (inr (v1.Build_ScheduleRequest "2025-01-10" "9:30" "10:00" [])
       : string + v1.ScheduleRequest) = inr req
      ∧ live (doctors (sample.db "pending")) doctorID doc ∧ Doctor.UserID doc = 2%N
      ∧ Parse_2006_01_02 (v1.sch_Date req) = Some day
      ∧ Parse_15_04 (v1.sch_StartTime req) = Some startTime
      ∧ Parse_15_04 (v1.sch_EndTime req) = Some endTime
      ∧ startTime < endTime
      ∧ one_more (mkTable ∅ 0)
          (v1.CreateSchedule (λ _ _, JNull) (sample.db "pending") (mkTable ∅ 0) sample.jan01 2
             (inr (v1.Build_ScheduleRequest "2025-01-10" "9:30" "10:00" []))).1 id
          (Schedule.mk doctorID (Date day 0 0 0) (v1.sch_StartTime req)
             (v1.sch_EndTime req) true sample.jan01 sample.jan01 None).
Proof.
  split.
  - apply (proj1 (schedule_creation_checks (λ _ _, JNull) (sample.db "pending")
                    (mkTable ∅ 0) sample.jan01 1)).
    right. by apply sample_no_doctor_profile.
  - apply (proj2 (proj1 (proj2 (schedule_creation_checks (λ _ _, JNull) (sample.db "pending")
                                  (mkTable ∅ 0) sample.jan01 2))
                    (inr (v1.Build_ScheduleRequest "2025-01-10" "9:30" "10:00" [])))).
    vm_compute. reflexivity.
Defined.

Lemma schedule_can_be_created_twice_witness :
  status (v1.CreateSchedule (λ _ _, JNull) (sample.db "pending")
            (v1.CreateSchedule (λ _ _, JNull) (sample.db "pending") (mkTable ∅ 0)
               sample.jan01 2
               (inr (v1.Build_ScheduleRequest "2025-01-10" "09:00" "17:00" []))).1
            sample.jan10_0900 2
            (inr (v1.Build_ScheduleRequest "2025-01-10" "09:00" "17:00" []))).2
  = http.StatusCreated.
Proof.
  apply (schedule_can_be_created_twice (λ _ _, JNull) (sample.db "pending") (mkTable ∅ 0)
           sample.jan01 sample.jan10_0900 2
           (v1.Build_ScheduleRequest "2025-01-10" "09:00" "17:00" [])).
  - intros id [s Hs]. simpl in Hs. by rewrite lookup_empty in Hs.
  - vm_compute. reflexivity.
Defined.

End more_witnesses.
